(** * Credify browser extension: capture orchestration and session sync

    A shallow embedding of the JavaScript sources of the extension:
    the dedup filter ([isNewContent]), the result pollers
    ([startPolling], [SessionManager.pollResults]), the session aggregator
    ([SessionManager]), the service-worker pipeline controller
    ([startPipeline], [stopPipeline], [sendToBackend]), the offscreen audio
    recorder and the keyframe sweep ([handleExtractKeyframes]).

    Every execution context of the extension is single-threaded; code
    between two suspension points ([await], timers, message delivery) runs
    atomically.  Host answers (clock readings, random draws, HTTP
    responses, media events) are explicit inputs of the embedded
    functions; requests and messages issued by the code are collected in a
    trace of effects. *)

From Stdlib Require Import Ascii String ZArith NArith QArith Qround Lia.
From Stdlib Require Import Decimal DecimalString DecimalN DecimalFacts.
From Stdlib Require Import Sorted.
From stdpp Require Import gmap strings list.

#[local] Open Scope stdpp_scope.

(* ===================================================================== *)
(** * JavaScript values used throughout                                   *)
(* ===================================================================== *)

Module Js.

(** Template-literal rendering of a non-negative integer ([`${n}`]). *)
Definition dec (n : N) : string := NilEmpty.string_of_uint (N.to_uint n).

(** A string operand of [||]: [undefined] and the empty string are falsy. *)
Definition truthy_str (o : option string) : bool :=
  match o with
  | Some (String _ _) => true
  | _ => false
  end.

(** [a || b] on possibly-undefined strings, with a defined right operand
    ([data.detected_language || 'unknown']). *)
Definition or_str (a : option string) (b : string) : string :=
  match a with
  | Some (String c s) => String c s
  | _ => b
  end.

(** [a || b] where both operands may be undefined
    ([data.translated_text || data.original_text]). *)
Definition or_opt (a b : option string) : option string :=
  if truthy_str a then a else b.

(** [x || 0.0] on an optional number: [undefined] and [0] give [0]. *)
Definition or_zero (x : option Q) : Q :=
  match x with
  | Some q => q
  | None => 0%Q
  end.

(** Characters removed by [String.prototype.trim] (ASCII range). *)
Definition is_ws (c : ascii) : bool :=
  let n := nat_of_ascii c in
  ((9 <=? n)%nat && (n <=? 13)%nat) || (n =? 32)%nat.

Fixpoint trimStart (s : string) : string :=
  match s with
  | EmptyString => EmptyString
  | String c r => if is_ws c then trimStart r else s
  end.

Definition is_empty (s : string) : bool :=
  match s with
  | EmptyString => true
  | String _ _ => false
  end.

Fixpoint trimEnd (s : string) : string :=
  match s with
  | EmptyString => EmptyString
  | String c r =>
      let r' := trimEnd r in
      if is_ws c && is_empty r' then EmptyString else String c r'
  end.

Definition trim (s : string) : string := trimEnd (trimStart s).

(** [toLowerCase] on one ASCII character: [A]..[Z] move to [a]..[z]. *)
Definition lower_char (c : ascii) : ascii :=
  let n := nat_of_ascii c in
  if (65 <=? n)%nat && (n <=? 90)%nat then ascii_of_nat (n + 32) else c.

Fixpoint toLowerCase (s : string) : string :=
  match s with
  | EmptyString => EmptyString
  | String c r => String (lower_char c) (toLowerCase r)
  end.

End Js.

(* ===================================================================== *)
(** * Dedup cache ([isNewContent], utils)                                 *)
(* ===================================================================== *)

Module DedupCache.

(** A JavaScript [Set] of strings: iteration follows insertion order, so
    the set is the list of its members, oldest first. *)
Abbreviation JsSet := (list string).

Definition set_has (x : string) (s : JsSet) : bool := bool_decide (x ∈ s).

(** [Set.prototype.add]: a member already present keeps its place. *)
Definition set_add (x : string) (s : JsSet) : JsSet :=
  if set_has x s then s else s ++ [x].

(** [s.values().next().value] *)
Definition set_first (s : JsSet) : option string := head s.

(** [Set.prototype.delete] *)
Definition set_delete (x : string) (s : JsSet) : JsSet :=
  filter (fun y => y ≠ x) s.

Definition set_size (s : JsSet) : nat := length s.

Definition MAX_CACHE : nat := 20.

Definition normalize (text : string) : string :=
  Js.toLowerCase (Js.trim text).

(** [isNewContent(text)]: the answer and the cache afterwards. *)
Definition isNewContent (text : option string) (recentTexts : JsSet)
  : bool * JsSet :=
  match text with
  | None => (false, recentTexts)
  | Some t =>
      if Js.is_empty t || Js.is_empty (Js.trim t) then (false, recentTexts)
      else
        let normalized := normalize t in
        if set_has normalized recentTexts then (false, recentTexts)
        else
          let added := set_add normalized recentTexts in
          if (MAX_CACHE <? set_size added)%nat then
            match set_first added with
            | Some first => (true, set_delete first added)
            | None => (true, added)
            end
          else (true, added)
  end.

(** The cache after a sequence of checks. *)
Definition checks (texts : list (option string)) (recentTexts : JsSet) : JsSet :=
  fold_left (fun cache t => snd (isNewContent t cache)) texts recentTexts.

End DedupCache.

(* ===================================================================== *)
(** * HTTP collaborator                                                   *)
(* ===================================================================== *)

Module Http.

(** What [await fetch(...)] followed by [await res.json()] can give: the
    fetch rejects, or a response arrives with a status and a body that
    parses ([Some]) or does not ([None]). *)
Inductive Fetch (A : Type) : Type :=
| Throws
| Response (status : Z) (json : option A).
Arguments Throws {A}.
Arguments Response {A} status json.

(** [res.ok] *)
Definition ok (status : Z) : bool := (200 <=? status)%Z && (status <=? 299)%Z.

(** Body of [GET /api/results/{session_id}] *)
Record Claim := {
  claim : string;
  verdict : string;
  explanation : option string;
  sources : list string
}.

Record Result := {
  stage : Z;
  claims : list Claim;
  total_claims : Z
}.

End Http.

(* ===================================================================== *)
(** * Result poller of the results page and of the popup ([startPolling]) *)
(* ===================================================================== *)

Module Poller.
Import Http.

(** What the page shows once [poll] has run: another [poll] is scheduled
    with [setTimeout], the report is rendered, or an error is shown. *)
Inductive Status :=
| Scheduled (delay_ms : Z)
| Rendered (result : Result)
| ShowError (msg : string).

Record PollState := {
  attempts : N;
  progress_text : string;
  status : Status
}.

(** [maxAttempts] of the results page and of the popup. *)
Definition results_maxAttempts : N := 30.
Definition popup_maxAttempts : N := 150.

(** State right after [startPolling(sessionId)] set up its locals and
    before the first [poll()] call returns. *)
Definition startPolling : PollState :=
  {| attempts := 0; progress_text := "Initializing..."; status := Scheduled 0 |}.

(** The [catch] block of [poll]. *)
Definition poll_catch (maxAttempts : N) (st : PollState) : PollState :=
  if (maxAttempts <? attempts st)%N
  then {| attempts := attempts st + 1; progress_text := progress_text st;
          status := ShowError "Connection failed." |}
  else {| attempts := attempts st + 1; progress_text := progress_text st;
          status := Scheduled 2000 |}.

(** One run of the closure [poll], given what the fetch produced. *)
Definition poll (maxAttempts : N) (res : Fetch Result) (st : PollState) : PollState :=
  match res with
  | Throws => poll_catch maxAttempts st
  | Response code body =>
      if (code =? 404)%Z then
        (* if (attempts++ > maxAttempts) *)
        if (maxAttempts <? attempts st)%N
        then {| attempts := attempts st + 1; progress_text := progress_text st;
                status := ShowError "Timed out waiting for results." |}
        else {| attempts := attempts st + 1;
                progress_text := "Analyzing... (" +:+ Js.dec (attempts st + 1) +:+ "s)";
                status := Scheduled 2000 |}
      else if negb (ok code) then poll_catch maxAttempts st
      else
        match body with
        | None => poll_catch maxAttempts st
        | Some result =>
            if (stage result =? 5)%Z
            then {| attempts := attempts st; progress_text := progress_text st;
                    status := Rendered result |}
            else {| attempts := attempts st;
                    progress_text :=
                      "Processing Stage " +:+ Js.dec (Z.to_N (stage result)) +:+ "/5...";
                    status := Scheduled 1500 |}
        end
  end.

(** The poller fed with the successive answers of the results endpoint:
    [poll] runs again only while one is scheduled. *)
Fixpoint run (maxAttempts : N) (answers : list (Fetch Result)) (st : PollState)
  : PollState :=
  match answers with
  | [] => st
  | res :: rest =>
      match status st with
      | Scheduled _ => run maxAttempts rest (poll maxAttempts res st)
      | _ => st
      end
  end.

Definition not_ready : Fetch Result := Response 404 None.

Definition timed_out (st : PollState) : bool :=
  match status st with
  | ShowError msg => bool_decide (msg = "Timed out waiting for results.")
  | _ => false
  end.

Definition still_polling (st : PollState) : bool :=
  match status st with
  | Scheduled _ => true
  | _ => false
  end.

End Poller.

(* ===================================================================== *)
(** * Session entries and capture payloads                                *)
(* ===================================================================== *)

(** Position metadata of a user selection. *)
Record SelectionMetadata := {
  page_url : string;
  page_title : string;
  position : Z * Z * Z * Z
}.

(** One text region of an OCR result. *)
Module Region.
Record t := {
  text : option string;
  confidence : option Q;
  bbox : option (list Z)
}.
End Region.

(** The loosely typed [data] object handed to [addEntry], and the body of
    the OCR and speech-to-text responses.  A field that the object does
    not carry is [None]. *)
Module Payload.
Record t := {
  text_regions : option (list Region.t);
  image_id : option string;
  detected_language : option string;
  translated_text : option string;
  original_text : option string;
  confidence : option Q;
  bbox : option (list Z);
  image_path : option string;
  selection_metadata : option SelectionMetadata;
  source : option string;
  timestamp : option string
}.

Definition empty : t :=
  {| text_regions := None; image_id := None; detected_language := None;
     translated_text := None; original_text := None; confidence := None;
     bbox := None; image_path := None; selection_metadata := None;
     source := None; timestamp := None |}.
End Payload.

(** A session entry.  Fields that an entry object does not carry (or that
    hold [null]) are [None]. *)
Module Entry.
Record t := {
  id : string;
  timestamp_created : string;
  source : string;
  image_id : option string;
  language : string;
  text : option string;
  original_text : option string;
  confidence : Q;
  bbox : option (list Z);
  timestamp_start : option string;
  image_path : option string;
  selection_metadata : option SelectionMetadata
}.
End Entry.

(** The serialized session ([getSessionData], [sessionData]). *)
Module SessionData.
Record t := {
  session_id : string;
  type : string;
  start_time : string;
  entries : list Entry.t;
  last_updated : string
}.
End SessionData.

(* ===================================================================== *)
(** * SessionManager (content context)                                    *)
(* ===================================================================== *)

Module Session.
Import Http.

Record SessionManager := {
  sessionId : string;
  startTime : string;
  entries : list Entry.t;
  autoSaveEnabled : bool;
  isPolling : bool;
  currentPollingSession : option string
}.

(** What the manager asks of its host. *)
Inductive Effect :=
| StorageSet (key : string) (data : SessionData.t) (current_session_id : string)
| FetchSaveSession (data : SessionData.t) (session_id : string) (trigger_pipeline : bool)
| SetInterval (poll_session : string) (ms : Z)
| ClearInterval (poll_session : string)
| FetchResults (poll_session : string)
| ShowPipelineResult (result : Result).

(** Host readings consumed by one [addEntry] call: [new Date().toISOString()],
    [Date.now()], [Math.floor(Math.random() * 1000)], then the clock
    reading and the backend answer of the autosave it triggers. *)
Record Host := {
  iso : string;
  now : N;
  rnd : N;
  save_iso : string;
  save_resp : Fetch string
}.

(** [new SessionManager()] *)
Definition constructor (now : N) (iso : string) : SessionManager :=
  {| sessionId := "session_" +:+ Js.dec now; startTime := iso; entries := [];
     autoSaveEnabled := true; isPolling := false; currentPollingSession := None |}.

Definition with_entries (es : list Entry.t) (sm : SessionManager) : SessionManager :=
  {| sessionId := sessionId sm; startTime := startTime sm; entries := es;
     autoSaveEnabled := autoSaveEnabled sm; isPolling := isPolling sm;
     currentPollingSession := currentPollingSession sm |}.

Definition with_polling (p : bool) (cur : option string) (sm : SessionManager)
  : SessionManager :=
  {| sessionId := sessionId sm; startTime := startTime sm; entries := entries sm;
     autoSaveEnabled := autoSaveEnabled sm; isPolling := p;
     currentPollingSession := cur |}.

(** [this.entries.push(entry)] *)
Definition push (e : Entry.t) (sm : SessionManager) : SessionManager :=
  with_entries (entries sm ++ [e]) sm.

Definition getSessionData (last_updated : string) (sm : SessionManager) : SessionData.t :=
  {| SessionData.session_id := sessionId sm;
     SessionData.type := "combined_session";
     SessionData.start_time := startTime sm;
     SessionData.entries := entries sm;
     SessionData.last_updated := last_updated |}.

(** [pollResults(sessionId)] up to and including [setInterval]. *)
Definition pollResults (sid : string) (sm : SessionManager)
  : SessionManager * list Effect :=
  if isPolling sm && bool_decide (currentPollingSession sm = Some sid)
  then (sm, [])
  else (with_polling true (Some sid) sm, [SetInterval sid 2000]).

(** [autoSave(triggerPipeline)]: the storage write and the request are
    issued at once; the code after [await fetch] starts polling when the
    save succeeded and the pipeline was triggered. *)
Definition autoSave (triggerPipeline : bool) (save_iso : string)
    (resp : Fetch string) (sm : SessionManager) : SessionManager * list Effect :=
  if negb (autoSaveEnabled sm) then (sm, [])
  else
    let sessionData := getSessionData save_iso sm in
    let issued :=
      [StorageSet ("session_" +:+ sessionId sm) sessionData (sessionId sm);
       FetchSaveSession sessionData (sessionId sm) triggerPipeline] in
    match resp with
    | Throws => (sm, issued)
    | Response code body =>
        if ok code then
          match body with
          | None => (sm, issued)   (* [response.json()] rejects: caught *)
          | Some _ =>
              if triggerPipeline then
                let '(sm', started) := pollResults (sessionId sm) sm in
                (sm', issued ++ started)
              else (sm, issued)
          end
        else (sm, issued)
    end.

(** The entry built for region number [index] of a multi-region result. *)
Definition region_entry (baseId : N) (baseTimestamp : string) (imageId : string)
    (data : Payload.t) (index : N) (region : Region.t) : Entry.t :=
  {| Entry.id := "img_txt_" +:+ Js.dec baseId +:+ "_" +:+ Js.dec index;
     Entry.timestamp_created := baseTimestamp;
     Entry.source := "image";
     Entry.image_id := Some imageId;
     Entry.language := Js.or_str (Payload.detected_language data) "unknown";
     Entry.text := Region.text region;
     Entry.original_text := None;
     Entry.confidence := Js.or_zero (Region.confidence region);
     Entry.bbox := Region.bbox region;
     Entry.timestamp_start := None;
     Entry.image_path := None;
     Entry.selection_metadata := None |}.

(** [data.text_regions.forEach((region, index) => { ...; this.entries.push(entry) })] *)
Fixpoint forEach_region (baseId : N) (baseTimestamp : string) (imageId : string)
    (data : Payload.t) (index : N) (regions : list Region.t) (sm : SessionManager)
  : SessionManager :=
  match regions with
  | [] => sm
  | region :: rest =>
      forEach_region baseId baseTimestamp imageId data (index + 1) rest
        (push (region_entry baseId baseTimestamp imageId data index region) sm)
  end.

Definition id_prefix (type : string) : string :=
  if bool_decide (type = "subtitle") then "sub"
  else if bool_decide (type = "selected_text") then "sel"
  else "img_txt".

(** The entry of the fallback / standard path of [addEntry]. *)
Definition standard_entry (type : string) (data : Payload.t) (h : Host) : Entry.t :=
  let entryId := id_prefix type +:+ "_" +:+ Js.dec (now h) +:+ "_" +:+ Js.dec (rnd h) in
  let is_sub := bool_decide (type = "subtitle") in
  let is_ocr := bool_decide (type = "screen_ocr") in
  let is_sel := bool_decide (type = "selected_text") in
  {| Entry.id := entryId;
     Entry.timestamp_created := iso h;
     Entry.source :=
       if is_sub then Js.or_str (Payload.source data) "audio"
       else if is_sel then "user_selection" else "image";
     Entry.image_id :=
       if negb is_sub && is_ocr
       then Some (Js.or_str (Payload.image_id data) ("img_" +:+ Js.dec (now h)))
       else None;
     Entry.language := Js.or_str (Payload.detected_language data) "unknown";
     Entry.text :=
       Some (Js.or_str
               (Js.or_opt (Payload.translated_text data) (Payload.original_text data)) "");
     Entry.original_text := Some (Js.or_str (Payload.original_text data) "");
     Entry.confidence := Js.or_zero (Payload.confidence data);
     Entry.bbox :=
       if negb is_sub && is_ocr then Some (default [] (Payload.bbox data)) else None;
     Entry.timestamp_start :=
       if is_sub then
         (if Js.truthy_str (Payload.timestamp data) then Payload.timestamp data else None)
       else None;
     Entry.image_path :=
       if negb is_sub && is_ocr then
         (if Js.truthy_str (Payload.image_path data) then Payload.image_path data else None)
       else None;
     Entry.selection_metadata :=
       if negb is_sub && negb is_ocr && is_sel
       then Payload.selection_metadata data else None |}.

(** [data.text_regions && data.text_regions.length > 0] *)
Definition regions_of (data : Payload.t) : list Region.t :=
  default [] (Payload.text_regions data).

(** [addEntry(type, data)] *)
Definition addEntry (type : string) (data : Payload.t) (h : Host)
    (sm : SessionManager) : SessionManager * list Effect :=
  let baseTimestamp := iso h in
  let baseId := now h in
  if bool_decide (type = "screen_ocr") && (0 <? length (regions_of data))%nat then
    let imageId := Js.or_str (Payload.image_id data) ("img_" +:+ Js.dec baseId) in
    let sm1 := forEach_region baseId baseTimestamp imageId data 0 (regions_of data) sm in
    autoSave false (save_iso h) (save_resp h) sm1
  else
    autoSave false (save_iso h) (save_resp h) (push (standard_entry type data h) sm).

(** One recorded call of [addEntry]. *)
Record Call := {
  call_type : string;
  call_data : Payload.t;
  call_host : Host
}.

Definition addEntry_call (sm : SessionManager) (c : Call) : SessionManager :=
  fst (addEntry (call_type c) (call_data c) (call_host c) sm).

(** A finite sequence of [addEntry] calls on one session. *)
Definition addEntries (calls : list Call) (sm : SessionManager) : SessionManager :=
  fold_left addEntry_call calls sm.

(** The entries one call contributes. *)
Definition entries_of_call (c : Call) : list Entry.t :=
  entries (addEntry_call (constructor 0 "") c).

(** [resetSession()] *)
Definition resetSession (now : N) (iso save_iso : string) (resp : Fetch string)
    (sm : SessionManager) : SessionManager * list Effect :=
  autoSave false save_iso resp
    {| sessionId := "session_" +:+ Js.dec now; startTime := iso; entries := [];
       autoSaveEnabled := autoSaveEnabled sm; isPolling := isPolling sm;
       currentPollingSession := currentPollingSession sm |}.

(** [finalizeSession()] *)
Definition finalizeSession (save_iso : string) (resp : Fetch string)
    (sm : SessionManager) : SessionManager * list Effect :=
  let '(sm1, saved) := autoSave true save_iso resp sm in
  if (0 <? length (entries sm1))%nat then
    let '(sm2, started) := pollResults (sessionId sm1) sm1 in
    (sm2, saved ++ started)
  else (sm1, saved).

(** The closure state of one [setInterval] callback of [pollResults]. *)
Record PollTimer := {
  poll_session : string;
  poll_attempts : N;
  poll_cleared : bool
}.

Definition pollResults_maxAttempts : N := 30.

Definition new_timer (sid : string) : PollTimer :=
  {| poll_session := sid; poll_attempts := 0; poll_cleared := false |}.

Definition clear (t : PollTimer) : PollTimer :=
  {| poll_session := poll_session t; poll_attempts := poll_attempts t;
     poll_cleared := true |}.

Definition bump (t : PollTimer) : PollTimer :=
  {| poll_session := poll_session t; poll_attempts := poll_attempts t + 1;
     poll_cleared := poll_cleared t |}.

Definition stop_polling (sm : SessionManager) : SessionManager :=
  with_polling false (currentPollingSession sm) sm.

(** The final [if (attempts >= maxAttempts)] of a tick (also its [catch]). *)
Definition tick_ceiling (sm : SessionManager) (t : PollTimer)
  : SessionManager * PollTimer * list Effect :=
  if (pollResults_maxAttempts <=? poll_attempts t)%N
  then (stop_polling sm, clear t, [ClearInterval (poll_session t)])
  else (sm, t, []).

(** One tick of the interval callback whose answer arrives before the
    interval fires again: the callback up to its [await] and the rest of
    it, one after the other.  [overlay] tells whether
    [window.factCheckOverlay] exists. *)
Definition pollTick (resp : Fetch Result) (overlay : bool)
    (sm : SessionManager) (t0 : PollTimer)
  : SessionManager * PollTimer * list Effect :=
  if poll_cleared t0 then (sm, t0, [])
  else
    let t := bump t0 in
    if negb (bool_decide (sessionId sm = poll_session t))
    then (stop_polling sm, clear t, [ClearInterval (poll_session t)])
    else
      let asked := [FetchResults (poll_session t)] in
      match resp with
      | Throws =>
          let '(sm', t', fx) := tick_ceiling sm t in (sm', t', asked ++ fx)
      | Response code body =>
          if ok code then
            match body with
            | None =>
                let '(sm', t', fx) := tick_ceiling sm t in (sm', t', asked ++ fx)
            | Some result =>
                if (stage result =? 5)%Z then
                  let shown := if overlay then [ShowPipelineResult result] else [] in
                  let '(sm', t', fx) := tick_ceiling (stop_polling sm) (clear t) in
                  (sm', t', asked ++ [ClearInterval (poll_session t)] ++ shown ++ fx)
                else
                  let '(sm', t', fx) := tick_ceiling sm t in (sm', t', asked ++ fx)
            end
          else
            let '(sm', t', fx) := tick_ceiling sm t in (sm', t', asked ++ fx)
      end.

(** The timer fed with the successive answers of the results endpoint. *)
Fixpoint pollTicks (answers : list (Fetch Result)) (sm : SessionManager)
    (t : PollTimer) : SessionManager * PollTimer :=
  match answers with
  | [] => (sm, t)
  | resp :: rest =>
      let '(sm', t', _) := pollTick resp true sm t in pollTicks rest sm' t'
  end.

End Session.

(* ===================================================================== *)
(** * Pipeline controller (service worker)                                *)
(* ===================================================================== *)

Module Background.
Import Http.

(** The [payload] of [START_PIPELINE]; the three toggles are kept as the
    truth value that [!!] gives them. *)
Record RawOptions := {
  raw_targetLanguage : option string;
  raw_enableTranslation : bool;
  raw_audioEnabled : bool;
  raw_ocrEnabled : bool
}.

(** [options = {}] *)
Definition no_options : RawOptions :=
  {| raw_targetLanguage := None; raw_enableTranslation := false;
     raw_audioEnabled := false; raw_ocrEnabled := false |}.

Record Options := {
  targetLanguage : string;
  enableTranslation : bool;
  audioEnabled : bool;
  ocrEnabled : bool
}.

Record PipelineState := {
  tabId : N;
  sessionId : string;
  startTime : string;
  entries : list Entry.t;
  options : Options
}.

(** [const state = new Map()]: tabId -> PipelineState *)
Abbreviation Registry := (gmap N PipelineState).

Inductive RuntimeMsg :=
| START_AUDIO (tab : N) (streamId : string)
| STOP_AUDIO (tab : option N).

Inductive TabMsg :=
| PIPELINE_STARTED (payload : Options)
| PIPELINE_STOPPED
| AUDIO_SUBTITLE (payload : Payload.t).

Inductive Effect :=
| RuntimeSend (m : RuntimeMsg)
| SafeSend (tab : option N) (m : TabMsg)
| FetchSaveSession (data : SessionData.t) (session_id : string) (trigger_pipeline : bool)
| FetchSpeechToText (audio : string)
| Delay (ms : Z).

(** Code of the service worker: it reads and updates the registry and
    issues effects. *)
Definition Bg (A : Type) : Type := Registry -> A * Registry * list Effect.

Definition ret {A} (a : A) : Bg A := fun st => (a, st, []).

Definition bind {A B} (m : Bg A) (k : A -> Bg B) : Bg B :=
  fun st =>
    let '(a, st1, fx1) := m st in
    let '(b, st2, fx2) := k a st1 in
    (b, st2, fx1 ++ fx2).

Definition emit (e : Effect) : Bg unit := fun st => (tt, st, [e]).
Definition get (tab : N) : Bg (option PipelineState) := fun st => (st !! tab, st, []).
Definition set (tab : N) (ps : PipelineState) : Bg unit :=
  fun st => (tt, <[tab := ps]> st, []).
Definition del (tab : N) : Bg unit := fun st => (tt, delete tab st, []).

Declare Scope bg_scope.
Delimit Scope bg_scope with bg.
Notation "'do' x <- m ; k" := (bind m (fun x => k))
  (at level 10, x name, m at level 100, k at level 200) : bg_scope.
#[local] Open Scope bg_scope.

Definition result_of {A} (r : A * Registry * list Effect) : A := fst (fst r).
Definition registry_of {A} (r : A * Registry * list Effect) : Registry := snd (fst r).
Definition effects_of {A} (r : A * Registry * list Effect) : list Effect := snd r.

(** [!tabId]: [undefined] and [0] are falsy. *)
Definition live_tab (tab : option N) : option N :=
  match tab with
  | Some (Npos p) => Some (Npos p)
  | _ => None
  end.

(** The session data that a save of [session] sends. *)
Definition session_data (session : PipelineState) (last_updated : string)
  : SessionData.t :=
  {| SessionData.session_id := sessionId session;
     SessionData.type := "combined_session";
     SessionData.start_time := startTime session;
     SessionData.entries := entries session;
     SessionData.last_updated := last_updated |}.

(** [autoSaveToBackend(tabId, triggerPipeline)]; the answer of the
    backend is only logged. *)
Definition autoSaveToBackend (tab : N) (triggerPipeline : bool)
    (last_updated : string) : Bg unit :=
  do s <- get tab;
  match s with
  | None => ret tt
  | Some session =>
      emit (FetchSaveSession (session_data session last_updated)
              (sessionId session) triggerPipeline)
  end.

Record StopResponse := {
  stopped : bool;
  stop_sessionId : option string
}.

(** [stopPipeline(tabId)] *)
Definition stopPipeline (tab : option N) (last_updated : string) : Bg StopResponse :=
  do _ <- emit (RuntimeSend (STOP_AUDIO tab));
  do sid <- match tab with
            | None => ret None
            | Some t =>
                do s <- get t;
                match s with
                | None => ret None
                | Some session =>
                    do _ <- autoSaveToBackend t true last_updated;
                    do _ <- del t;
                    ret (Some (sessionId session))
                end
            end;
  do _ <- emit (SafeSend tab PIPELINE_STOPPED);
  ret {| stopped := true; stop_sessionId := sid |}.

(** How [ensureOffscreen()] ends. *)
Inductive OffscreenOutcome :=
| OffscreenUnavailable
| OffscreenReady
| OffscreenFails (message : option string).

(** How [chrome.tabCapture.getMediaStreamId] ends: a stream id, or
    [chrome.runtime.lastError] with its message. *)
Inductive StreamOutcome :=
| StreamId (streamId : string)
| StreamError (message : option string).

(** Host answers consumed by one [startPipeline] call. *)
Record StartHost := {
  active_tab : option N;
  stop_iso : string;
  now : N;
  iso : string;
  offscreen : OffscreenOutcome;
  stream : StreamOutcome;
  save_iso : string
}.

Inductive StartResponse :=
| StartError (error : string)
| StartSuccess.

(** The [try] block that starts audio: the [START_AUDIO] message, or the
    message of the error that was thrown. *)
Definition start_audio (tab : N) (h : StartHost) : Effect + string :=
  match offscreen h with
  | OffscreenUnavailable => inr "offscreen_unavailable"
  | OffscreenFails m => inr (Js.or_str m "offscreen_failed")
  | OffscreenReady =>
      match stream h with
      | StreamError m => inr (Js.or_str m "offscreen_failed")
      | StreamId sid => inl (RuntimeSend (START_AUDIO tab sid))
      end
  end.

(** The object that [startPipeline] stores for the tab. *)
Definition new_state (t : N) (opts : RawOptions) (h : StartHost) : PipelineState :=
  {| tabId := t;
     sessionId := "session_" +:+ Js.dec (now h);
     startTime := iso h;
     entries := [];
     options := {| targetLanguage := Js.or_str (raw_targetLanguage opts) "en";
                   enableTranslation := raw_enableTranslation opts;
                   audioEnabled := raw_audioEnabled opts;
                   ocrEnabled := raw_ocrEnabled opts |} |}.

(** [safeSend(tabId, { type: 'PIPELINE_STARTED', payload: state.get(tabId).options })] *)
Definition announce_started (t : N) : Bg unit :=
  do s <- get t;
  match s with
  | Some session => emit (SafeSend (Some t) (PIPELINE_STARTED (options session)))
  | None => ret tt
  end.

(** [startPipeline(tabId, options = {})] *)
Definition startPipeline (tab : option N) (opts : option RawOptions) (h : StartHost)
  : Bg StartResponse :=
  let opts := default no_options opts in
  let tab := match live_tab tab with
             | Some t => Some t
             | None => live_tab (active_tab h)
             end in
  match tab with
  | None => ret (StartError "no_tab")
  | Some t =>
      (* If already running, stop it first to clear streams *)
      do running <- get t;
      do _ <- match running with
              | Some _ => do _ <- stopPipeline (Some t) (stop_iso h); emit (Delay 500)
              | None => ret tt
              end;
      (* Initialize Session State *)
      do _ <- set t (new_state t opts h);
      (* Start audio via offscreen document *)
      do thrown <- (if raw_audioEnabled opts then
                      match start_audio t h with
                      | inl started => do _ <- emit started; ret None
                      | inr err => ret (Some err)
                      end
                    else ret None);
      match thrown with
      | Some err => ret (StartError err)
      | None =>
          do _ <- announce_started t;
          (* Save initial session *)
          do _ <- autoSaveToBackend t false (save_iso h);
          ret StartSuccess
      end
  end.

(** Host answers consumed by one [sendToBackend] call. *)
Record SttHost := {
  stt : Fetch Payload.t;
  stt_now : N;
  stt_rnd : N;
  stt_iso : string;
  stt_save_iso : string
}.

Definition push_entry (e : Entry.t) (session : PipelineState) : PipelineState :=
  {| tabId := tabId session; sessionId := sessionId session;
     startTime := startTime session; entries := entries session ++ [e];
     options := options session |}.

Definition subtitle_entry (data : Payload.t) (h : SttHost) : Entry.t :=
  {| Entry.id := "sub_" +:+ Js.dec (stt_now h) +:+ "_" +:+ Js.dec (stt_rnd h);
     Entry.timestamp_created := stt_iso h;
     Entry.source := "audio";
     Entry.image_id := None;
     Entry.language := Js.or_str (Payload.detected_language data) "unknown";
     Entry.text :=
       Some (Js.or_str
               (Js.or_opt (Payload.translated_text data) (Payload.original_text data)) "");
     Entry.original_text := Some (Js.or_str (Payload.original_text data) "");
     Entry.confidence := Js.or_zero (Payload.confidence data);
     Entry.bbox := None;
     Entry.timestamp_start := Payload.timestamp data;
     Entry.image_path := None;
     Entry.selection_metadata := None |}.

(** [data.original_text || data.translated_text] *)
Definition has_text (data : Payload.t) : bool :=
  Js.truthy_str (Payload.original_text data)
  || Js.truthy_str (Payload.translated_text data).

(** [sendToBackend] after [await fetch]: what the [try] block does with
    the answer; every exception ends in the [catch] that only logs. *)
Definition stt_answer (t : N) (h : SttHost) : Bg unit :=
  match stt h with
  | Throws => ret tt
  | Response code body =>
      if negb (ok code) then ret tt
      else
        match body with
        | None => ret tt
        | Some data =>
            if has_text data then
              do s <- get t;
              match s with
              | None => ret tt   (* [session.entries] of undefined: caught *)
              | Some session =>
                  do _ <- set t (push_entry (subtitle_entry data h) session);
                  do _ <- autoSaveToBackend t false (stt_save_iso h);
                  emit (SafeSend (Some t) (AUDIO_SUBTITLE data))
              end
            else ret tt
        end
  end.

(** [sendToBackend(base64Audio, tabId)] *)
Definition sendToBackend (base64Audio : string) (tab : option N) (h : SttHost)
  : Bg unit :=
  match live_tab tab with
  | None => ret tt
  | Some t =>
      do s <- get t;
      match s with
      | None => ret tt
      | Some _ =>
          do _ <- emit (FetchSpeechToText base64Audio);
          stt_answer t h
      end
  end.

Definition is_save (e : Effect) : bool :=
  match e with
  | FetchSaveSession _ _ _ => true
  | _ => false
  end.

(** Effects that only a start that went through issues: the
    [START_AUDIO] message, the announcement, the initial save. *)
Definition start_effect (e : Effect) : bool :=
  match e with
  | RuntimeSend (START_AUDIO _ _) => true
  | SafeSend _ (PIPELINE_STARTED _) => true
  | FetchSaveSession _ _ false => true
  | _ => false
  end.

(** The answer to [PING_STATE]: [{ active: state.has(tab) }]. *)
Definition ping_active (tab : N) (st : Registry) : bool :=
  bool_decide (is_Some (st !! tab)).

End Background.

(* ===================================================================== *)
(** * Audio chunk recorder (offscreen document)                           *)
(* ===================================================================== *)

Module Offscreen.

(** [MediaRecorder.state] as far as the code uses it. *)
Inductive RecorderState := inactive | recording.

(** [chrome.runtime.sendMessage({ type: 'AUDIO_CHUNK', payload, tabId })] *)
Record AudioChunk := {
  payload : string;
  chunk_tabId : option N
}.

(** The module-level variables of the offscreen script. *)
Record Vars := {
  recorder : option RecorderState;
  timer : bool;            (* the interval [timer] refers to is live *)
  chunks : list string;
  isStopping : bool;
  targetTabId : option N;
  currentStream : bool     (* [window.currentStream] holds a stream *)
}.

(** What the host holds for the script: the number of live intervals,
    the audio gathered by the running recording, the
    [dataavailable]/[stop] event pairs queued by [recorder.stop()] calls
    (oldest first, each with the audio of its recording), the blobs of
    the [onstop] handlers waiting at [await blobToBase64], and the
    messages sent so far.  A blob is the text of its audio; the base64
    step re-encodes it and is left out. *)
Record Context := {
  vars : Vars;
  intervals : nat;
  gathered : string;
  stop_events : list string;
  encoding : list string;
  sent : list AudioChunk
}.

(** The script right after it was loaded. *)
Definition loaded : Context :=
  {| vars := {| recorder := None; timer := false; chunks := [];
                isStopping := false; targetTabId := None;
                currentStream := false |};
     intervals := 0; gathered := ""; stop_events := []; encoding := [];
     sent := [] |}.

(** What can happen in the offscreen document. *)
Inductive Event :=
| StartAudioMsg (tab : option N) (streamId : option string)
    (* START_AUDIO arrives: the handler up to [await getUserMedia] *)
| StreamReady (stream_ok : bool) (mimeType : option string)
    (* [getUserMedia] settles: the rest of the START_AUDIO handler *)
| StopAudioMsg
    (* STOP_AUDIO arrives *)
| Audio (data : string)
    (* the stream delivers audio to the running recording *)
| TimerFires
    (* a rotation interval fires *)
| RecorderStopped
    (* the oldest queued [dataavailable] + [stop] pair is dispatched *)
| EncodingDone.
    (* [blobToBase64] resolves in the oldest waiting [onstop] handler *)

Definition with_vars (v : Vars) (c : Context) : Context :=
  {| vars := v; intervals := intervals c; gathered := gathered c;
     stop_events := stop_events c; encoding := encoding c; sent := sent c |}.

Definition set_recorder (r : option RecorderState) (v : Vars) : Vars :=
  {| recorder := r; timer := timer v; chunks := chunks v;
     isStopping := isStopping v; targetTabId := targetTabId v;
     currentStream := currentStream v |}.

Definition set_chunks (l : list string) (v : Vars) : Vars :=
  {| recorder := recorder v; timer := timer v; chunks := l;
     isStopping := isStopping v; targetTabId := targetTabId v;
     currentStream := currentStream v |}.

Definition set_currentStream (b : bool) (v : Vars) : Vars :=
  {| recorder := recorder v; timer := timer v; chunks := chunks v;
     isStopping := isStopping v; targetTabId := targetTabId v;
     currentStream := b |}.

(** [recorder.stop()] on a running recorder: the recorder turns inactive
    and its events are queued with the audio gathered so far. *)
Definition recorder_stop (c : Context) : Context :=
  {| vars := set_recorder (Some inactive) (vars c); intervals := intervals c;
     gathered := ""; stop_events := stop_events c ++ [gathered c];
     encoding := encoding c; sent := sent c |}.

(** [recorder.start()] *)
Definition recorder_start (c : Context) : Context :=
  {| vars := set_recorder (Some recording) (vars c); intervals := intervals c;
     gathered := ""; stop_events := stop_events c;
     encoding := encoding c; sent := sent c |}.

Definition is_recording (c : Context) : bool :=
  match recorder (vars c) with
  | Some recording => true
  | _ => false
  end.

(** [recorder.ondataavailable] then [recorder.onstop], dispatched with
    the blob [data]; [rest] are the event pairs still queued. *)
Definition onstop (data : string) (rest : list string) (c : Context) : Context :=
  (* e.data.size && chunks.push(e.data) *)
  let chunks1 := if Js.is_empty data then chunks (vars c) else chunks (vars c) ++ [data] in
  if isStopping (vars c) then
    (* Don't process final chunk if we're stopping *)
    {| vars := set_chunks [] (vars c); intervals := intervals c;
       gathered := gathered c; stop_events := rest;
       encoding := encoding c; sent := sent c |}
  else
    {| vars := set_chunks [] (vars c); intervals := intervals c;
       gathered := gathered c; stop_events := rest;
       encoding := encoding c ++ [String.concat "" chunks1]; sent := sent c |}.

(** The START_AUDIO handler up to [await getUserMedia]. *)
Definition on_start_audio (tab : option N) (streamId : option string)
    (c : Context) : Context :=
  if Js.truthy_str streamId then
    with_vars {| recorder := recorder (vars c); timer := timer (vars c);
                 chunks := chunks (vars c); isStopping := false;
                 targetTabId := tab; currentStream := currentStream (vars c) |} c
  else c.

(** The START_AUDIO handler after [await getUserMedia].  A recorder that
    is replaced while recording is referenced by nothing any more; what
    it gathered is dropped here. *)
Definition on_stream (stream_ok : bool) (mimeType : option string)
    (c : Context) : Context :=
  if stream_ok then
    if Js.truthy_str mimeType then
      {| vars := {| recorder := Some recording; timer := true;
                    chunks := chunks (vars c); isStopping := isStopping (vars c);
                    targetTabId := targetTabId (vars c); currentStream := true |};
         intervals := S (intervals c); gathered := "";
         stop_events := stop_events c; encoding := encoding c; sent := sent c |}
    else with_vars (set_currentStream true (vars c)) c
  else c.

(** The STOP_AUDIO handler. *)
Definition on_stop_audio (c : Context) : Context :=
  (* isStopping = true; clearInterval(timer) *)
  let c1 :=
    {| vars := {| recorder := recorder (vars c); timer := false;
                  chunks := chunks (vars c); isStopping := true;
                  targetTabId := targetTabId (vars c);
                  currentStream := currentStream (vars c) |};
       intervals := if timer (vars c) then pred (intervals c) else intervals c;
       gathered := gathered c; stop_events := stop_events c;
       encoding := encoding c; sent := sent c |} in
  (* if (recorder && recorder.state !== 'inactive') recorder.stop() *)
  let c2 := if is_recording c1 then recorder_stop c1 else c1 in
  (* release the tracks; chunks = [] *)
  with_vars (set_chunks [] (set_currentStream false (vars c2))) c2.

(** One event handled to its next suspension point. *)
Definition handle (c : Context) (e : Event) : Context :=
  match e with
  | StartAudioMsg tab streamId => on_start_audio tab streamId c
  | StreamReady stream_ok mimeType => on_stream stream_ok mimeType c
  | StopAudioMsg => on_stop_audio c
  | Audio data =>
      if is_recording c then
        {| vars := vars c; intervals := intervals c;
           gathered := gathered c +:+ data; stop_events := stop_events c;
           encoding := encoding c; sent := sent c |}
      else c
  | TimerFires =>
      if (0 <? intervals c)%nat && is_recording c
      then recorder_start (recorder_stop c) else c
  | RecorderStopped =>
      match stop_events c with
      | [] => c
      | data :: rest => onstop data rest c
      end
  | EncodingDone =>
      match encoding c with
      | [] => c
      | blob :: rest =>
          {| vars := vars c; intervals := intervals c; gathered := gathered c;
             stop_events := stop_events c; encoding := rest;
             sent := sent c ++ [{| payload := blob;
                                   chunk_tabId := targetTabId (vars c) |}] |}
      end
  end.

(** A schedule of events, handled one after the other. *)
Definition handle_all (c : Context) (es : list Event) : Context :=
  fold_left handle es c.

Definition is_start (e : Event) : bool :=
  match e with
  | StartAudioMsg _ _ => true
  | _ => false
  end.

(** The message that [onstop] sends for a blob, once encoded. *)
Definition chunk_message (tab : option N) (blob : string) : AudioChunk :=
  {| payload := blob; chunk_tabId := tab |}.

End Offscreen.

(* ===================================================================== *)
(** * Keyframe sweep (content script, [handleExtractKeyframes])           *)
(* ===================================================================== *)

Module Keyframes.
Import Http.

(** The media element as far as the sweep reads and writes it.  Times
    are exact rationals; a duration that is [NaN] or missing is [None]
    (an endless stream, whose sweep never ends, has no duration here). *)
Record Video := {
  currentTime : Q;
  paused : bool;
  duration : option Q;
  readyState : Z
}.

Definition set_currentTime (t : Q) (v : Video) : Video :=
  {| currentTime := t; paused := paused v; duration := duration v;
     readyState := readyState v |}.

(** [video.pause()] and [video.play()] *)
Definition pause (v : Video) : Video :=
  {| currentTime := currentTime v; paused := true; duration := duration v;
     readyState := readyState v |}.

Definition play (v : Video) : Video :=
  {| currentTime := currentTime v; paused := false; duration := duration v;
     readyState := readyState v |}.

(** Host answers of one step of the sweep: whether [seeked] fired before
    the one-second timeout, what [captureFrame] returned, the clock, and
    the answer of [/api/save-image] (its body is [relative_path]). *)
Record StepHost := {
  seeked : bool;
  frame : option string;
  step_now : N;
  saved : Fetch string
}.

Record Keyframe := {
  image_id : string;
  image_path : string;
  timestamp : Z;
  timestamp_formatted : string
}.

Inductive Effect :=
| FetchSaveImage (image_data : string) (image_id : string) (source : string).

(** [String(n).padStart(2, '0')] *)
Definition pad2 (n : Z) : string :=
  if (n <? 10)%Z then "0" +:+ Js.dec (Z.to_N n) else Js.dec (Z.to_N n).

(** [formatTimestamp(seconds)] on whole seconds. *)
Definition formatTimestamp (seconds : Z) : string :=
  pad2 (seconds / 3600) +:+ ":" +:+ pad2 ((seconds mod 3600) / 60) +:+ ":"
    +:+ pad2 (seconds mod 60).

Definition interval : Z := 3.

(** The body of the [for] loop at [time]: the keyframes recorded so far
    and the requests issued. *)
Definition step (time : Z) (h : StepHost) (video : Video) (keyframes : list Keyframe)
  : Video * list Keyframe * list Effect :=
  let video1 := set_currentTime (inject_Z time) video in
  match frame h with
  | None => (video1, keyframes, [])
  | Some frameData =>
      let imageId := "keyframe_" +:+ Js.dec (step_now h) +:+ "_" +:+ Js.dec (Z.to_N time) in
      let asked := [FetchSaveImage frameData imageId "video_keyframe"] in
      match saved h with
      | Response code (Some relative_path) =>
          if ok code then
            (video1,
             keyframes ++ [{| image_id := imageId; image_path := relative_path;
                              timestamp := time;
                              timestamp_formatted := formatTimestamp time |}],
             asked)
          else (video1, keyframes, asked)
      | _ => (video1, keyframes, asked)
      end
  end.

(** [for (let time = 0; time < duration; time += interval)], with the
    number of iterations left to try. *)
Fixpoint sweep (fuel : nat) (time : Z) (dur : Q) (host : Z -> StepHost)
    (video : Video) (keyframes : list Keyframe)
  : option (Video * list Keyframe * list Effect) :=
  if Qle_bool dur (inject_Z time) then Some (video, keyframes, [])
  else
    match fuel with
    | O => None
    | S fuel' =>
        let '(video1, keyframes1, fx1) := step time (host time) video keyframes in
        match sweep fuel' (time + interval) dur host video1 keyframes1 with
        | Some (video2, keyframes2, fx2) => Some (video2, keyframes2, fx1 ++ fx2)
        | None => None
        end
    end.

(** The payload of the [addEntry('screen_ocr', ...)] call of a keyframe. *)
Definition keyframe_payload (k : Keyframe) : Payload.t :=
  {| Payload.text_regions := None;
     Payload.image_id := Some (image_id k);
     Payload.detected_language := None;
     Payload.translated_text := None;
     Payload.original_text := None;
     Payload.confidence := Some 1%Q;
     Payload.bbox := None;
     Payload.image_path := Some (image_path k);
     Payload.selection_metadata := None;
     Payload.source := Some "video_keyframe";
     Payload.timestamp := Some (Js.dec (Z.to_N (timestamp k))) |}.

(** [for (const keyframe of keyframes) sessionManager.addEntry(...)] *)
Fixpoint add_keyframes (keyframes : list Keyframe) (hosts : nat -> Session.Host)
    (n : nat) (sm : Session.SessionManager) : Session.SessionManager :=
  match keyframes with
  | [] => sm
  | k :: rest =>
      add_keyframes rest hosts (S n)
        (fst (Session.addEntry "screen_ocr" (keyframe_payload k) (hosts n) sm))
  end.

Inductive Outcome :=
| NoVideo
| NoDuration (video : Video)
| Extracted (video : Video) (keyframes : list Keyframe)
    (sm : Session.SessionManager) (requests : list Effect).

(** Iterations that suffice for a sweep up to [dur]. *)
Definition enough (dur : Q) : nat := S (Z.to_nat (Qceiling dur)).

(** [handleExtractKeyframes()]; [None] would mean that the loop did not
    come to an end within [enough dur] iterations. *)
Definition handleExtractKeyframes (page_video : option Video)
    (host : Z -> StepHost) (hosts : nat -> Session.Host)
    (sm : Session.SessionManager) : option Outcome :=
  match page_video with
  | None => Some NoVideo
  | Some video =>
      match duration video with
      | None => Some (NoDuration video)
      | Some dur =>
          if Qeq_bool dur 0 then Some (NoDuration video)
          else
            let originalTime := currentTime video in
            let originalPaused := paused video in
            let video0 := if negb (paused video) then pause video else video in
            match sweep (enough dur) 0 dur host video0 [] with
            | None => None
            | Some (video1, keyframes, requests) =>
                (* Restore video state *)
                let video2 := set_currentTime originalTime video1 in
                let video3 := if negb originalPaused then play video2 else video2 in
                Some (Extracted video3 keyframes
                        (add_keyframes keyframes hosts 0 sm) requests)
            end
      end
  end.

End Keyframes.

(* ===================================================================== *)
(** * Invariants and sample inputs                                        *)
(* ===================================================================== *)

(** What every reachable dedup cache satisfies. *)
Definition cache_ok (cache : list string) : Prop :=
  NoDup cache
  /\ (length cache <= DedupCache.MAX_CACHE)%nat
  /\ Forall (fun x => DedupCache.normalize x = x) cache.

Module Sample.

(** Twenty different on-screen texts. *)
Definition headlines : list (option string) :=
  map (fun n => Some ("  Headline " +:+ Js.dec (N.of_nat n))) (seq 1 20).

End Sample.

(** The shape of an entry id: [`${prefix}_${baseId}_${k}`]. *)
Definition id_of (prefix : string) (baseId k : N) : string :=
  prefix +:+ "_" +:+ Js.dec baseId +:+ "_" +:+ Js.dec k.

Definition id_prefixes : list string := ["sub"; "sel"; "img_txt"].

Fixpoint has_underscore (s : string) : bool :=
  match s with
  | EmptyString => false
  | String c r => bool_decide (c = "_"%char) || has_underscore r
  end.

(** The entries that [forEach_region] pushes, from region number [index] on. *)
Fixpoint region_entries (baseId : N) (baseTimestamp imageId : string)
    (data : Payload.t) (index : N) (regions : list Region.t) : list Entry.t :=
  match regions with
  | [] => []
  | region :: rest =>
      Session.region_entry baseId baseTimestamp imageId data index region
      :: region_entries baseId baseTimestamp imageId data (index + 1) rest
  end.

Definition call_now (c : Session.Call) : N := Session.now (Session.call_host c).


Module SampleCalls.

Definition host : Session.Host :=
  {| Session.iso := "2026-03-01T10:00:00.000Z";
     Session.now := 1772359200000;
     Session.rnd := 417;
     Session.save_iso := "2026-03-01T10:00:00.001Z";
     Session.save_resp := Http.Response 200 (Some "sessions/session.json") |}.

(** Two keyframes handed to [addEntry] within the same millisecond, the
    random draw giving the same number twice. *)
Definition keyframe_call (image : string) : Session.Call :=
  {| Session.call_type := "screen_ocr";
     Session.call_data :=
       {| Payload.text_regions := None; Payload.image_id := Some image;
          Payload.detected_language := None; Payload.translated_text := None;
          Payload.original_text := None; Payload.confidence := Some 1%Q;
          Payload.bbox := None;
          Payload.image_path := Some ("sessions/images/" +:+ image +:+ ".jpg");
          Payload.selection_metadata := None;
          Payload.source := Some "video_keyframe";
          Payload.timestamp := None |};
     Session.call_host := host |}.

Definition same_millisecond : list Session.Call :=
  [keyframe_call "keyframe_1772359199990_0"; keyframe_call "keyframe_1772359199995_3"].

Definition fresh : Session.SessionManager :=
  Session.constructor 1772359100000 "2026-03-01T09:58:20.000Z".

(** An OCR result with three text regions. *)
Definition three_regions : Payload.t :=
  {| Payload.text_regions :=
       Some [ {| Region.text := Some "BREAKING"; Region.confidence := Some (9 # 10);
                 Region.bbox := Some [0; 0; 120; 40]%Z |};
              {| Region.text := Some "Markets fall"; Region.confidence := None;
                 Region.bbox := Some [0; 50; 300; 90]%Z |};
              {| Region.text := Some "Live"; Region.confidence := Some (1 # 2);
                 Region.bbox := None |} ];
     Payload.image_id := Some "img_1772359200000";
     Payload.detected_language := Some "en";
     Payload.translated_text := None;
     Payload.original_text := Some "BREAKING Markets fall Live";
     Payload.confidence := Some (4 # 5);
     Payload.bbox := None;
     Payload.image_path := Some "sessions/images/img_1772359200000.jpg";
     Payload.selection_metadata := None;
     Payload.source := Some "screen_capture";
     Payload.timestamp := Some "00:01:05" |}.

Definition host_at (now : N) : Session.Host :=
  {| Session.iso := "2026-03-01T10:00:00.000Z";
     Session.now := now;
     Session.rnd := 417;
     Session.save_iso := "2026-03-01T10:00:00.001Z";
     Session.save_resp := Http.Throws |}.

(** A screen scan followed, two milliseconds later, by a selection. *)
Definition two_calls : list Session.Call :=
  [ {| Session.call_type := "screen_ocr"; Session.call_data := three_regions;
       Session.call_host := host_at 1772359200000 |};
    {| Session.call_type := "selected_text"; Session.call_data := Payload.empty;
       Session.call_host := host_at 1772359200002 |} ].

End SampleCalls.


(** What one [addEntry] call appends, whatever the session held before. *)
Definition appended (c : Session.Call) : list Entry.t :=
  if bool_decide (Session.call_type c = "screen_ocr")
     && (0 <? length (Session.regions_of (Session.call_data c)))%nat
  then region_entries (call_now c) (Session.iso (Session.call_host c))
         (Js.or_str (Payload.image_id (Session.call_data c))
            ("img_" +:+ Js.dec (call_now c)))
         (Session.call_data c) 0 (Session.regions_of (Session.call_data c))
  else [Session.standard_entry (Session.call_type c) (Session.call_data c)
          (Session.call_host c)].




Module SampleTabs.

Definition options : Background.RawOptions :=
  {| Background.raw_targetLanguage := Some "hi";
     Background.raw_enableTranslation := true;
     Background.raw_audioEnabled := true;
     Background.raw_ocrEnabled := true |}.

(** A start whose stream id is granted. *)
Definition granted (now : N) : Background.StartHost :=
  {| Background.active_tab := None;
     Background.stop_iso := "2026-03-01T10:00:09.500Z";
     Background.now := now;
     Background.iso := "2026-03-01T10:00:10.000Z";
     Background.offscreen := Background.OffscreenReady;
     Background.stream := Background.StreamId "stream-7";
     Background.save_iso := "2026-03-01T10:00:10.020Z" |}.

(** A start whose stream id is refused by the host. *)
Definition refused (now : N) : Background.StartHost :=
  {| Background.active_tab := None;
     Background.stop_iso := "2026-03-01T10:00:09.500Z";
     Background.now := now;
     Background.iso := "2026-03-01T10:00:10.000Z";
     Background.offscreen := Background.OffscreenReady;
     Background.stream :=
       Background.StreamError (Some "Extension has not been invoked for the current page");
     Background.save_iso := "2026-03-01T10:00:10.020Z" |}.

(** The registry after one successful start on tab 42. *)
Definition running : gmap N Background.PipelineState :=
  Background.registry_of
    (Background.startPipeline (Some 42%N) (Some options) (granted 1772359210000) ∅).

(** A speech-to-text answer without any text. *)
Definition silence : Background.SttHost :=
  {| Background.stt := Http.Response 200 (Some Payload.empty);
     Background.stt_now := 1772359213000;
     Background.stt_rnd := 88;
     Background.stt_iso := "2026-03-01T10:00:13.000Z";
     Background.stt_save_iso := "2026-03-01T10:00:13.010Z" |}.

End SampleTabs.


Module SampleAudio.

(** A recording on tab 42: one chunk was rotated out by the timer and its
    stop event is still queued, the next chunk is being recorded. *)
Definition rotating : Offscreen.Context :=
  Offscreen.handle_all Offscreen.loaded
    [Offscreen.StartAudioMsg (Some 42%N) (Some "stream-7");
     Offscreen.StreamReady true (Some "audio/webm;codecs=opus");
     Offscreen.Audio "first-chunk";
     Offscreen.TimerFires;
     Offscreen.Audio "partial"].

(** What happens after the stop request: both stop events are
    dispatched, an interval fires late, an encoding slot is polled. *)
Definition after_stop : list Offscreen.Event :=
  [Offscreen.RecorderStopped; Offscreen.TimerFires; Offscreen.RecorderStopped;
   Offscreen.EncodingDone].

End SampleAudio.

Module SampleVideo.

(** A clip of ten seconds, playing at 4.5 s. *)
Definition clip : Keyframes.Video :=
  {| Keyframes.currentTime := 9 # 2; Keyframes.paused := false;
     Keyframes.duration := Some (10 # 1); Keyframes.readyState := 4 |}.

(** The seek at 3 s times out and the capture fails, the save at 6 s is
    rejected, the other steps succeed. *)
Definition flaky (time : Z) : Keyframes.StepHost :=
  {| Keyframes.seeked := negb (time =? 3)%Z;
     Keyframes.frame := if (time =? 3)%Z then None else Some "data:image/jpeg;base64,AAAA";
     Keyframes.step_now := 1772359300000 + Z.to_N time;
     Keyframes.saved :=
       if (time =? 6)%Z then Http.Response 500 None
       else Http.Response 200 (Some "sessions/images/keyframe.jpg") |}.

End SampleVideo.


(* ===================================================================== *)
(** * Further definitions: kinds of answers of the results endpoint       *)
(* ===================================================================== *)

(** A readable answer that reports the terminal stage. *)
Definition is_final (res : Http.Fetch Http.Result) : bool :=
  match res with
  | Http.Response code (Some result) => Http.ok code && (Http.stage result =? 5)%Z
  | _ => false
  end.

(** A readable answer that reports a stage before the terminal one. *)
Definition is_mid_stage (res : Http.Fetch Http.Result) : bool :=
  match res with
  | Http.Response code (Some result) => Http.ok code && negb (Http.stage result =? 5)%Z
  | _ => false
  end.

(** Any other answer: not ready (404), an error status, an unreadable
    body, a rejected fetch. *)
Definition is_miss (res : Http.Fetch Http.Result) : bool :=
  negb (is_final res) && negb (is_mid_stage res).

Definition count_misses (answers : list (Http.Fetch Http.Result)) : N :=
  N.of_nat (length (filter (fun res => is_miss res = true) answers)).

(** The effects of a [pollResults] timer over successive answers. *)
Fixpoint poll_trace (answers : list (Http.Fetch Http.Result))
    (sm : Session.SessionManager) (t : Session.PollTimer) : list Session.Effect :=
  match answers with
  | [] => []
  | resp :: rest =>
      let '(sm', t', fx) := Session.pollTick resp true sm t in
      fx ++ poll_trace rest sm' t'
  end.

Definition is_show (e : Session.Effect) : bool :=
  match e with
  | Session.ShowPipelineResult _ => true
  | _ => false
  end.

Definition is_fetch_results (e : Session.Effect) : bool :=
  match e with
  | Session.FetchResults _ => true
  | _ => false
  end.

Definition is_set_interval (e : Session.Effect) : bool :=
  match e with
  | Session.SetInterval _ _ => true
  | _ => false
  end.


(* ===================================================================== *)
(** * Further definitions: the local snapshot ([chrome.storage.local])    *)
(* ===================================================================== *)

Module Storage.

(** The two kinds of keys the extension writes: [session_<id>] holding a
    serialized session, and [current_session_id] holding an id. *)
Record t := {
  sessions : gmap string SessionData.t;
  current_session_id : option string
}.

Definition empty : t := {| sessions := ∅; current_session_id := None |}.

(** [chrome.storage.local.set({ [key]: sessionData, current_session_id })] *)
Definition set (key : string) (data : SessionData.t) (current : string) (st : t) : t :=
  {| sessions := <[key := data]> (sessions st); current_session_id := Some current |}.

(** The storage after the writes among the effects of the manager. *)
Definition apply (st : t) (e : Session.Effect) : t :=
  match e with
  | Session.StorageSet key data current => set key data current st
  | _ => st
  end.

Definition apply_all (fx : list Session.Effect) (st : t) : t := fold_left apply fx st.

(** [loadSession(sessionId)]: the manager afterwards and the value the
    promise resolves to; [lastError] tells whether the read failed. *)
Definition loadSession (sessionId : string) (lastError : bool) (st : t)
    (sm : Session.SessionManager) : Session.SessionManager * option SessionData.t :=
  if lastError then (sm, None)
  else
    match sessions st !! ("session_" +:+ sessionId) with
    | Some sessionData =>
        ({| Session.sessionId := SessionData.session_id sessionData;
            Session.startTime := SessionData.start_time sessionData;
            Session.entries := SessionData.entries sessionData;
            Session.autoSaveEnabled := Session.autoSaveEnabled sm;
            Session.isPolling := Session.isPolling sm;
            Session.currentPollingSession := Session.currentPollingSession sm |},
         Some sessionData)
    | None => (sm, None)
    end.

(** [getSessionId()] of the results page. *)
Definition getSessionId (st : t) : option string := current_session_id st.

End Storage.


(* ===================================================================== *)
(** * Further definitions: the session manager between suspension points  *)
(* ===================================================================== *)

Module SessionSteps.
Import Http Session.

(** [autoSave(triggerPipeline)] up to its [await fetch]: the storage
    write and the save request. *)
Definition autoSave_issue (triggerPipeline : bool) (save_iso : string)
    (sm : SessionManager) : list Effect :=
  if negb (autoSaveEnabled sm) then []
  else
    let sessionData := getSessionData save_iso sm in
    [StorageSet ("session_" +:+ sessionId sm) sessionData (sessionId sm);
     FetchSaveSession sessionData (sessionId sm) triggerPipeline].

(** [autoSave(triggerPipeline)] after the [await], on the manager as it
    is by then: the poll is started when the save was accepted and the
    pipeline triggered. *)
Definition autoSave_settle (triggerPipeline : bool) (resp : Fetch string)
    (sm : SessionManager) : SessionManager * list Effect :=
  match resp with
  | Throws => (sm, [])
  | Response code body =>
      if ok code then
        match body with
        | None => (sm, [])
        | Some _ => if triggerPipeline then pollResults (sessionId sm) sm else (sm, [])
        end
      else (sm, [])
  end.

(** [finalizeSession()] after [await this.autoSave(true)].  [issued]
    tells whether [autoSave] got as far as its request; if not, it
    returned at once and only the rest of [finalizeSession] is left. *)
Definition finalizeSession_settle (issued : bool) (resp : Fetch string)
    (sm : SessionManager) : SessionManager * list Effect :=
  let '(sm1, started1) := if issued then autoSave_settle true resp sm else (sm, []) in
  if (0 <? length (entries sm1))%nat then
    let '(sm2, started2) := pollResults (sessionId sm1) sm1 in
    (sm2, started1 ++ started2)
  else (sm1, started1).

(** One results poll with its callbacks as the host runs them: the
    manager, the closure of the interval, and the number of callbacks
    that wait for the answer of their request. *)
Record Poll := {
  manager : SessionManager;
  timer : PollTimer;
  in_flight : nat
}.

Inductive PollEvent :=
| IntervalFires
    (* the interval fires: the callback up to [await fetch] *)
| ResultsAnswer (resp : Fetch Result).
    (* the request of a waiting callback settles: the rest of the callback *)

(** The callback of the interval up to its [await]. *)
Definition interval_fires (p : Poll) : Poll * list Effect :=
  if poll_cleared (timer p) then (p, [])
  else
    let t := bump (timer p) in
    if negb (bool_decide (sessionId (manager p) = poll_session t))
    then ({| manager := stop_polling (manager p); timer := clear t;
             in_flight := in_flight p |},
          [ClearInterval (poll_session t)])
    else ({| manager := manager p; timer := t; in_flight := S (in_flight p) |},
          [FetchResults (poll_session t)]).

(** The callback after its [await], reading [attempts] and the manager
    as they are when the answer arrives. *)
Definition results_answer (resp : Fetch Result) (overlay : bool) (p : Poll)
  : Poll * list Effect :=
  match in_flight p with
  | O => (p, [])
  | S waiting =>
      let sm := manager p in
      let t := timer p in
      let '(sm', t', fx) :=
        match resp with
        | Throws => tick_ceiling sm t
        | Response code body =>
            if ok code then
              match body with
              | None => tick_ceiling sm t
              | Some result =>
                  if (stage result =? 5)%Z then
                    let shown := if overlay then [ShowPipelineResult result] else [] in
                    let '(sm1, t1, fx1) := tick_ceiling (stop_polling sm) (clear t) in
                    (sm1, t1, [ClearInterval (poll_session t)] ++ shown ++ fx1)
                  else tick_ceiling sm t
              end
            else tick_ceiling sm t
        end in
      ({| manager := sm'; timer := t'; in_flight := waiting |}, fx)
  end.

Definition poll_step (p : Poll) (e : PollEvent) : Poll * list Effect :=
  match e with
  | IntervalFires => interval_fires p
  | ResultsAnswer resp => results_answer resp true p
  end.

(** A schedule of events, with the trace of what was issued. *)
Fixpoint poll_run (es : list PollEvent) (p : Poll) : Poll * list Effect :=
  match es with
  | [] => (p, [])
  | e :: rest =>
      let '(p1, fx1) := poll_step p e in
      let '(p2, fx2) := poll_run rest p1 in
      (p2, fx1 ++ fx2)
  end.

(** The schedule in which every answer arrives before the interval
    fires again. *)
Definition in_turn (answers : list (Fetch Result)) : list PollEvent :=
  flat_map (fun resp => [IntervalFires; ResultsAnswer resp]) answers.

Definition started (sm : SessionManager) (t : PollTimer) : Poll :=
  {| manager := sm; timer := t; in_flight := 0 |}.

End SessionSteps.


(* ===================================================================== *)
(** * Further definitions: API client and content script                  *)
(* ===================================================================== *)

Module Api.

(** [validateOCRResult(result)]; [None] stands for the thrown
    ['Empty OCR result']. *)
Definition validateOCRResult (result : option Payload.t) : option Payload.t :=
  match result with
  | None => None
  | Some r =>
      Some {| Payload.text_regions := Some (default [] (Payload.text_regions r));
              Payload.image_id := None;
              Payload.detected_language :=
                Some (Js.or_str (Payload.detected_language r) "unknown");
              Payload.translated_text :=
                Some (Js.or_str
                        (Js.or_opt (Payload.translated_text r) (Payload.original_text r)) "");
              Payload.original_text := Some (Js.or_str (Payload.original_text r) "");
              Payload.confidence := Some (Js.or_zero (Payload.confidence r));
              Payload.bbox := None;
              Payload.image_path := None;
              Payload.selection_metadata := None;
              Payload.source := Some (Js.or_str (Payload.source r) "unknown");
              Payload.timestamp := Some (Js.or_str (Payload.timestamp r) "00:00:00") |}
  end.

(** [processOCR(imageBase64, options)] once the backend has answered;
    [None] stands for the error it rethrows. *)
Definition processOCR (resp : Http.Fetch Payload.t) : option Payload.t :=
  match resp with
  | Http.Throws => None
  | Http.Response code body => if Http.ok code then validateOCRResult body else None
  end.

End Api.

Module Content.

(** The module-level state of the content script, with the dedup cache
    that lives in the same page. *)
Record Context := {
  sessionManager : Session.SessionManager;
  ocrTimer : bool;
  options : Background.Options;
  recentTexts : list string
}.

Inductive Notification :=
| SessionStarted
| SessionStopped (entries : option nat)
| Capturing
| ExtractingText
| ScanComplete (regions : nat)
| NoTextFound
| ScanFailed
| NoTextSelected
| Saved (preview : string)
| SaveSelectedFailed.

Inductive Effect :=
| Manager (e : Session.Effect)
| ShowNotification (n : Notification)
| ShowSubtitle (result : Payload.t)
| ClearAll
| SendResponse (success : bool) (sessionId : option string)
| CaptureVisibleTab
| FetchSaveImage (image_data image_id source : string)
| FetchOCR (image timestamp source : string).

Definition with_manager (sm : Session.SessionManager) (c : Context) : Context :=
  {| sessionManager := sm; ocrTimer := ocrTimer c; options := options c;
     recentTexts := recentTexts c |}.

(** [message.payload?.translated_text || message.payload?.original_text] *)
Definition payload_text (data : Payload.t) : option string :=
  Js.or_opt (Payload.translated_text data) (Payload.original_text data).

(** Host readings of a [resetSession] call. *)
Record ResetHost := {
  reset_now : N;
  reset_iso : string;
  reset_save_iso : string;
  reset_save_resp : Http.Fetch string
}.

(** [case 'PIPELINE_STARTED'] *)
Definition on_pipeline_started (payload : Background.Options) (h : ResetHost)
    (c : Context) : Context * list Effect :=
  let '(sm, saved) :=
    Session.resetSession (reset_now h) (reset_iso h) (reset_save_iso h)
      (reset_save_resp h) (sessionManager c) in
  (* startOCRLoop(): if (ocrTimer || !options.ocrEnabled) return *)
  ({| sessionManager := sm;
      ocrTimer := ocrTimer c || Background.ocrEnabled payload;
      options := payload;
      recentTexts := recentTexts c |},
   map Manager saved ++ [ShowNotification SessionStarted; SendResponse true None]).

(** [case 'PIPELINE_STOPPED']: the listener itself.  [finalizeSession()]
    is not awaited, so of it only the start of [autoSave(true)] (the
    storage write and the save request) runs before the notification and
    the response. *)
Definition on_pipeline_stopped (save_iso : string) (c : Context)
  : Context * list Effect :=
  let sm := sessionManager c in
  let currentSessionId := Session.sessionId sm in
  let stopped := {| sessionManager := sm; ocrTimer := false; options := options c;
                    recentTexts := recentTexts c |} in
  if (0 <? length (Session.entries sm))%nat then
    (stopped,
     [ClearAll] ++ map Manager (SessionSteps.autoSave_issue true save_iso sm)
     ++ [ShowNotification (SessionStopped (Some (length (Session.entries sm))));
         SendResponse true (Some currentSessionId)])
  else
    (stopped,
     [ClearAll; ShowNotification (SessionStopped None);
      SendResponse true (Some currentSessionId)]).

(** The rest of the [finalizeSession()] call of the listener, which runs
    once the save has settled; [issued] tells whether there was a save. *)
Definition finalize_settled (issued : bool) (resp : Http.Fetch string) (c : Context)
  : Context * list Effect :=
  let '(sm, fx) := SessionSteps.finalizeSession_settle issued resp (sessionManager c) in
  (with_manager sm c, map Manager fx).

(** [case 'AUDIO_SUBTITLE'] *)
Definition on_audio_subtitle (payload : option Payload.t) (h : Session.Host)
    (c : Context) : Context * list Effect :=
  match payload with
  | None => (c, [])
  | Some data =>
      if Js.truthy_str (payload_text data) then
        let '(sm, fx) := Session.addEntry "subtitle" data h (sessionManager c) in
        (with_manager sm c, map Manager fx ++ [ShowSubtitle data])
      else (c, [])
  end.

(** Host answers of one tick of the OCR interval. *)
Record TickHost := {
  tick_video : option Keyframes.Video;
  tick_frame : option string;
  tick_ocr : Http.Fetch Payload.t;
  tick_entry : Session.Host
}.

(** The text that a tick hands to [isNewContent], when it gets that far. *)
Definition tick_text (h : TickHost) : option (option string) :=
  match tick_video h with
  | None => None
  | Some video =>
      if Keyframes.paused video || (Keyframes.readyState video <? 2)%Z then None
      else
        (* if (!frame) return *)
        if negb (Js.truthy_str (tick_frame h)) then None
        else
          match Api.processOCR (tick_ocr h) with
          | None => None
          | Some result => Some (payload_text result)
          end
  end.

(** The callback of the OCR interval set up by [startOCRLoop]. *)
Definition ocr_tick (h : TickHost) (c : Context) : Context * list Effect :=
  if negb (ocrTimer c) then (c, [])
  else
    match tick_video h with
    | None => (c, [])
    | Some video =>
        if Keyframes.paused video || (Keyframes.readyState video <? 2)%Z then (c, [])
        else
          (* if (!frame) return *)
          if negb (Js.truthy_str (tick_frame h)) then (c, [])
          else
            let asked :=
              [FetchOCR (default "" (tick_frame h))
                 (Keyframes.formatTimestamp (Qfloor (Keyframes.currentTime video)))
                 "video_frame"] in
            match Api.processOCR (tick_ocr h) with
            | None => (c, asked)   (* the thrown error is swallowed *)
            | Some result =>
                let '(fresh, cache) :=
                  DedupCache.isNewContent (payload_text result) (recentTexts c) in
                if fresh then
                  let '(sm, fx) :=
                    Session.addEntry "subtitle" result (tick_entry h) (sessionManager c) in
                  ({| sessionManager := sm; ocrTimer := ocrTimer c;
                      options := options c; recentTexts := cache |},
                   asked ++ map Manager fx ++ [ShowSubtitle result])
                else
                  ({| sessionManager := sessionManager c; ocrTimer := ocrTimer c;
                      options := options c; recentTexts := cache |}, asked)
            end
    end.

(** Host answers of one [handleScreenSearch] run; the answer to the image
    save is only logged. *)
Record ScreenHost := {
  screen_capture : option string;
  screen_now : N;
  screen_saved : Http.Fetch string;
  screen_video_time : option Q;
  screen_ocr : Http.Fetch Payload.t;
  screen_entry : Session.Host
}.

Definition with_image (imageId : string) (result : Payload.t) : Payload.t :=
  {| Payload.text_regions := Payload.text_regions result;
     Payload.image_id := Some imageId;
     Payload.detected_language := Payload.detected_language result;
     Payload.translated_text := Payload.translated_text result;
     Payload.original_text := Payload.original_text result;
     Payload.confidence := Payload.confidence result;
     Payload.bbox := Payload.bbox result;
     Payload.image_path := Some ("sessions/images/" +:+ imageId +:+ ".jpg");
     Payload.selection_metadata := Payload.selection_metadata result;
     Payload.source := Payload.source result;
     Payload.timestamp := Payload.timestamp result |}.

(** [handleScreenSearch()] *)
Definition handleScreenSearch (h : ScreenHost) (c : Context) : Context * list Effect :=
  let start := [ShowNotification Capturing; CaptureVisibleTab] in
  match screen_capture h with
  | None | Some EmptyString => (c, start ++ [ShowNotification ScanFailed])
  | Some imageData =>
      let imageId := "img_" +:+ Js.dec (screen_now h) in
      let asked :=
        start ++ [FetchSaveImage imageData imageId "screen_capture";
                  ShowNotification ExtractingText;
                  FetchOCR imageData
                    (Keyframes.formatTimestamp
                       (Qfloor (default 0%Q (screen_video_time h))))
                    "screen_capture"] in
      match Api.processOCR (screen_ocr h) with
      | None => (c, asked ++ [ShowNotification ScanFailed])
      | Some result =>
          if Js.truthy_str (Payload.original_text result)
             || Js.truthy_str (Payload.translated_text result) then
            let result' := with_image imageId result in
            let '(sm, fx) :=
              Session.addEntry "screen_ocr" result' (screen_entry h) (sessionManager c) in
            (with_manager sm c,
             asked ++ map Manager fx
             ++ [ShowSubtitle result';
                 ShowNotification
                   (ScanComplete (match Payload.text_regions result' with
                                  | Some regions => length regions
                                  | None => 1%nat
                                  end))])
          else (c, asked ++ [ShowNotification NoTextFound])
      end
  end.

(** Host answers of one [handleSaveSelectedText] run: the selection as
    text, the rounded rectangle of its first range ([None] when
    [getRangeAt(0)] throws), the page, the video position. *)
Record SelectionHost := {
  selection : string;
  selection_rect : option (Z * Z * Z * Z);
  selection_url : string;
  selection_title : string;
  selection_video_time : option Q;
  selection_entry : Session.Host
}.

(** [s.substring(0, n)] *)
Fixpoint substring0 (n : nat) (s : string) : string :=
  match n, s with
  | S n', String c r => String c (substring0 n' r)
  | _, _ => EmptyString
  end.

(** [handleSaveSelectedText()] *)
Definition handleSaveSelectedText (h : SelectionHost) (c : Context)
  : Context * list Effect :=
  let selectedText := Js.trim (selection h) in
  if Js.is_empty selectedText then (c, [ShowNotification NoTextSelected])
  else
    match selection_rect h with
    | None => (c, [ShowNotification SaveSelectedFailed])
    | Some rect =>
        let entryData :=
          {| Payload.text_regions := None;
             Payload.image_id := None;
             Payload.detected_language := Some "unknown";
             Payload.translated_text := Some selectedText;
             Payload.original_text := Some selectedText;
             Payload.confidence := Some 1%Q;
             Payload.bbox := None;
             Payload.image_path := None;
             Payload.selection_metadata :=
               Some {| page_url := selection_url h; page_title := selection_title h;
                       position := rect |};
             Payload.source := Some "user_selection";
             Payload.timestamp :=
               Some (Keyframes.formatTimestamp
                       (Qfloor (default 0%Q (selection_video_time h)))) |} in
        let '(sm, fx) :=
          Session.addEntry "selected_text" entryData (selection_entry h)
            (sessionManager c) in
        (with_manager sm c,
         map Manager fx
         ++ [ShowNotification
               (Saved (substring0 30 selectedText
                       +:+ (if (30 <? String.length selectedText)%nat then "..." else "")))])
    end.

Definition is_manager (e : Effect) : bool :=
  match e with
  | Manager _ => true
  | _ => false
  end.

End Content.


Module SampleContent.

Definition playing : Keyframes.Video :=
  {| Keyframes.currentTime := 125 # 2; Keyframes.paused := false;
     Keyframes.duration := Some (600 # 1); Keyframes.readyState := 4 |}.

Definition ocr_answer (text : string) : Payload.t :=
  {| Payload.text_regions := None; Payload.image_id := None;
     Payload.detected_language := Some "en"; Payload.translated_text := None;
     Payload.original_text := Some text; Payload.confidence := Some (9 # 10);
     Payload.bbox := None; Payload.image_path := None;
     Payload.selection_metadata := None; Payload.source := Some "video_frame";
     Payload.timestamp := Some "00:01:02" |}.

(** A tick on the playing video whose OCR answer carries [text]. *)
Definition tick (text : string) (now : N) : Content.TickHost :=
  {| Content.tick_video := Some playing;
     Content.tick_frame := Some "data:image/jpeg;base64,AAAA";
     Content.tick_ocr := Http.Response 200 (Some (ocr_answer text));
     Content.tick_entry := SampleCalls.host_at now |}.

Definition started : Content.Context :=
  {| Content.sessionManager := SampleCalls.fresh;
     Content.ocrTimer := true;
     Content.options := {| Background.targetLanguage := "hi";
                           Background.enableTranslation := false;
                           Background.audioEnabled := true;
                           Background.ocrEnabled := true |};
     Content.recentTexts := [] |}.

(** A screen scan whose OCR answer has three regions. *)
Definition scan : Content.ScreenHost :=
  {| Content.screen_capture := Some "data:image/jpeg;base64,BBBB";
     Content.screen_now := 1772359200000;
     Content.screen_saved := Http.Throws;
     Content.screen_video_time := None;
     Content.screen_ocr := Http.Response 200 (Some SampleCalls.three_regions);
     Content.screen_entry := SampleCalls.host_at 1772359200050 |}.

Definition picked : Content.SelectionHost :=
  {| Content.selection := "  Vaccines cause X  ";
     Content.selection_rect := Some (10, 20, 300, 18)%Z;
     Content.selection_url := "https://example.org/post";
     Content.selection_title := "A post";
     Content.selection_video_time := None;
     Content.selection_entry := SampleCalls.host_at 1772359200060 |}.

End SampleContent.


(* ===================================================================== *)
(** * Further definitions: popup commands                                 *)
(* ===================================================================== *)

Module Popup.

(** The active tab as the popup reads it. *)
Record Tab := {
  tab_id : option N;
  tab_url : string
}.

Inductive StatusLine :=
| Working (type : string)
| Triggered (type : string)
| RefreshAndRetry
| NoActiveTab
| NavigateFirst.

Inductive Effect :=
| SetStatus (s : StatusLine)
| SendMessage (tab : N) (type : string)
| Wait (ms : Z).

(** The retry loop shared by the three commands:
    [while (attempts < maxAttempts) { try { await sendMessage; ...; return }
       catch { attempts++; if (attempts < maxAttempts) await delay(100);
               else setStatus(error) } }].
    [delivered k] tells whether the send made after [k] failures goes
    through; [fuel] bounds the iterations. *)
Fixpoint retry (fuel maxAttempts attempts : nat) (tab : N) (type : string)
    (delivered : nat -> bool) : option (list Effect) :=
  if (attempts <? maxAttempts)%nat then
    match fuel with
    | O => None
    | S fuel' =>
        if delivered attempts
        then Some [SendMessage tab type; SetStatus (Triggered type)]
        else
          let attempts' := S attempts in
          let after := if (attempts' <? maxAttempts)%nat
                       then Wait 100 else SetStatus RefreshAndRetry in
          match retry fuel' maxAttempts attempts' tab type delivered with
          | Some rest => Some (SendMessage tab type :: after :: rest)
          | None => None
          end
    end
  else Some [].

(** [tab.url.startsWith('chrome://') || tab.url.startsWith('chrome-extension://')] *)
Definition restricted (url : string) : bool :=
  String.prefix "chrome://" url || String.prefix "chrome-extension://" url.

(** [!!tab?.id] *)
Definition tab_number (tab : option Tab) : option N :=
  match tab with
  | Some t => Background.live_tab (tab_id t)
  | None => None
  end.

(** [onSearchScreen()] *)
Definition onSearchScreen (tab : option Tab) (delivered : nat -> bool)
  : option (list Effect) :=
  match tab_number tab with
  | Some id =>
      match retry 3 3 0 id "TRIGGER_SCREEN_SEARCH" delivered with
      | Some fx => Some (SetStatus (Working "TRIGGER_SCREEN_SEARCH") :: fx)
      | None => None
      end
  | None => Some [SetStatus NoActiveTab]
  end.

(** The body shared by [onSaveSelected()] and [onExtractKeyframes()]. *)
Definition guarded_command (type : string) (tab : option Tab)
    (delivered : nat -> bool) : option (list Effect) :=
  match tab_number tab with
  | Some id =>
      if restricted (default "" (tab_url <$> tab)) then Some [SetStatus NavigateFirst]
      else
        match retry 3 3 0 id type delivered with
        | Some fx => Some (SetStatus (Working type) :: fx)
        | None => None
        end
  | None => Some [SetStatus NoActiveTab]
  end.

Definition onSaveSelected := guarded_command "SAVE_SELECTED_TEXT".
Definition onExtractKeyframes := guarded_command "EXTRACT_KEYFRAMES".

Definition is_send (e : Effect) : bool :=
  match e with
  | SendMessage _ _ => true
  | _ => false
  end.

End Popup.


(* ===================================================================== *)
(** * Further definitions: the request queue of the API client           *)
(* ===================================================================== *)

Module RequestQueue.

(** [requestQueue] and [isProcessing] are the fields of [APIClient];
    requests are named by a number.  [in_flight] lists the requests whose
    [requestFn()] has been called and has not settled, [started] every
    request ever started (in order), [timers] the pending
    [setTimeout(() => this.processQueue(), 100)] callbacks. *)
Record t := {
  requestQueue : list N;
  isProcessing : bool;
  in_flight : list N;
  started : list N;
  timers : nat
}.

Definition new : t :=
  {| requestQueue := []; isProcessing := false; in_flight := [];
     started := []; timers := 0 |}.

(** [processQueue()] up to its [await requestFn()]. *)
Definition processQueue (c : t) : t :=
  if isProcessing c then c
  else
    match requestQueue c with
    | [] => c
    | r :: rest =>
        {| requestQueue := rest; isProcessing := true;
           in_flight := in_flight c ++ [r];
           started := started c ++ [r];
           timers := timers c |}
    end.

(** [queueRequest(requestFn)] *)
Definition queueRequest (r : N) (c : t) : t :=
  processQueue
    {| requestQueue := requestQueue c ++ [r]; isProcessing := isProcessing c;
       in_flight := in_flight c; started := started c; timers := timers c |}.

(** The rest of [processQueue()] once request [r] has settled:
    resolve or reject, then the [finally] block. *)
Definition settled (r : N) (c : t) : t :=
  if bool_decide (r ∈ in_flight c) then
    {| requestQueue := requestQueue c; isProcessing := false;
       in_flight := filter (fun x => x <> r) (in_flight c);
       started := started c;
       timers := if (0 <? length (requestQueue c))%nat
                 then S (timers c) else timers c |}
  else c.

(** A pending timer fires. *)
Definition timer_fired (c : t) : t :=
  match timers c with
  | O => c
  | S n =>
      processQueue
        {| requestQueue := requestQueue c; isProcessing := isProcessing c;
           in_flight := in_flight c; started := started c; timers := n |}
  end.

Inductive Event :=
| QueueRequest (r : N)
| Settled (r : N)
| TimerFired.

Definition step (c : t) (e : Event) : t :=
  match e with
  | QueueRequest r => queueRequest r c
  | Settled r => settled r c
  | TimerFired => timer_fired c
  end.

Definition run (evs : list Event) (c : t) : t := fold_left step evs c.

Definition queued (e : Event) : list N :=
  match e with
  | QueueRequest r => [r]
  | _ => []
  end.

Definition enqueued (evs : list Event) : list N := concat (map queued evs).

(** What holds of the client between two events, [asked] being the
    requests queued so far. *)
Definition queue_ok (c : t) (asked : list N) : Prop :=
  (length (in_flight c) <= 1)%nat
  /\ (isProcessing c = true <-> in_flight c <> [])
  /\ started c ++ requestQueue c = asked
  /\ (isProcessing c = false -> requestQueue c <> [] -> (0 < timers c)%nat).

End RequestQueue.


(* ===================================================================== *)
(** * Further definitions: the message router of the service worker      *)
(* ===================================================================== *)

Module Router.
Import Background.
#[local] Open Scope bg_scope.

(** The messages that [chrome.runtime.onMessage] distinguishes. *)
Inductive Msg :=
| START_PIPELINE (tabId : option N) (payload : option RawOptions)
| STOP_PIPELINE (tabId : option N)
| AUDIO_CHUNK (payload : string) (tabId : option N)
| PING_STATE
| CAPTURE_VISIBLE_TAB
| Other.

(** How [chrome.tabs.captureVisibleTab] ends. *)
Inductive CaptureOutcome :=
| Captured (dataUrl : string)
| CaptureRefused      (* [chrome.runtime.lastError] is set *)
| CaptureThrows.

(** Host answers consumed while one message is handled. *)
Record Host := {
  start_host : StartHost;
  stop_clock : string;
  stt_host : SttHost;
  capture : CaptureOutcome
}.

Inductive Response :=
| Started (r : StartResponse)
| Stopped (r : StopResponse)
| ChunkDone
| Active (active : bool)
| DataUrl (dataUrl : option string)
| Error (error : string).

(** [msg.tabId || sender.tab?.id] *)
Definition or_tab (tabId sender : option N) : option N :=
  match live_tab tabId with
  | Some t => Some t
  | None => sender
  end.

(** The listener of [chrome.runtime.onMessage]; [sender] is
    [sender.tab?.id]. *)
Definition onMessage (msg : Msg) (sender : option N) (h : Host) : Bg Response :=
  match msg with
  | START_PIPELINE tabId payload =>
      do r <- startPipeline (or_tab tabId sender) payload (start_host h);
      ret (Started r)
  | STOP_PIPELINE tabId =>
      do r <- stopPipeline (or_tab tabId sender) (stop_clock h);
      ret (Stopped r)
  | AUDIO_CHUNK payload tabId =>
      do _ <- sendToBackend payload tabId (stt_host h);
      ret ChunkDone
  | PING_STATE =>
      fun st => (Active (match sender with
                         | Some t => ping_active t st
                         | None => false
                         end), st, [])
  | CAPTURE_VISIBLE_TAB =>
      match capture h with
      | Captured dataUrl => ret (DataUrl (Some dataUrl))
      | CaptureRefused => ret (DataUrl None)
      | CaptureThrows => ret (Error "capture_failed")
      end
  | Other => ret (Error "unknown_message")
  end.

(** The listener of [chrome.tabs.onRemoved]. *)
Definition onRemoved (tabId : N) (last_updated : string) : Bg unit :=
  do s <- get tabId;
  match s with
  | Some _ => do _ <- stopPipeline (Some tabId) last_updated; ret tt
  | None => ret tt
  end.

(** What reaches the service worker. *)
Inductive Event :=
| Message (msg : Msg) (sender : option N) (h : Host)
| TabRemoved (tabId : N) (last_updated : string).

Definition handle (e : Event) : Bg unit :=
  match e with
  | Message msg sender h => do _ <- onMessage msg sender h; ret tt
  | TabRemoved tabId last_updated => onRemoved tabId last_updated
  end.

Fixpoint handle_all (es : list Event) : Bg unit :=
  match es with
  | [] => ret tt
  | e :: rest => do _ <- handle e; handle_all rest
  end.

(** The tab whose pipeline state an event can touch. *)
Definition target (e : Event) : option N :=
  match e with
  | Message (START_PIPELINE tabId _) sender h =>
      match live_tab (or_tab tabId sender) with
      | Some t => Some t
      | None => live_tab (active_tab (start_host h))
      end
  | Message (STOP_PIPELINE tabId) sender _ => or_tab tabId sender
  | Message (AUDIO_CHUNK _ tabId) _ _ => live_tab tabId
  | Message _ _ _ => None
  | TabRemoved tabId _ => Some tabId
  end.

(** The entry that a chunk contributes: one if the transcription came
    back with text, none otherwise. *)
Definition heard (h : SttHost) : list Entry.t :=
  match stt h with
  | Http.Response code (Some data) =>
      if Http.ok code && has_text data then [subtitle_entry data h] else []
  | _ => []
  end.

Definition more (es : list Entry.t) (session : PipelineState) : PipelineState :=
  {| tabId := tabId session; sessionId := sessionId session;
     startTime := startTime session; entries := entries session ++ es;
     options := options session |}.

(** What holds of every registered pipeline state. *)
Definition state_ok (t : N) (ps : PipelineState) : Prop :=
  t <> 0%N
  /\ tabId ps = t
  /\ String.prefix "session_" (sessionId ps) = true
  /\ Forall (fun e => Entry.source e = "audio"
                      /\ String.prefix "sub_" (Entry.id e) = true) (entries ps).

Definition registry_ok (st : Registry) : Prop :=
  forall t ps, st !! t = Some ps -> state_ok t ps.

End Router.


(* ===================================================================== *)
(** * Further definitions: the service worker between suspension points   *)
(* ===================================================================== *)

Module WorkerSteps.
Import Background.
#[local] Open Scope bg_scope.

(** [stopPipeline(tabId)] up to the [await] of its final save: the stop
    message and, for a registered tab, the request of
    [autoSaveToBackend(tabId, true)].  The result is [sessionId]. *)
Definition stopPipeline_begin (tab : option N) (last_updated : string)
  : Bg (option string) :=
  do _ <- emit (RuntimeSend (STOP_AUDIO tab));
  match tab with
  | None => ret None
  | Some t =>
      do s <- get t;
      match s with
      | None => ret None
      | Some session =>
          do _ <- autoSaveToBackend t true last_updated;
          ret (Some (sessionId session))
      end
  end.

(** [stopPipeline(tabId)] once the final save has settled: the state is
    deleted (if there was one when the stop began), the content script
    is notified and the response returned. *)
Definition stopPipeline_end (tab : option N) (sid : option string) : Bg StopResponse :=
  do _ <- match tab, sid with
          | Some t, Some _ => del t
          | _, _ => ret tt
          end;
  do _ <- emit (SafeSend tab PIPELINE_STOPPED);
  ret {| stopped := true; stop_sessionId := sid |}.

(** [sendToBackend(base64Audio, tabId)] up to [await fetch]: the guard
    and the speech-to-text request.  The result is the tab when the
    request was issued. *)
Definition sendToBackend_begin (base64Audio : string) (tab : option N)
  : Bg (option N) :=
  match live_tab tab with
  | None => ret None
  | Some t =>
      do s <- get t;
      match s with
      | None => ret None
      | Some _ => do _ <- emit (FetchSpeechToText base64Audio); ret (Some t)
      end
  end.

(** [sendToBackend] from the answer of speech-to-text up to the [await]
    of the autosave: the entry is pushed and the save requested.  The
    result is the payload that is still to be announced. *)
Definition stt_answer_begin (t : N) (h : SttHost) : Bg (option Payload.t) :=
  match stt h with
  | Http.Throws => ret None
  | Http.Response code body =>
      if negb (Http.ok code) then ret None
      else
        match body with
        | None => ret None
        | Some data =>
            if has_text data then
              do s <- get t;
              match s with
              | None => ret None   (* [session.entries] of undefined: caught *)
              | Some session =>
                  do _ <- set t (push_entry (subtitle_entry data h) session);
                  do _ <- autoSaveToBackend t false (stt_save_iso h);
                  ret (Some data)
              end
            else ret None
        end
  end.

(** [sendToBackend] once that autosave has settled. *)
Definition stt_answer_end (t : N) (announce : option Payload.t) : Bg unit :=
  match announce with
  | Some data => emit (SafeSend (Some t) (AUDIO_SUBTITLE data))
  | None => ret tt
  end.

(** What reaches the service worker for one tab while its pipeline runs:
    a chunk message, or the answer to the speech-to-text request of an
    earlier chunk (the answers need not come in the order of the
    requests). *)
Inductive ChunkEvent :=
| ChunkArrives (audio : string)
| Transcribed (h : SttHost).

(** The registry, and the number of speech-to-text requests in flight. *)
Definition chunk_step (t : N) (w : Registry * nat) (e : ChunkEvent) : Registry * nat :=
  match e with
  | ChunkArrives audio =>
      let r := sendToBackend_begin audio (Some t) (fst w) in
      (registry_of r, match result_of r with
                      | Some _ => S (snd w)
                      | None => snd w
                      end)
  | Transcribed h =>
      match snd w with
      | O => w
      | S waiting => (registry_of (stt_answer_begin t h (fst w)), waiting)
      end
  end.

Definition chunk_run (t : N) (es : list ChunkEvent) (w : Registry * nat)
  : Registry * nat :=
  fold_left (chunk_step t) es w.

(** The answers of a schedule, in the order of their arrival. *)
Definition answers (es : list ChunkEvent) : list SttHost :=
  flat_map (fun e => match e with
                     | Transcribed h => [h]
                     | ChunkArrives _ => []
                     end) es.

(** Every answer of the schedule answers a request that is in flight. *)
Fixpoint answerable (waiting : nat) (es : list ChunkEvent) : bool :=
  match es with
  | [] => true
  | ChunkArrives _ :: rest => answerable (S waiting) rest
  | Transcribed _ :: rest =>
      match waiting with
      | O => false
      | S waiting' => answerable waiting' rest
      end
  end.

End WorkerSteps.

(** A recorder on tab 42 with one chunk at the base64 step, and an
    answer of the speech-to-text service that has text. *)
Module SampleRace.

Definition encoding_first : Offscreen.Context :=
  Offscreen.handle SampleAudio.rotating Offscreen.RecorderStopped.

Definition spoken : Background.SttHost :=
  {| Background.stt :=
       Http.Response 200
         (Some {| Payload.text_regions := None; Payload.image_id := None;
                  Payload.detected_language := Some "en";
                  Payload.translated_text := None;
                  Payload.original_text := Some "markets fell today";
                  Payload.confidence := Some (9 # 10);
                  Payload.bbox := None; Payload.image_path := None;
                  Payload.selection_metadata := None;
                  Payload.source := Some "tab_audio";
                  Payload.timestamp := Some "00:00:12" |});
     Background.stt_now := 1772359213000;
     Background.stt_rnd := 88;
     Background.stt_iso := "2026-03-01T10:00:13.000Z";
     Background.stt_save_iso := "2026-03-01T10:00:13.010Z" |}.

End SampleRace.


(* ===================================================================== *)
(** * Further definitions: what the keyframe sweep produces               *)
(* ===================================================================== *)

(** A step keeps a keyframe when the frame was captured and
    [/api/save-image] answered ok with a body. *)
Definition keyframe_kept (h : Keyframes.StepHost) : bool :=
  match Keyframes.frame h with
  | None => false
  | Some _ =>
      match Keyframes.saved h with
      | Http.Response code (Some _) => Http.ok code
      | _ => false
      end
  end.

Definition saved_path (h : Keyframes.StepHost) : string :=
  match Keyframes.saved h with
  | Http.Response _ (Some relative_path) => relative_path
  | _ => ""
  end.

(** The object pushed onto [keyframes] at [time]. *)
Definition keyframe_at (host : Z -> Keyframes.StepHost) (time : Z) : Keyframes.Keyframe :=
  {| Keyframes.image_id :=
       "keyframe_" +:+ Js.dec (Keyframes.step_now (host time)) +:+ "_"
         +:+ Js.dec (Z.to_N time);
     Keyframes.image_path := saved_path (host time);
     Keyframes.timestamp := time;
     Keyframes.timestamp_formatted := Keyframes.formatTimestamp time |}.

(** The values that [time] takes in the loop. *)
Fixpoint sweep_times (fuel : nat) (time : Z) (dur : Q) : list Z :=
  if Qle_bool dur (inject_Z time) then []
  else
    match fuel with
    | O => []
    | S fuel' => time :: sweep_times fuel' (time + Keyframes.interval) dur
    end.

Definition extracted_keyframes (o : option Keyframes.Outcome) : list Keyframes.Keyframe :=
  match o with
  | Some (Keyframes.Extracted _ keyframes _ _) => keyframes
  | _ => []
  end.

Definition session_after_extract (o : option Keyframes.Outcome)
    (sm : Session.SessionManager) : Session.SessionManager :=
  match o with
  | Some (Keyframes.Extracted _ _ sm' _) => sm'
  | _ => sm
  end.

(** The entry that the session holds for a keyframe. *)
Definition keyframe_entry_ok (k : Keyframes.Keyframe) (e : Entry.t) : Prop :=
  Entry.source e = "image"
  /\ Entry.image_id e = Some (Keyframes.image_id k)
  /\ Entry.image_path e
     = (if Js.is_empty (Keyframes.image_path k) then None
        else Some (Keyframes.image_path k))
  /\ Entry.text e = Some ""
  /\ Entry.original_text e = Some ""
  /\ Entry.confidence e = 1%Q
  /\ Entry.bbox e = Some [].


(* ===================================================================== *)
(** * Further definitions: audio held by the recorder                     *)
(* ===================================================================== *)

(** Blobs put one after the other. *)
Definition joined (blobs : list string) : string := fold_right String.append "" blobs.

(** The audio that the offscreen document has sent or still holds, in
    recording order: the messages sent, the blobs being encoded, the
    queued stop events, the running recording. *)
Definition recorded (c : Offscreen.Context) : string :=
  joined (map Offscreen.payload (Offscreen.sent c) ++ Offscreen.encoding c
            ++ Offscreen.stop_events c)
  +:+ Offscreen.gathered c.

(** The audio that a schedule delivers to the recording. *)
Definition delivered (es : list Offscreen.Event) : string :=
  joined (flat_map (fun e => match e with
                             | Offscreen.Audio data => [data]
                             | _ => []
                             end) es).

(** Events of a recording that runs: audio, rotation, dispatch of stop
    events, end of an encoding. *)
Definition is_rotation (e : Offscreen.Event) : bool :=
  match e with
  | Offscreen.Audio _ | Offscreen.TimerFires | Offscreen.RecorderStopped
  | Offscreen.EncodingDone => true
  | _ => false
  end.

(** [getUserMedia] succeeded and a recorder type is supported: the
    handler reaches [setInterval]. *)
Definition sets_interval (e : Offscreen.Event) : bool :=
  match e with
  | Offscreen.StreamReady true mimeType => Js.truthy_str mimeType
  | _ => false
  end.

Definition is_stop_audio (e : Offscreen.Event) : bool :=
  match e with
  | Offscreen.StopAudioMsg => true
  | _ => false
  end.


(* ===================================================================== *)
(** * Further definitions: texts in the ASCII range                       *)
(* ===================================================================== *)

(** A text all of whose characters are ASCII.  On such a text [Js.trim]
    removes what [String.prototype.trim] removes: the blanks of the ASCII
    range are tab, line feed, vertical tab, form feed, carriage return and
    space. *)
Definition ascii_only (s : string) : bool :=
  forallb (fun c => (nat_of_ascii c <? 128)%nat) (list_ascii_of_string s).


(* ===================================================================== *)
(** * Properties                                                          *)
(* ===================================================================== *)

(** ** Normalization of cached text *)

Section Normalization.
Import Js.

Lemma lower_char_idem (c : ascii) : lower_char (lower_char c) = lower_char c.
Proof. destruct c as [[] [] [] [] [] [] [] []]; reflexivity. Qed.

Lemma is_ws_lower_char (c : ascii) : is_ws (lower_char c) = is_ws c.
Proof. destruct c as [[] [] [] [] [] [] [] []]; reflexivity. Qed.

Lemma toLowerCase_idem (s : string) : toLowerCase (toLowerCase s) = toLowerCase s.
Proof. induction s as [|c r IH]; simpl; [done|]. by rewrite lower_char_idem, IH. Qed.

Lemma is_empty_toLowerCase (s : string) : is_empty (toLowerCase s) = is_empty s.
Proof. by destruct s. Qed.

Lemma trimStart_toLowerCase (s : string) :
  trimStart (toLowerCase s) = toLowerCase (trimStart s).
Proof.
  induction s as [|c r IH]; simpl; [done|].
  rewrite is_ws_lower_char. by destruct (is_ws c).
Qed.

Lemma trimEnd_toLowerCase (s : string) :
  trimEnd (toLowerCase s) = toLowerCase (trimEnd s).
Proof.
  induction s as [|c r IH]; simpl; [done|].
  rewrite is_ws_lower_char, IH, is_empty_toLowerCase.
  by destruct (is_ws c && is_empty (trimEnd r)).
Qed.

Lemma is_empty_eq (s : string) : is_empty s = true -> s = EmptyString.
Proof. by destruct s. Qed.

Lemma trimStart_idem (s : string) : trimStart (trimStart s) = trimStart s.
Proof.
  induction s as [|c r IH]; simpl; [done|].
  destruct (is_ws c) eqn:E; [done|]. simpl. by rewrite E.
Qed.

Lemma trimEnd_idem (s : string) : trimEnd (trimEnd s) = trimEnd s.
Proof.
  induction s as [|c r IH]; simpl; [done|].
  destruct (is_ws c && is_empty (trimEnd r)) eqn:E; [done|].
  simpl. by rewrite IH, E.
Qed.

Lemma trimStart_trimEnd (s : string) : trimStart (trimEnd s) = trimEnd (trimStart s).
Proof.
  induction s as [|c r IH]; simpl; [done|].
  destruct (is_ws c) eqn:Ec; simpl.
  - rewrite <- IH. destruct (is_empty (trimEnd r)) eqn:Ee; simpl.
    + by rewrite (is_empty_eq _ Ee).
    + by rewrite Ec.
  - by rewrite Ec.
Qed.

Lemma trim_idem (s : string) : trim (trim s) = trim s.
Proof.
  unfold trim. by rewrite trimStart_trimEnd, trimStart_idem, trimEnd_idem.
Qed.

Lemma normalize_idem (s : string) :
  DedupCache.normalize (DedupCache.normalize s) = DedupCache.normalize s.
Proof.
  unfold DedupCache.normalize, trim.
  by rewrite trimStart_toLowerCase, trimEnd_toLowerCase, toLowerCase_idem,
    trimStart_trimEnd, trimStart_idem, trimEnd_idem.
Qed.

End Normalization.

(** ** The dedup cache *)

Section Dedup.
Import DedupCache.

Lemma set_delete_absent (x : string) (s : JsSet) : x ∉ s -> set_delete x s = s.
Proof.
  unfold set_delete. induction s as [|y s IH]; intros Hx; [done|].
  rewrite not_elem_of_cons in Hx. destruct Hx as [Hne Hx].
  rewrite filter_cons. case_decide; [|congruence]. by rewrite IH.
Qed.

Lemma set_delete_head (x : string) (s : JsSet) :
  NoDup (x :: s) -> set_delete x (x :: s) = s.
Proof.
  intros Hnd. apply NoDup_cons in Hnd as [Hx _].
  unfold set_delete. rewrite filter_cons. case_decide; [congruence|].
  by apply set_delete_absent.
Qed.

(** A rejected check leaves the cache as it was. *)
Lemma isNewContent_rejected (t : option string) (cache : JsSet) :
  fst (isNewContent t cache) = false -> snd (isNewContent t cache) = cache.
Proof.
  unfold isNewContent. destruct t as [t|]; [|done].
  destruct (_ || _); [done|]. destruct (set_has _ _); [done|].
  destruct (_ <? _)%nat; [|done]. by destruct (set_first _).
Qed.

(** An admitted text below capacity: appended, nothing evicted. *)
Lemma isNewContent_admit_below (t : string) (cache : JsSet) :
  fst (isNewContent (Some t) cache) = true ->
  (length cache < MAX_CACHE)%nat ->
  snd (isNewContent (Some t) cache) = cache ++ [normalize t]
  /\ normalize t ∉ cache.
Proof.
  unfold isNewContent. destruct (_ || _); [done|].
  unfold set_add, set_has, set_size. case_bool_decide as Hin; [done|].
  intros _ Hlt. rewrite length_app. simpl.
  destruct (Nat.ltb_spec MAX_CACHE (length cache + 1)); [lia|done].
Qed.

(** An admitted text at capacity: the oldest member leaves, the others
    keep their order, the new text comes last. *)
Lemma isNewContent_admit_full (t : string) (cache : JsSet) :
  NoDup cache ->
  fst (isNewContent (Some t) cache) = true ->
  length cache = MAX_CACHE ->
  exists oldest rest,
    cache = oldest :: rest
    /\ snd (isNewContent (Some t) cache) = rest ++ [normalize t]
    /\ normalize t ∉ cache.
Proof.
  intros Hnd. unfold isNewContent. destruct (_ || _); [done|].
  unfold set_add, set_has, set_size. case_bool_decide as Hin; [done|].
  intros _ Hlen. rewrite length_app. simpl.
  destruct (Nat.ltb_spec MAX_CACHE (length cache + 1)); [|lia].
  destruct cache as [|oldest rest]; [done|].
  exists oldest, rest. split; [done|]. split; [|done]. simpl.
  change (oldest :: rest ++ [normalize t]) with (oldest :: (rest ++ [normalize t])).
  apply set_delete_head. rewrite app_comm_cons.
  apply NoDup_app. split; [done|]. split; [|apply NoDup_singleton].
  intros x Hx Hx'. apply list_elem_of_singleton in Hx'. by subst.
Qed.

Lemma isNewContent_normalized (t : string) (cache : JsSet) :
  fst (isNewContent (Some t) cache) = true -> normalize t ∉ cache.
Proof.
  unfold isNewContent. destruct (_ || _); [done|].
  unfold set_has. by case_bool_decide.
Qed.

Lemma isNewContent_ok (t : option string) (cache : JsSet) :
  cache_ok cache -> cache_ok (snd (isNewContent t cache)).
Proof.
  intros (Hnd & Hlen & Hnorm).
  destruct (fst (isNewContent t cache)) eqn:Hfst.
  2:{ by rewrite isNewContent_rejected. }
  destruct t as [t|]; [|done].
  assert (length cache < MAX_CACHE \/ length cache = MAX_CACHE)%nat as [Hlt|Heq] by lia.
  - destruct (isNewContent_admit_below t cache Hfst Hlt) as [-> Hin].
    split; [|split].
    + apply NoDup_app. split; [done|]. split; [|apply NoDup_singleton].
      intros x Hx Hx'. apply list_elem_of_singleton in Hx'. by subst.
    + rewrite length_app. simpl. lia.
    + apply Forall_app. split; [done|].
      apply Forall_singleton, normalize_idem.
  - destruct (isNewContent_admit_full t cache Hnd Hfst Heq)
      as (oldest & rest & -> & -> & Hin).
    apply NoDup_cons in Hnd as [Ho Hnd]. apply Forall_cons in Hnorm as [_ Hnorm].
    rewrite not_elem_of_cons in Hin. destruct Hin as [_ Hin].
    split; [|split].
    + apply NoDup_app. split; [done|]. split; [|apply NoDup_singleton].
      intros x Hx Hx'. apply list_elem_of_singleton in Hx'. by subst.
    + rewrite length_app. simpl in *. lia.
    + apply Forall_app. split; [done|].
      apply Forall_singleton, normalize_idem.
Qed.

Lemma checks_ok (texts : list (option string)) (cache : JsSet) :
  cache_ok cache -> cache_ok (checks texts cache).
Proof.
  revert cache. induction texts as [|t texts IH]; intros cache Hok; [done|].
  simpl. apply IH. by apply isNewContent_ok.
Qed.

Lemma cache_ok_empty : cache_ok [].
Proof.
  split; [apply NoDup_nil_2|]. split; [unfold MAX_CACHE; simpl; lia|done].
Qed.

End Dedup.

(** C5. After any sequence of checks the dedup cache holds at most
    [MAX_CACHE] strings, each of them normalized (trimmed, lower-cased) and
    none twice; a text admitted while the cache is full replaces exactly
    the oldest member and leaves the others in their order; a text whose
    normalized form is already cached is rejected and reorders nothing. *)
Theorem C5_dedup_cache_bounded_fifo (texts : list (option string)) :
  let cache := DedupCache.checks texts [] in
  (length cache <= DedupCache.MAX_CACHE)%nat
  /\ Forall (fun x => DedupCache.normalize x = x) cache
  /\ NoDup cache
  /\ (forall t,
        fst (DedupCache.isNewContent (Some t) cache) = true ->
        length cache = DedupCache.MAX_CACHE ->
        exists oldest rest,
          cache = oldest :: rest
          /\ snd (DedupCache.isNewContent (Some t) cache)
             = rest ++ [DedupCache.normalize t])
  /\ (forall t,
        fst (DedupCache.isNewContent (Some t) cache) = true ->
        (length cache < DedupCache.MAX_CACHE)%nat ->
        snd (DedupCache.isNewContent (Some t) cache)
        = cache ++ [DedupCache.normalize t])
  /\ (forall t,
        DedupCache.normalize t ∈ cache ->
        DedupCache.isNewContent (Some t) cache = (false, cache)).
Proof.
  intros cache.
  destruct (checks_ok texts [] cache_ok_empty) as (Hnd & Hlen & Hnorm).
  fold cache in Hnd, Hlen, Hnorm.
  split; [done|]. split; [done|]. split; [done|]. split; [|split].
  - intros t Hfst Hfull.
    destruct (isNewContent_admit_full t cache Hnd Hfst Hfull)
      as (oldest & rest & ? & ? & _).
    by exists oldest, rest.
  - intros t Hfst Hlt. by destruct (isNewContent_admit_below t cache Hfst Hlt).
  - intros t Hin. unfold DedupCache.isNewContent.
    destruct (_ || _); [done|].
    unfold DedupCache.set_has. by case_bool_decide.
Qed.

Lemma C5_dedup_cache_witness :
  exists oldest rest,
    DedupCache.checks Sample.headlines [] = oldest :: rest
    /\ snd (DedupCache.isNewContent (Some " Breaking NEWS ")
              (DedupCache.checks Sample.headlines []))
       = rest ++ ["breaking news"].
Proof.
  destruct (C5_dedup_cache_bounded_fifo Sample.headlines) as (_ & _ & _ & H & _).
  apply (H " Breaking NEWS "); reflexivity.
Defined.

(** ** The result pollers *)

Section Pollers.
Import Poller.

Lemma run_terminal (m : N) (answers : list (Http.Fetch Http.Result)) (st : PollState) :
  still_polling st = false -> run m answers st = st.
Proof.
  unfold still_polling. destruct answers; simpl; [done|]. by destruct (status st).
Qed.

(** [n] consecutive not-ready answers, seen from any polling state. *)
Lemma run_not_ready (m : N) (n : nat) (st : PollState) :
  still_polling st = true ->
  (attempts st <= m + 1)%N ->
  let st' := run m (repeat not_ready n) st in
  if bool_decide (attempts st + N.of_nat n <= m + 1)%N
  then still_polling st' = true /\ attempts st' = (attempts st + N.of_nat n)%N
  else timed_out st' = true /\ attempts st' = (m + 2)%N.
Proof.
  revert st. induction n as [|n IH]; intros st Hpoll Hle; simpl.
  - case_bool_decide; [|lia]. split; [done|lia].
  - unfold still_polling in Hpoll. destruct (status st) eqn:Hst; try done.
    destruct (N.ltb_spec m (attempts st)) as [Hgt|Hngt].
    + rewrite run_terminal by done. case_bool_decide; [lia|].
      simpl. split; [done|lia].
    + specialize (IH {| attempts := attempts st + 1;
                        progress_text :=
                          "Analyzing... (" +:+ Js.dec (attempts st + 1) +:+ "s)";
                        status := Scheduled 2000 |}).
      simpl in IH. specialize (IH eq_refl).
      assert (attempts st + 1 <= m + 1)%N as Hle' by lia. specialize (IH Hle').
      repeat case_bool_decide; try lia.
      * destruct IH as [? ?]. split; [done|lia].
      * done.
Qed.

(** The interval callback of [SessionManager.pollResults] gives up at its
    thirtieth consecutive not-ready answer. *)
Lemma pollTicks_not_ready (n : nat) (sm : Session.SessionManager) (t : Session.PollTimer) :
  Session.sessionId sm = Session.poll_session t ->
  Session.poll_cleared t = false ->
  (Session.poll_attempts t < Session.pollResults_maxAttempts)%N ->
  Session.poll_cleared (snd (Session.pollTicks (repeat not_ready n) sm t))
  = bool_decide (Session.pollResults_maxAttempts
                 <= Session.poll_attempts t + N.of_nat n)%N.
Proof.
  revert sm t. induction n as [|n IH]; intros sm t Hsid Hlive Hlt; simpl.
  - rewrite Hlive. case_bool_decide; [lia|done].
  - unfold Session.pollTick. rewrite Hlive. simpl.
    rewrite bool_decide_eq_true_2 by done. simpl.
    unfold Session.tick_ceiling. simpl.
    destruct (N.leb_spec Session.pollResults_maxAttempts (Session.poll_attempts t + 1))
      as [Hge|Hless].
    + case_bool_decide; [|lia].
      clear. induction n as [|n IHn]; [done|]. simpl. apply IHn.
    + rewrite IH; simpl; try done.
      repeat case_bool_decide; try done; lia.
Qed.

End Pollers.

(** The results page ([maxAttempts = 30]): after thirty consecutive
    not-ready answers another poll is scheduled; the error appears with the
    thirty-second answer. *)
Example results_page_after_thirty_answers :
  Poller.status
    (Poller.run Poller.results_maxAttempts (repeat Poller.not_ready 30) Poller.startPolling)
  = Poller.Scheduled 2000
  /\ Poller.status
       (Poller.run Poller.results_maxAttempts (repeat Poller.not_ready 31) Poller.startPolling)
     = Poller.Scheduled 2000
  /\ Poller.status
       (Poller.run Poller.results_maxAttempts (repeat Poller.not_ready 32) Poller.startPolling)
     = Poller.ShowError "Timed out waiting for results.".
Proof. vm_compute. done. Qed.

(** C1. [startPolling] fed with [n] consecutive not-ready (404) answers:
    it shows the time-out error once [n] reaches [maxAttempts + 2] and is
    still polling for every smaller [n]; after exactly [maxAttempts]
    answers it has scheduled one more poll. *)
Theorem C1_startPolling_times_out_two_answers_late (maxAttempts : N) (n : nat) :
  let st := Poller.run maxAttempts (repeat Poller.not_ready n) Poller.startPolling in
  Poller.timed_out st = bool_decide (maxAttempts + 2 <= N.of_nat n)%N
  /\ Poller.still_polling st = bool_decide (N.of_nat n < maxAttempts + 2)%N
  /\ Poller.still_polling
       (Poller.run maxAttempts
          (repeat Poller.not_ready (N.to_nat maxAttempts)) Poller.startPolling) = true.
Proof.
  assert (forall k,
    let st := Poller.run maxAttempts (repeat Poller.not_ready k) Poller.startPolling in
    Poller.timed_out st = bool_decide (maxAttempts + 2 <= N.of_nat k)%N
    /\ Poller.still_polling st = bool_decide (N.of_nat k < maxAttempts + 2)%N) as Hgen.
  { intros k.
    pose proof (run_not_ready maxAttempts k Poller.startPolling eq_refl) as H.
    simpl in H. specialize (H ltac:(lia)).
    case_bool_decide as Hk.
    - destruct H as [Hp _]. simpl. rewrite Hp.
      unfold Poller.timed_out. unfold Poller.still_polling in Hp.
      destruct (Poller.status _); try done.
      split; symmetry; [apply bool_decide_eq_false_2|apply bool_decide_eq_true_2]; lia.
    - destruct H as [Ht _]. simpl. rewrite Ht.
      unfold Poller.still_polling. unfold Poller.timed_out in Ht.
      destruct (Poller.status _); try done.
      split; symmetry; [apply bool_decide_eq_true_2|apply bool_decide_eq_false_2]; lia. }
  intros st. destruct (Hgen n) as [H1 H2]. split; [done|]. split; [done|].
  destruct (Hgen (N.to_nat maxAttempts)) as [_ H3]. simpl in H3. rewrite H3.
  apply bool_decide_eq_true_2. lia.
Qed.

(** ** Entry ids *)

Section Ids.

Lemma dec_inj (a b : N) : Js.dec a = Js.dec b -> a = b.
Proof.
  unfold Js.dec. intros H.
  apply (f_equal NilEmpty.uint_of_string) in H.
  rewrite !NilEmpty.usu in H. injection H as H.
  apply (f_equal N.of_uint) in H. by rewrite !DecimalN.Unsigned.of_to in H.
Qed.

Lemma string_of_uint_plain (d : Decimal.uint) :
  has_underscore (NilEmpty.string_of_uint d) = false.
Proof. induction d; simpl; try done; by rewrite IHd. Qed.

Lemma dec_plain (n : N) : has_underscore (Js.dec n) = false.
Proof. apply string_of_uint_plain. Qed.

Lemma append_inj_l (p x y : string) : p +:+ x = p +:+ y -> x = y.
Proof. induction p as [|c p IH]; simpl; [done|]. intros [= H]. auto. Qed.

(** Two texts without underscore, each followed by an underscore and a
    tail: equal wholes have equal parts. *)
Lemma append_sep_inj (d d' s s' : string) :
  has_underscore d = false -> has_underscore d' = false ->
  d +:+ "_" +:+ s = d' +:+ "_" +:+ s' -> d = d' /\ s = s'.
Proof.
  revert d'. induction d as [|c d IH]; intros [|c' d']; simpl.
  - intros _ _ [= H]. done.
  - intros _ H [= <- _]. by rewrite bool_decide_eq_true_2 in H.
  - intros H _ [= -> _]. by rewrite bool_decide_eq_true_2 in H.
  - intros H H' [= -> Heq].
    apply orb_false_iff in H as [_ H]. apply orb_false_iff in H' as [_ H'].
    destruct (IH d' H H' Heq) as [-> ->]. done.
Qed.

Lemma id_of_inj (p p' : string) (b b' k k' : N) :
  p ∈ id_prefixes -> p' ∈ id_prefixes ->
  id_of p b k = id_of p' b' k' -> p = p' /\ b = b' /\ k = k'.
Proof.
  unfold id_prefixes, id_of. intros Hp Hp' H.
  assert (forall q, q ∈ ["sub"; "sel"; "img_txt"] ->
            q = "sub" \/ q = "sel" \/ q = "img_txt") as Hcases.
  { intros q Hq. rewrite !elem_of_cons, elem_of_nil in Hq. tauto. }
  assert (forall x y, Js.dec b +:+ "_" +:+ x = Js.dec b' +:+ "_" +:+ y ->
            b = b' /\ x = y) as Hsep.
  { intros x y Hxy.
    destruct (append_sep_inj _ _ _ _ (dec_plain b) (dec_plain b') Hxy) as [Hb ->].
    split; [by apply dec_inj|done]. }
  destruct (Hcases p Hp) as [->| [->| ->]];
    destruct (Hcases p' Hp') as [->| [->| ->]];
    simpl in H; try discriminate;
    injection H as H; apply Hsep in H as [-> H]; apply dec_inj in H; done.
Qed.

Lemma id_prefix_in (type : string) : Session.id_prefix type ∈ id_prefixes.
Proof.
  unfold Session.id_prefix, id_prefixes.
  repeat case_bool_decide; rewrite !elem_of_cons; tauto.
Qed.

End Ids.

(** ** The session aggregator *)

Section Aggregator.
Import Session.

Lemma pollResults_entries (sid : string) (sm : SessionManager) :
  entries (fst (pollResults sid sm)) = entries sm.
Proof. unfold pollResults. by destruct (_ && _). Qed.

Lemma autoSave_entries (trigger : bool) (save_iso : string)
    (resp : Http.Fetch string) (sm : SessionManager) :
  entries (fst (autoSave trigger save_iso resp sm)) = entries sm.
Proof.
  unfold autoSave. destruct (negb _); [done|].
  destruct resp as [|code [body|]]; try done; destruct (Http.ok code); try done.
  destruct trigger; [|done].
  pose proof (pollResults_entries (sessionId sm) sm) as H.
  by destruct (pollResults (sessionId sm) sm).
Qed.

Lemma forEach_region_entries (b : N) (ts img : string) (data : Payload.t)
    (i : N) (rs : list Region.t) (sm : SessionManager) :
  entries (forEach_region b ts img data i rs sm)
  = entries sm ++ region_entries b ts img data i rs.
Proof.
  revert i sm. induction rs as [|r rs IH]; intros i sm; simpl.
  - by rewrite app_nil_r.
  - rewrite IH. simpl. by rewrite <- app_assoc.
Qed.

Lemma addEntry_call_entries (sm : SessionManager) (c : Call) :
  entries (addEntry_call sm c) = entries sm ++ appended c.
Proof.
  unfold addEntry_call, addEntry, appended, call_now.
  destruct (_ && _); rewrite autoSave_entries; [|done].
  apply forEach_region_entries.
Qed.

Lemma entries_of_call_appended (c : Call) : entries_of_call c = appended c.
Proof. unfold entries_of_call. by rewrite addEntry_call_entries. Qed.

Lemma addEntries_entries (calls : list Call) (sm : SessionManager) :
  entries (addEntries calls sm) = entries sm ++ flat_map entries_of_call calls.
Proof.
  revert sm. induction calls as [|c calls IH]; intros sm; simpl.
  - by rewrite app_nil_r.
  - unfold addEntries in IH. rewrite IH, addEntry_call_entries.
    by rewrite entries_of_call_appended, <- app_assoc.
Qed.

Lemma region_entries_length b ts img data i rs :
  length (region_entries b ts img data i rs) = length rs.
Proof. revert i. induction rs as [|r rs IH]; intros i; simpl; [done|]. by rewrite IH. Qed.

Lemma region_entries_image b ts img data i rs :
  Forall (fun e => Entry.image_id e = Some img) (region_entries b ts img data i rs).
Proof.
  revert i. induction rs as [|r rs IH]; intros i; simpl; [done|].
  apply Forall_cons. split; [done|apply IH].
Qed.

Lemma region_entries_text b ts img data i rs :
  map Entry.text (region_entries b ts img data i rs) = map Region.text rs.
Proof. revert i. induction rs as [|r rs IH]; intros i; simpl; [done|]. by rewrite IH. Qed.

Lemma region_entries_ids b ts img data i rs (e : Entry.t) :
  e ∈ region_entries b ts img data i rs ->
  exists k, (i <= k)%N /\ Entry.id e = id_of "img_txt" b k.
Proof.
  revert i. induction rs as [|r rs IH]; intros i; simpl.
  - by intros ?%elem_of_nil.
  - intros [->|Hin]%elem_of_cons.
    + exists i. split; [lia|done].
    + destruct (IH _ Hin) as (k & Hk & Hid). exists k. split; [lia|done].
Qed.

Lemma region_entries_NoDup b ts img data i rs :
  NoDup (map Entry.id (region_entries b ts img data i rs)).
Proof.
  revert i. induction rs as [|r rs IH]; intros i; simpl; [apply NoDup_nil_2|].
  apply NoDup_cons. split; [|apply IH].
  intros (e & Hid & Hin)%list_elem_of_fmap.
  destruct (region_entries_ids _ _ _ _ _ _ _ Hin) as (k & Hk & Hidk).
  rewrite Hidk in Hid.
  change ("img_txt_" +:+ Js.dec b +:+ "_" +:+ Js.dec i) with (id_of "img_txt" b i) in Hid.
  apply id_of_inj in Hid as (_ & _ & Hik);
    [lia| |]; unfold id_prefixes; rewrite !elem_of_cons; tauto.
Qed.

(** Every id of a call carries the clock reading of that call. *)
Lemma appended_ids (c : Call) (e : Entry.t) :
  e ∈ appended c ->
  exists p k, p ∈ id_prefixes /\ Entry.id e = id_of p (call_now c) k.
Proof.
  unfold appended. destruct (_ && _).
  - intros Hin. destruct (region_entries_ids _ _ _ _ _ _ _ Hin) as (k & _ & Hid).
    exists "img_txt", k. split; [|done].
    unfold id_prefixes. rewrite !elem_of_cons. tauto.
  - intros ->%list_elem_of_singleton.
    exists (id_prefix (call_type c)), (rnd (call_host c)).
    split; [apply id_prefix_in|done].
Qed.

Lemma appended_NoDup (c : Call) : NoDup (map Entry.id (appended c)).
Proof.
  unfold appended. destruct (_ && _); [apply region_entries_NoDup|].
  apply NoDup_singleton.
Qed.

Lemma flat_map_appended_NoDup (calls : list Call) :
  NoDup (map call_now calls) ->
  NoDup (map Entry.id (flat_map appended calls)).
Proof.
  induction calls as [|c calls IH]; simpl; [intros _; apply NoDup_nil_2|].
  intros [Hc Hnd]%NoDup_cons. rewrite map_app. apply NoDup_app.
  split; [apply appended_NoDup|]. split; [|by apply IH].
  intros x (e & -> & He)%list_elem_of_fmap (e' & Heq & He')%list_elem_of_fmap.
  apply list_elem_of_In, in_flat_map in He' as (c' & Hc' & He').
  apply list_elem_of_In in He', Hc'.
  destruct (appended_ids c e He) as (p & k & Hp & Hid).
  destruct (appended_ids c' e' He') as (p' & k' & Hp' & Hid').
  rewrite Hid, Hid' in Heq. apply id_of_inj in Heq as (_ & Hnow & _); [|done..].
  apply Hc. rewrite Hnow. apply list_elem_of_fmap. by exists c'.
Qed.

End Aggregator.

(** C3 (amended). The entries of a session after any finite sequence of
    [addEntry] calls are the earlier entries followed by the entries of
    each call, in call order; on a fresh session their ids are pairwise
    distinct whenever no two calls read the same [Date.now()]. *)
Theorem C3_entries_in_call_order_ids_distinct_by_clock
    (calls : list Session.Call) (sm : Session.SessionManager) :
  Session.entries (Session.addEntries calls sm)
  = Session.entries sm ++ flat_map Session.entries_of_call calls
  /\ (Session.entries sm = [] ->
      NoDup (map call_now calls) ->
      NoDup (map Entry.id (Session.entries (Session.addEntries calls sm)))).
Proof.
  split; [apply addEntries_entries|].
  intros Hfresh Hclock. rewrite addEntries_entries, Hfresh. simpl.
  rewrite (flat_map_ext _ appended) by (intros; apply entries_of_call_appended).
  by apply flat_map_appended_NoDup.
Qed.

Lemma C3_entries_witness :
  NoDup (map Entry.id
           (Session.entries (Session.addEntries SampleCalls.two_calls SampleCalls.fresh))).
Proof.
  apply (C3_entries_in_call_order_ids_distinct_by_clock
           SampleCalls.two_calls SampleCalls.fresh).
  - reflexivity.
  - vm_compute. apply NoDup_cons. split; [|apply NoDup_singleton].
    rewrite list_elem_of_singleton. discriminate.
Defined.

(** C3, counterexample: two keyframe entries added within one millisecond
    with the same random draw get the same id. *)
Lemma C3_same_millisecond_ids_collide :
  ~ NoDup (map Entry.id
             (Session.entries
                (Session.addEntries SampleCalls.same_millisecond SampleCalls.fresh))).
Proof.
  intros H. vm_compute in H. apply NoDup_cons in H as [H _]. apply H. left.
Qed.

(** C8. A payload with [R >= 1] text regions passed to [addEntry]: as
    ['screen_ocr'] it appends exactly [R] entries, one per region in
    region order, and all of them carry the same [image_id]; under any
    other type (the OCR loop hands its results over as ['subtitle']) it
    appends a single entry, which has no [image_id]. *)
Theorem C8_multi_region_payload_expands (type : string) (data : Payload.t)
    (regions : list Region.t) (h : Session.Host) (sm : Session.SessionManager) :
  Payload.text_regions data = Some regions ->
  (1 <= length regions)%nat ->
  exists new,
    Session.entries (fst (Session.addEntry type data h sm))
    = Session.entries sm ++ new
    /\ if bool_decide (type = "screen_ocr")
       then length new = length regions
            /\ Forall (fun e => Entry.image_id e
                                = Some (Js.or_str (Payload.image_id data)
                                          ("img_" +:+ Js.dec (Session.now h)))) new
            /\ map Entry.text new = map Region.text regions
       else length new = 1%nat
            /\ Forall (fun e => Entry.image_id e = None) new.
Proof.
  intros Hregions Hlen.
  unfold Session.addEntry, Session.regions_of. rewrite Hregions. simpl.
  destruct (Nat.ltb_spec 0 (length regions)); [|lia].
  case_bool_decide as Htype; simpl.
  - exists (region_entries (Session.now h) (Session.iso h)
              (Js.or_str (Payload.image_id data) ("img_" +:+ Js.dec (Session.now h)))
              data 0 regions).
    split; [|split; [apply region_entries_length|
             split; [apply region_entries_image|apply region_entries_text]]].
    rewrite autoSave_entries. apply forEach_region_entries.
  - exists [Session.standard_entry type data h].
    split; [by rewrite autoSave_entries|]. split; [done|].
    apply Forall_singleton. unfold Session.standard_entry. simpl.
    rewrite (bool_decide_eq_false_2 _ Htype). by rewrite andb_false_r.
Qed.

Lemma C8_multi_region_witness :
  exists new,
    Session.entries
      (fst (Session.addEntry "screen_ocr" SampleCalls.three_regions
              SampleCalls.host SampleCalls.fresh))
    = Session.entries SampleCalls.fresh ++ new
    /\ length new = 3%nat
    /\ Forall (fun e => Entry.image_id e = Some "img_1772359200000") new
    /\ map Entry.text new = [Some "BREAKING"; Some "Markets fall"; Some "Live"].
Proof.
  apply (C8_multi_region_payload_expands "screen_ocr" SampleCalls.three_regions _
           SampleCalls.host SampleCalls.fresh eq_refl).
  simpl. lia.
Defined.

(** C8, counterexample: the OCR result with three regions, handed to
    [addEntry] as a ['subtitle'] the way the OCR loop does, does not give
    three entries sharing an [image_id]. *)
Lemma C8_subtitle_payload_is_not_expanded :
  ~ exists new,
      Session.entries
        (fst (Session.addEntry "subtitle" SampleCalls.three_regions
                SampleCalls.host SampleCalls.fresh))
      = Session.entries SampleCalls.fresh ++ new
      /\ length new = 3%nat
      /\ exists image, Forall (fun e => Entry.image_id e = Some image) new.
Proof.
  intros (new & Heq & Hlen & _).
  apply (f_equal length) in Heq. rewrite length_app, Hlen in Heq.
  vm_compute in Heq. discriminate Heq.
Qed.

(** ** Finalizing a session *)

Section Finalize.
Import Session.


Lemma pollResults_busy (sid : string) (sm : SessionManager) :
  isPolling sm = true -> currentPollingSession sm = Some sid ->
  pollResults sid sm = (sm, []).
Proof.
  unfold pollResults. intros -> ->. by rewrite bool_decide_eq_true_2.
Qed.

End Finalize.




(** ** The pipeline controller *)

Section Controller.
Import Background.

(** Unfolds the service-worker code down to registry lookups. *)
Ltac bg_unfold :=
  unfold startPipeline, stopPipeline, sendToBackend, stt_answer,
    announce_started, autoSaveToBackend, result_of, registry_of, effects_of,
    bind, get, set, del, emit, ret; simpl.

(** Resolves the lookups that follow an insertion or a removal. *)
Ltac bg_lookup :=
  repeat (first [rewrite lookup_insert_eq | rewrite lookup_delete_eq]; simpl).

(** A start on a tab without pipeline state stops nothing. *)
Lemma startPipeline_fresh (t : positive) (opts : option RawOptions)
    (h : StartHost) (st : gmap N PipelineState) :
  st !! Npos t = None ->
  registry_of (startPipeline (Some (Npos t)) opts h st)
  = <[Npos t := new_state (Npos t) (default no_options opts) h]> st.
Proof.
  intros Hnone. bg_unfold. rewrite Hnone. simpl.
  destruct (raw_audioEnabled (default no_options opts)); simpl.
  - destruct (start_audio (Npos t) h); simpl; [|done]. by bg_lookup.
  - by bg_lookup.
Qed.

(** A start on a tab whose pipeline runs: the effects of the stop, the
    settling delay, then a start as on a tab without state. *)
Lemma startPipeline_running (t : positive) (opts : option RawOptions)
    (h : StartHost) (st : gmap N PipelineState) (first : PipelineState) :
  st !! Npos t = Some first ->
  let again := startPipeline (Some (Npos t)) opts h st in
  let fresh := startPipeline (Some (Npos t)) opts h (delete (Npos t) st) in
  effects_of again
  = [RuntimeSend (STOP_AUDIO (Some (Npos t)));
     FetchSaveSession (session_data first (stop_iso h)) (sessionId first) true;
     SafeSend (Some (Npos t)) PIPELINE_STOPPED;
     Delay 500] ++ effects_of fresh
  /\ registry_of again = registry_of fresh
  /\ result_of again = result_of fresh.
Proof.
  intros Hsome. bg_unfold. repeat (rewrite Hsome; simpl). bg_lookup.
  destruct (raw_audioEnabled (default no_options opts)); simpl.
  - destruct (start_audio (Npos t) h); simpl; [|done]. by bg_lookup.
  - by bg_lookup.
Qed.

(** A chunk with text for a live session is appended and saved. *)
Lemma sendToBackend_appends (audio : string) (t : positive) (h : SttHost)
    (st : gmap N PipelineState) (session : PipelineState) (code : Z)
    (data : Payload.t) :
  st !! Npos t = Some session ->
  stt h = Http.Response code (Some data) ->
  Http.ok code = true ->
  has_text data = true ->
  let r := sendToBackend audio (Some (Npos t)) h st in
  registry_of r = <[Npos t := push_entry (subtitle_entry data h) session]> st
  /\ effects_of r
     = [FetchSpeechToText audio;
        FetchSaveSession
          (session_data (push_entry (subtitle_entry data h) session) (stt_save_iso h))
          (sessionId session) false;
        SafeSend (Some (Npos t)) (AUDIO_SUBTITLE data)].
Proof.
  intros Hsome Hstt Hok Htext. bg_unfold.
  repeat (rewrite Hsome; simpl). rewrite Hstt, Hok. simpl. rewrite Htext.
  repeat (rewrite Hsome; simpl). by bg_lookup.
Qed.

End Controller.

(** Tab 42, audio capture enabled, nothing registered yet, and the host
    refuses the stream id: the error comes back and tab 42 counts as
    active. *)
Example refused_start_on_tab_42 :
  let r := Background.startPipeline (Some 42%N) (Some SampleTabs.options)
             (SampleTabs.refused 1772359210000) ∅ in
  Background.result_of r
  = Background.StartError "Extension has not been invoked for the current page"
  /\ Background.effects_of r = []
  /\ Background.ping_active 42 (Background.registry_of r) = true
  /\ Background.sessionId <$> (Background.registry_of r !! 42%N)
     = Some "session_1772359210000".
Proof. vm_compute. done. Qed.

(** C2. A start with audio capture whose stream id is refused: the call
    returns the structured error and issues no [START_AUDIO], no
    announcement and no initial save, but the state it stored for the tab
    stays in the registry, so the tab is reported as active. *)
Theorem C2_refused_stream_leaves_state_registered
    (t : positive) (st : gmap N Background.PipelineState) (message lang : option string)
    (translate ocr : bool) (active : option N) (now : N) (stop_iso iso save_iso : string) :
  let opts := {| Background.raw_targetLanguage := lang;
                 Background.raw_enableTranslation := translate;
                 Background.raw_audioEnabled := true;
                 Background.raw_ocrEnabled := ocr |} in
  let h := {| Background.active_tab := active; Background.stop_iso := stop_iso;
              Background.now := now; Background.iso := iso;
              Background.offscreen := Background.OffscreenReady;
              Background.stream := Background.StreamError message;
              Background.save_iso := save_iso |} in
  let r := Background.startPipeline (Some (Npos t)) (Some opts) h st in
  Background.result_of r = Background.StartError (Js.or_str message "offscreen_failed")
  /\ Forall (fun e => Background.start_effect e = false) (Background.effects_of r)
  /\ Background.registry_of r !! Npos t = Some (Background.new_state (Npos t) opts h)
  /\ Background.ping_active (Npos t) (Background.registry_of r) = true.
Proof.
  intros opts h r. subst r.
  assert (Background.registry_of (Background.startPipeline (Some (Npos t)) (Some opts) h st)
            !! Npos t = Some (Background.new_state (Npos t) opts h)
          /\ Background.result_of (Background.startPipeline (Some (Npos t)) (Some opts) h st)
             = Background.StartError (Js.or_str message "offscreen_failed")
          /\ Forall (fun e => Background.start_effect e = false)
               (Background.effects_of
                  (Background.startPipeline (Some (Npos t)) (Some opts) h st)))
    as (Hreg & Hres & Hfx).
  { destruct (st !! Npos t) as [first|] eqn:Hst.
    - destruct (startPipeline_running t (Some opts) h st first Hst) as (-> & -> & ->).
      rewrite startPipeline_fresh by apply lookup_delete_eq.
      split; [apply lookup_insert_eq|].
      unfold Background.startPipeline, Background.result_of, Background.effects_of,
        Background.bind, Background.get, Background.set, Background.ret. simpl.
      rewrite lookup_delete_eq. simpl. split; [done|].
      repeat (apply Forall_cons; split; [done|]). done.
    - rewrite startPipeline_fresh by done.
      split; [apply lookup_insert_eq|].
      unfold Background.startPipeline, Background.result_of, Background.effects_of,
        Background.bind, Background.get, Background.set, Background.ret. simpl.
      rewrite Hst. simpl. split; [done|]. done. }
  split; [done|]. split; [done|]. split; [done|].
  unfold Background.ping_active. apply bool_decide_eq_true_2. by rewrite Hreg.
Qed.

(** C6. A start on a tab whose pipeline is still registered first stops
    it: [STOP_AUDIO], the final save of the first session with the trigger
    flag set, [PIPELINE_STOPPED] and the settling delay come before
    anything the new start does; the new start then proceeds as on a tab
    without state, and afterwards the registry holds for the tab the one
    state of the new session, the registry being as large as before. *)
Theorem C6_second_start_finalizes_first
    (t : positive) (opts : option Background.RawOptions) (h : Background.StartHost)
    (st : gmap N Background.PipelineState) (first : Background.PipelineState) :
  st !! Npos t = Some first ->
  let again := Background.startPipeline (Some (Npos t)) opts h st in
  let fresh := Background.startPipeline (Some (Npos t)) opts h (delete (Npos t) st) in
  Background.effects_of again
  = [Background.RuntimeSend (Background.STOP_AUDIO (Some (Npos t)));
     Background.FetchSaveSession (Background.session_data first (Background.stop_iso h))
       (Background.sessionId first) true;
     Background.SafeSend (Some (Npos t)) Background.PIPELINE_STOPPED;
     Background.Delay 500] ++ Background.effects_of fresh
  /\ Background.result_of again = Background.result_of fresh
  /\ Background.registry_of again
     = <[Npos t := Background.new_state (Npos t) (default Background.no_options opts) h]>
         (delete (Npos t) st)
  /\ Background.registry_of again !! Npos t
     = Some (Background.new_state (Npos t) (default Background.no_options opts) h)
  /\ size (Background.registry_of again) = size st.
Proof.
  intros Hfirst again fresh.
  destruct (startPipeline_running t opts h st first Hfirst) as (Hfx & Hreg & Hres).
  fold again fresh in Hfx, Hreg, Hres.
  assert (Background.registry_of again
          = <[Npos t := Background.new_state (Npos t)
                          (default Background.no_options opts) h]>
              (delete (Npos t) st)) as Hnew.
  { rewrite Hreg. apply startPipeline_fresh, lookup_delete_eq. }
  split; [done|]. split; [done|]. split; [done|].
  rewrite Hnew. split; [apply lookup_insert_eq|].
  rewrite map_size_insert_None by apply lookup_delete_eq.
  rewrite map_size_delete_Some by eauto.
  assert (size st <> 0%nat) by (apply map_size_ne_0_lookup_2 with (Npos t); eauto).
  lia.
Qed.

Lemma C6_second_start_witness :
  Background.registry_of
    (Background.startPipeline (Some 42%N) (Some SampleTabs.options)
       (SampleTabs.granted 1772359220000) SampleTabs.running) !! 42%N
  = Some (Background.new_state 42 SampleTabs.options (SampleTabs.granted 1772359220000)).
Proof.
  apply (C6_second_start_finalizes_first 42 (Some SampleTabs.options)
           (SampleTabs.granted 1772359220000) SampleTabs.running
           (Background.new_state 42 SampleTabs.options (SampleTabs.granted 1772359210000))).
  unfold SampleTabs.running.
  rewrite (startPipeline_fresh 42 _ _ ∅) by apply lookup_empty.
  apply lookup_insert_eq.
Defined.

(** C10. A completed audio chunk handed to [sendToBackend] leaves the
    registry (hence every entry list) as it was and triggers no save when
    the tab is missing or has no pipeline state, when the request fails
    (rejected fetch, error status, unreadable body), or when the answer
    carries neither an original nor a translated text. *)
Theorem C10_chunk_without_session_or_text_changes_nothing
    (audio : string) (tab : option N) (h : Background.SttHost)
    (st : gmap N Background.PipelineState) :
  (Background.live_tab tab = None
   \/ (exists t, Background.live_tab tab = Some t /\ st !! t = None)
   \/ Background.stt h = Http.Throws
   \/ (exists code body,
         Background.stt h = Http.Response code body /\ Http.ok code = false)
   \/ (exists code, Background.stt h = Http.Response code None)
   \/ (exists code data,
         Background.stt h = Http.Response code (Some data)
         /\ Background.has_text data = false)) ->
  let r := Background.sendToBackend audio tab h st in
  Background.registry_of r = st
  /\ Forall (fun e => Background.is_save e = false) (Background.effects_of r).
Proof.
  intros H r. subst r.
unfold Background.sendToBackend, Background.stt_answer, Background.autoSaveToBackend,
  Background.registry_of, Background.effects_of, Background.bind, Background.get,
  Background.set, Background.emit, Background.ret; simpl.
  destruct (Background.live_tab tab) as [t|] eqn:Htab; simpl; [|by split].
  destruct (st !! t) as [session|] eqn:Hst; simpl; [|by split].
  assert (forall fx : list Background.Effect,
            fx = [Background.FetchSpeechToText audio] ->
            Forall (fun e => Background.is_save e = false) fx) as Hfx.
  { intros fx ->. by apply Forall_singleton. }
  destruct H as [?|[(t' & [= <-] & ?)|[Hs|[(code & body & Hs & Hok)|
                 [(code & Hs)|(code & data & Hs & Htxt)]]]]];
    try congruence; rewrite Hs; simpl.
  - split; [done|by apply Hfx].
  - rewrite Hok. simpl. split; [done|by apply Hfx].
  - destruct (Http.ok code); simpl; split; try done; by apply Hfx.
  - destruct (Http.ok code); simpl; [rewrite Htxt|]; simpl;
      split; try done; by apply Hfx.
Qed.

Lemma C10_chunk_witness :
  Background.registry_of
    (Background.sendToBackend "UklGRg==" (Some 42%N) SampleTabs.silence SampleTabs.running)
  = SampleTabs.running
  /\ Forall (fun e => Background.is_save e = false)
       (Background.effects_of
          (Background.sendToBackend "UklGRg==" (Some 42%N) SampleTabs.silence
             SampleTabs.running)).
Proof.
  apply (C10_chunk_without_session_or_text_changes_nothing "UklGRg==" (Some 42%N)
           SampleTabs.silence SampleTabs.running).
  do 5 right. exists 200%Z, Payload.empty. split; reflexivity.
Defined.

(** ** The keyframe sweep *)

Section Sweep.
Import Keyframes.

Lemma step_keeps (time : Z) (h : StepHost) (video : Video) (keyframes : list Keyframe) :
  paused (step time h video keyframes).1.1 = paused video
  /\ duration (step time h video keyframes).1.1 = duration video.
Proof.
  unfold step. destruct (frame h); [|done].
  destruct (saved h) as [|code [path|]]; try done. by destruct (Http.ok code).
Qed.

(** The loop comes to an end once the fuel covers what is left of the
    timeline, and it leaves the paused flag alone. *)
Lemma sweep_total (dur : Q) (host : Z -> StepHost) (fuel : nat) :
  forall (time : Z) (video : Video) (keyframes : list Keyframe),
    (Qceiling dur - time <= Z.of_nat fuel)%Z ->
    exists video' keyframes' requests,
      sweep fuel time dur host video keyframes = Some (video', keyframes', requests)
      /\ paused video' = paused video.
Proof.
  induction fuel as [|fuel IH]; intros time video keyframes Hfuel.
  - simpl. assert (Qle_bool dur (inject_Z time) = true) as ->.
    { apply Qle_bool_iff. apply Qle_trans with (inject_Z (Qceiling dur)).
      - apply Qle_ceiling.
      - rewrite <- Zle_Qle. lia. }
    by exists video, keyframes, [].
  - simpl. destruct (Qle_bool dur (inject_Z time)); [by exists video, keyframes, []|].
    destruct (step time (host time) video keyframes) as [[video1 keyframes1] fx1] eqn:Hstep.
    destruct (IH (time + interval)%Z video1 keyframes1) as (v' & k' & fx & Hsweep & Hp).
    { unfold interval. lia. }
    rewrite Hsweep. exists v', k', (fx1 ++ fx). split; [done|].
    rewrite Hp. pose proof (step_keeps time (host time) video keyframes) as [Hk _].
    by rewrite Hstep in Hk.
Qed.

End Sweep.

(** C9. The keyframe sweep always comes to an end, whatever happens in its
    steps (seek timeouts, failed captures, rejected or failing saves), and
    the media element then has the playback position and the paused flag
    it had before; when the video has no usable duration nothing is
    touched. *)
Theorem C9_sweep_restores_position_and_paused
    (video : Keyframes.Video) (host : Z -> Keyframes.StepHost)
    (hosts : nat -> Session.Host) (sm : Session.SessionManager) :
  exists outcome,
    Keyframes.handleExtractKeyframes (Some video) host hosts sm = Some outcome
    /\ match outcome with
       | Keyframes.NoVideo => False
       | Keyframes.NoDuration video' => video' = video
       | Keyframes.Extracted video' _ _ _ =>
           Keyframes.currentTime video' = Keyframes.currentTime video
           /\ Keyframes.paused video' = Keyframes.paused video
       end.
Proof.
  unfold Keyframes.handleExtractKeyframes.
  destruct (Keyframes.duration video) as [dur|]; [|by eexists].
  destruct (Qeq_bool dur 0); [by eexists|].
  destruct (sweep_total dur host (Keyframes.enough dur) 0
              (if negb (Keyframes.paused video) then Keyframes.pause video else video) [])
    as (video1 & keyframes & requests & -> & Hpaused).
  { unfold Keyframes.enough. lia. }
  eexists. split; [done|]. simpl.
  destruct (Keyframes.paused video) eqn:Hp; simpl in *; [|done]. by rewrite Hpaused.
Qed.

(** A sweep over a ten-second clip in which the step at 3 s captures
    nothing and the save at 6 s is rejected: the frames at 0 s and 9 s are
    kept and the clip is playing at 4.5 s again. *)
Example sweep_with_failed_steps :
  match Keyframes.handleExtractKeyframes (Some SampleVideo.clip) SampleVideo.flaky
          (fun _ => SampleCalls.host) SampleCalls.fresh with
  | Some (Keyframes.Extracted video keyframes sm _) =>
      video = SampleVideo.clip
      /\ map Keyframes.timestamp keyframes = [0; 9]%Z
      /\ length (Session.entries sm) = 2%nat
  | _ => False
  end.
Proof. vm_compute. done. Qed.

(** ** The audio chunk recorder *)

Section Recorder.
Import Offscreen.

(** Once the stopping flag is set, an event other than a new
    [START_AUDIO] keeps the flag and the target tab, and either sends
    nothing or sends the oldest blob that was already being encoded. *)
Lemma handle_stopping (c : Context) (e : Event) :
  isStopping (vars c) = true ->
  is_start e = false ->
  isStopping (vars (handle c e)) = true
  /\ targetTabId (vars (handle c e)) = targetTabId (vars c)
  /\ ((sent (handle c e) = sent c /\ encoding (handle c e) = encoding c)
      \/ exists blob rest,
           encoding c = blob :: rest
           /\ encoding (handle c e) = rest
           /\ sent (handle c e)
              = sent c ++ [chunk_message (targetTabId (vars c)) blob]).
Proof.
  intros Hstop Hstart. destruct e; try done; simpl.
  - unfold on_stream. destruct stream_ok; [|auto].
    destruct (Js.truthy_str mimeType); simpl; auto.
  - unfold on_stop_audio. simpl.
    destruct (is_recording _); simpl; auto.
  - destruct (is_recording c); simpl; auto.
  - destruct (_ && _); simpl; auto.
  - destruct (stop_events c) as [|data rest]; [auto|].
    unfold onstop. rewrite Hstop. simpl. auto.
  - destruct (encoding c) as [|blob rest] eqn:Henc; simpl.
    + rewrite Henc. auto.
    + split; [done|]. split; [done|]. right. by exists blob, rest.
Qed.

Lemma handle_all_stopping (es : list Event) (c : Context) :
  isStopping (vars c) = true ->
  forallb (fun e => negb (is_start e)) es = true ->
  isStopping (vars (handle_all c es)) = true
  /\ exists k,
       sent (handle_all c es)
       = sent c ++ map (chunk_message (targetTabId (vars c))) (take k (encoding c)).
Proof.
  revert c. induction es as [|e es IH]; intros c Hstop Hes; simpl.
  - split; [done|]. exists 0%nat. simpl. by rewrite app_nil_r.
  - apply andb_true_iff in Hes as [He Hes]. apply negb_true_iff in He.
    destruct (handle_stopping c e Hstop He) as (Hstop' & Htab & Hsent).
    destruct (IH (handle c e) Hstop' Hes) as (Hfinal & k & Hk).
    split; [done|]. rewrite Htab in Hk.
    destruct Hsent as [[Hs He']|(blob & rest & Henc & Hrest & Hs)].
    + exists k. unfold handle_all in *. by rewrite Hk, Hs, He'.
    + exists (S k). unfold handle_all in *.
      rewrite Hk, Hs, Hrest, Henc. simpl. by rewrite <- app_assoc.
Qed.

End Recorder.

(** The recorder does deliver chunks while it is not stopping. *)
Example recorder_sends_rotated_chunk :
  Offscreen.sent
    (Offscreen.handle_all SampleAudio.rotating
       [Offscreen.RecorderStopped; Offscreen.EncodingDone])
  = [Offscreen.chunk_message (Some 42%N) "first-chunk"].
Proof. reflexivity. Qed.

(** C4. A chunk whose generation was in flight when the stop was
    requested is transcribed and appended all the same.  The service
    worker has begun [stopPipeline] on a registered tab (stop message and
    final save sent, the save not yet answered) and the recorder holds a
    blob at the base64 step: the recorder sets the stopping flag on
    [STOP_AUDIO], then finishes the encoding and sends the chunk; the
    worker, whose state for the tab is deleted only after the final save,
    lets the chunk pass the guard of [sendToBackend] and requests its
    transcription; the answer is pushed as an entry of the session and
    saved without the trigger flag, after the final save that carried the
    trigger; only then is the state deleted. *)
Theorem C4_chunk_in_flight_at_stop_is_transcribed_and_appended
    (c : Offscreen.Context) (blob : string) (waiting : list string) (p : positive)
    (session : Background.PipelineState) (st : gmap N Background.PipelineState)
    (last_updated : string) (h : Background.SttHost) (code : Z) (data : Payload.t) :
  Offscreen.encoding c = blob :: waiting ->
  Offscreen.targetTabId (Offscreen.vars c) = Some (Npos p) ->
  st !! Npos p = Some session ->
  Background.stt h = Http.Response code (Some data) ->
  Http.ok code = true ->
  Background.has_text data = true ->
  let t := Npos p in
  let stop1 := WorkerSteps.stopPipeline_begin (Some t) last_updated st in
  let c1 := Offscreen.handle c Offscreen.StopAudioMsg in
  let c2 := Offscreen.handle c1 Offscreen.EncodingDone in
  let chunk := WorkerSteps.sendToBackend_begin blob (Some t) (Background.registry_of stop1) in
  let answer := WorkerSteps.stt_answer_begin t h (Background.registry_of chunk) in
  let stop2 := WorkerSteps.stopPipeline_end (Some t) (Background.result_of stop1)
                 (Background.registry_of answer) in
  let appended := Background.push_entry (Background.subtitle_entry data h) session in
  Background.effects_of stop1
  = [Background.RuntimeSend (Background.STOP_AUDIO (Some t));
     Background.FetchSaveSession (Background.session_data session last_updated)
       (Background.sessionId session) true]
  /\ Offscreen.isStopping (Offscreen.vars c1) = true
  /\ Offscreen.sent c2 = Offscreen.sent c ++ [Offscreen.chunk_message (Some t) blob]
  /\ Background.effects_of chunk = [Background.FetchSpeechToText blob]
  /\ Background.registry_of answer !! t = Some appended
  /\ Background.effects_of answer
     = [Background.FetchSaveSession
          (Background.session_data appended (Background.stt_save_iso h))
          (Background.sessionId session) false]
  /\ Background.result_of stop2
     = {| Background.stopped := true;
          Background.stop_sessionId := Some (Background.sessionId session) |}
  /\ Background.registry_of stop2 !! t = None.
Proof.
  intros Henc Htab Hsome Hstt Hok Htext t stop1 c1 c2 chunk answer stop2 appended.
  subst t.
  assert (stop1 = (Some (Background.sessionId session), st,
                   [Background.RuntimeSend (Background.STOP_AUDIO (Some (Npos p)));
                    Background.FetchSaveSession
                      (Background.session_data session last_updated)
                      (Background.sessionId session) true])) as Hstop1.
  { subst stop1.
    unfold WorkerSteps.stopPipeline_begin, Background.autoSaveToBackend, Background.bind,
      Background.get, Background.emit, Background.ret. simpl.
    repeat (rewrite Hsome; simpl). done. }
  assert (chunk = (Some (Npos p), st, [Background.FetchSpeechToText blob])) as Hchunk.
  { subst chunk. rewrite Hstop1.
    unfold WorkerSteps.sendToBackend_begin, Background.registry_of, Background.bind,
      Background.get, Background.emit, Background.ret. simpl.
    by rewrite Hsome. }
  assert (answer = (Some data, <[Npos p := appended]> st,
                    [Background.FetchSaveSession
                       (Background.session_data appended (Background.stt_save_iso h))
                       (Background.sessionId session) false])) as Hanswer.
  { subst answer. rewrite Hchunk.
    unfold WorkerSteps.stt_answer_begin, Background.registry_of. simpl.
    rewrite Hstt, Hok. simpl. rewrite Htext.
    unfold Background.autoSaveToBackend, Background.bind, Background.get, Background.set,
      Background.emit, Background.ret. simpl.
    rewrite Hsome. simpl. rewrite lookup_insert_eq. done. }
  split; [by rewrite Hstop1|].
  split.
  { subst c1. simpl. unfold Offscreen.on_stop_audio. simpl.
    by destruct (Offscreen.is_recording _). }
  split.
  { subst c2 c1. simpl. unfold Offscreen.on_stop_audio. simpl.
    destruct (Offscreen.is_recording _); simpl; rewrite Henc; simpl; by rewrite Htab. }
  split; [by rewrite Hchunk|].
  split; [rewrite Hanswer; apply lookup_insert_eq|].
  split; [by rewrite Hanswer|].
  subst stop2. rewrite Hstop1, Hanswer.
  unfold WorkerSteps.stopPipeline_end, Background.result_of, Background.registry_of,
    Background.bind, Background.del, Background.emit, Background.ret. simpl.
  split; [done|apply lookup_delete_eq].
Qed.

Lemma C4_chunk_in_flight_witness :
  Offscreen.sent
    (Offscreen.handle (Offscreen.handle SampleRace.encoding_first Offscreen.StopAudioMsg)
       Offscreen.EncodingDone)
  = Offscreen.sent SampleRace.encoding_first
    ++ [Offscreen.chunk_message (Some 42%N) "first-chunk"]
  /\ is_Some
       (Background.registry_of
          (WorkerSteps.stt_answer_begin 42 SampleRace.spoken
             (Background.registry_of
                (WorkerSteps.sendToBackend_begin "first-chunk" (Some 42%N)
                   (Background.registry_of
                      (WorkerSteps.stopPipeline_begin (Some 42%N)
                         "2026-03-01T10:00:20.000Z" SampleTabs.running)))))
          !! 42%N).
Proof.
  destruct (C4_chunk_in_flight_at_stop_is_transcribed_and_appended
              SampleRace.encoding_first "first-chunk" [] 42%positive
              (Background.new_state 42 (default Background.no_options (Some SampleTabs.options))
                 (SampleTabs.granted 1772359210000))
              SampleTabs.running "2026-03-01T10:00:20.000Z" SampleRace.spoken 200
              _ eq_refl eq_refl eq_refl eq_refl eq_refl eq_refl)
    as (_ & _ & Hsent & _ & Hentry & _).
  split; [exact Hsent|]. eexists. exact Hentry.
Defined.

(* ===================================================================== *)
(** * Further properties                                                  *)
(* ===================================================================== *)

(** ** Pollers, beyond consecutive not-ready answers *)

Section PollerCounting.
Import Poller.

Lemma ok_not_404 (code : Z) : Http.ok code = true -> (code =? 404)%Z = false.
Proof. unfold Http.ok. lia. Qed.

(** What one answer does to a polling state, by kind of answer. *)
Lemma poll_cases (m : N) (res : Http.Fetch Http.Result) (st : PollState) :
  (is_final res = true /\ is_miss res = false
   /\ still_polling (poll m res st) = false /\ timed_out (poll m res st) = false)
  \/ (is_final res = false /\ is_miss res = false
      /\ status (poll m res st) = Scheduled 1500
      /\ attempts (poll m res st) = attempts st)
  \/ (is_final res = false /\ is_miss res = true
      /\ attempts (poll m res st) = (attempts st + 1)%N
      /\ still_polling (poll m res st) = negb (m <? attempts st)%N).
Proof.
  unfold is_miss, is_final, is_mid_stage, poll, poll_catch, still_polling.
  destruct res as [|code [result|]]; simpl.
  - right. right. by destruct (m <? attempts st)%N.
  - destruct (Http.ok code) eqn:Hok; simpl.
    + rewrite (ok_not_404 code Hok). simpl.
      destruct (Http.stage result =? 5)%Z; simpl; [by left|right; by left].
    + right. right. destruct (code =? 404)%Z; by destruct (m <? attempts st)%N.
  - right. right.
    destruct (code =? 404)%Z; [by destruct (m <? attempts st)%N|].
    destruct (Http.ok code); simpl; by destruct (m <? attempts st)%N.
Qed.

Lemma count_misses_cons (res : Http.Fetch Http.Result) (answers : list (Http.Fetch Http.Result)) :
  count_misses (res :: answers)
  = ((if is_miss res then 1 else 0) + count_misses answers)%N.
Proof.
  unfold count_misses. rewrite filter_cons.
  destruct (is_miss res); case_decide; try done; simpl length; lia.
Qed.

Lemma run_counting (m : N) (answers : list (Http.Fetch Http.Result)) (st : PollState) :
  still_polling st = true ->
  (attempts st <= m + 1)%N ->
  (still_polling (run m answers st) = true
   <-> (forallb (fun res => negb (is_final res)) answers = true
        /\ (attempts st + count_misses answers <= m + 1)%N))
  /\ (still_polling (run m answers st) = true ->
      attempts (run m answers st) = (attempts st + count_misses answers)%N).
Proof.
  revert st. induction answers as [|res answers IH]; intros st Hpoll Hle.
  - unfold count_misses. simpl. split; [split; [intros _; split; [done|lia]|done]|].
    intros _. lia.
  - rewrite count_misses_cons.
    assert (run m (res :: answers) st = run m answers (poll m res st)) as ->.
    { simpl. unfold still_polling in Hpoll. by destruct (status st). }
    cbn [forallb].
    destruct (poll_cases m res st)
      as [(-> & -> & Hstop & _)|[(-> & -> & Hst & Hatt)|(-> & -> & Hatt & Hst)]]; simpl.
    + rewrite run_terminal by done. rewrite Hstop. split; [split|]; [done| |done].
      by intros [? _].
    + assert (still_polling (poll m res st) = true) as Hp
        by (unfold still_polling; by rewrite Hst).
      destruct (IH (poll m res st) Hp) as [IH1 IH2]; [lia|].
      rewrite Hatt in IH1, IH2. done.
    + destruct (N.ltb_spec m (attempts st)); simpl in Hst.
      * rewrite run_terminal by done. rewrite Hst. split; [split|]; [done| |done].
        intros [_ ?]. lia.
      * destruct (IH (poll m res st) Hst) as [IH1 IH2]; [lia|].
        rewrite Hatt in IH1, IH2. split.
        -- rewrite IH1. split; intros [? ?]; (split; [done|lia]).
        -- intros Hp. rewrite (IH2 Hp). lia.
Qed.

End PollerCounting.

(** X1. [startPolling] keeps polling exactly as long as no answer reported
    the terminal stage and at most [maxAttempts + 1] answers were not ready
    or failed (404, error status, unreadable body, rejected fetch), however
    these are interleaved with answers reporting an earlier stage; while it
    polls, [attempts] is the number of such answers. *)
Theorem X1_startPolling_counts_misses_only
    (maxAttempts : N) (answers : list (Http.Fetch Http.Result)) :
  let st := Poller.run maxAttempts answers Poller.startPolling in
  (Poller.still_polling st = true
   <-> (forallb (fun res => negb (is_final res)) answers = true
        /\ (count_misses answers <= maxAttempts + 1)%N))
  /\ (Poller.still_polling st = true -> Poller.attempts st = count_misses answers).
Proof.
  intros st. subst st.
  destruct (run_counting maxAttempts answers Poller.startPolling eq_refl) as [H1 H2].
  { simpl. lia. }
  simpl in H1, H2. done.
Qed.

(** X2. Answers that report a stage before the terminal one never run into
    the attempt ceiling: after any number of them the poller is still
    polling, at the shorter delay of 1500 ms, with [attempts] untouched. *)
Theorem X2_mid_stage_answers_never_time_out
    (maxAttempts : N) (answers : list (Http.Fetch Http.Result)) (st : Poller.PollState) :
  Poller.still_polling st = true ->
  answers <> [] ->
  forallb is_mid_stage answers = true ->
  Poller.status (Poller.run maxAttempts answers st) = Poller.Scheduled 1500
  /\ Poller.attempts (Poller.run maxAttempts answers st) = Poller.attempts st.
Proof.
  revert st. induction answers as [|res answers IH]; intros st Hpoll Hne Hmid; [done|].
  simpl in Hmid. apply andb_true_iff in Hmid as [Hres Hmid].
  assert (Poller.run maxAttempts (res :: answers) st
          = Poller.run maxAttempts answers (Poller.poll maxAttempts res st)) as ->.
  { simpl. unfold Poller.still_polling in Hpoll. by destruct (Poller.status st). }
  destruct (poll_cases maxAttempts res st)
    as [(Hf & _)|[(_ & _ & Hst & Hatt)|(_ & Hm & _)]].
  - unfold is_final, is_mid_stage in *. destruct res as [|code [r|]]; try done.
    destruct (Http.ok code); simpl in *; [|done]. by destruct (Http.stage r =? 5)%Z.
  - destruct answers as [|res' answers]; [done|].
    destruct (IH (Poller.poll maxAttempts res st)) as [? ?]; [|done|done|].
    + unfold Poller.still_polling. by rewrite Hst.
    + split; [done|congruence].
  - unfold is_miss in Hm. rewrite Hres in Hm. by rewrite andb_false_r in Hm.
Qed.

Lemma X2_mid_stage_witness :
  Poller.status
    (Poller.run Poller.results_maxAttempts
       (repeat (Http.Response 200 (Some {| Http.stage := 3; Http.claims := [];
                                           Http.total_claims := 0 |})) 40)
       Poller.startPolling) = Poller.Scheduled 1500
  /\ Poller.attempts
       (Poller.run Poller.results_maxAttempts
          (repeat (Http.Response 200 (Some {| Http.stage := 3; Http.claims := [];
                                              Http.total_claims := 0 |})) 40)
          Poller.startPolling) = 0%N.
Proof.
  apply (X2_mid_stage_answers_never_time_out Poller.results_maxAttempts
           (repeat (Http.Response 200 (Some {| Http.stage := 3; Http.claims := [];
                                               Http.total_claims := 0 |})) 40)
           Poller.startPolling); [reflexivity|discriminate|reflexivity].
Defined.

Section ResultTimer.
Import Session.

Lemma pollTick_cleared (resp : Http.Fetch Http.Result) (sm : SessionManager) (t : PollTimer) :
  poll_cleared t = true -> pollTick resp true sm t = (sm, t, []).
Proof. unfold pollTick. by intros ->. Qed.

Lemma poll_trace_cleared (answers : list (Http.Fetch Http.Result))
    (sm : SessionManager) (t : PollTimer) :
  poll_cleared t = true -> poll_trace answers sm t = [].
Proof.
  intros Hc. induction answers as [|resp answers IH]; simpl; [done|].
  by rewrite pollTick_cleared.
Qed.

Lemma pollTicks_cleared (answers : list (Http.Fetch Http.Result))
    (sm : SessionManager) (t : PollTimer) :
  poll_cleared t = true -> pollTicks answers sm t = (sm, t).
Proof.
  intros Hc. induction answers as [|resp answers IH]; simpl; [done|].
  by rewrite pollTick_cleared.
Qed.

(** A tick of a live timer whose session is still current, on an answer
    that is not the terminal one: one request, then the ceiling test. *)
Lemma pollTick_not_final (resp : Http.Fetch Http.Result) (sm : SessionManager)
    (t : PollTimer) :
  poll_cleared t = false ->
  sessionId sm = poll_session t ->
  is_final resp = false ->
  pollTick resp true sm t
  = (let '(sm', t', fx) := tick_ceiling sm (bump t) in
     (sm', t', FetchResults (poll_session t) :: fx)).
Proof.
  intros Hlive Hsid Hnf. unfold pollTick. rewrite Hlive. simpl.
  rewrite bool_decide_eq_true_2 by done. simpl.
  unfold is_final in Hnf.
  destruct resp as [|code [result|]]; simpl; try done.
  - destruct (Http.ok code); simpl in *; [|done]. by rewrite Hnf.
  - by destruct (Http.ok code).
Qed.

(** A tick of a live timer on the terminal answer: the result is shown and
    the timer is cleared. *)
Lemma pollTick_final (resp : Http.Fetch Http.Result) (sm : SessionManager)
    (t : PollTimer) :
  poll_cleared t = false ->
  sessionId sm = poll_session t ->
  is_final resp = true ->
  exists sm' t' result tail,
    pollTick resp true sm t
    = (sm', t', FetchResults (poll_session t) :: ClearInterval (poll_session t)
                :: ShowPipelineResult result :: tail)
    /\ poll_cleared t' = true
    /\ isPolling sm' = false
    /\ Forall (fun e => is_show e = false /\ is_fetch_results e = false) tail.
Proof.
  intros Hlive Hsid Hf. unfold pollTick. rewrite Hlive. simpl.
  rewrite bool_decide_eq_true_2 by done. simpl.
  unfold is_final in Hf. destruct resp as [|code [result|]]; try done.
  apply andb_true_iff in Hf as [-> ->]. unfold tick_ceiling. simpl.
  destruct (_ <=? _)%N; simpl; repeat eexists; simpl; repeat constructor.
Qed.

(** Ticks whose answers arrive in turn, none of them terminal: every
    tick counts, and the timer is cleared exactly at the ceiling. *)
Lemma pollTicks_ceiling
    (answers : list (Http.Fetch Http.Result)) (sm : Session.SessionManager)
    (t : Session.PollTimer) :
  Session.poll_cleared t = false ->
  Session.sessionId sm = Session.poll_session t ->
  (Session.poll_attempts t < Session.pollResults_maxAttempts)%N ->
  forallb (fun res => negb (is_final res)) answers = true ->
  let r := Session.pollTicks answers sm t in
  Session.poll_cleared (snd r)
  = bool_decide (Session.pollResults_maxAttempts
                 <= Session.poll_attempts t + N.of_nat (length answers))%N
  /\ (Session.poll_cleared (snd r) = true -> Session.isPolling (fst r) = false)
  /\ Session.sessionId (fst r) = Session.sessionId sm
  /\ Session.entries (fst r) = Session.entries sm.
Proof.
  revert sm t. induction answers as [|resp answers IH]; intros sm t Hlive Hsid Hlt Hnf.
  - simpl. rewrite Hlive. split; [|done]. symmetry. apply bool_decide_eq_false_2. lia.
  - simpl in Hnf. apply andb_true_iff in Hnf as [Hresp Hnf].
    apply negb_true_iff in Hresp.
    cbn [Session.pollTicks]. rewrite (pollTick_not_final resp sm t Hlive Hsid Hresp).
    unfold Session.tick_ceiling. cbn [Session.bump Session.poll_attempts].
    destruct (N.leb_spec Session.pollResults_maxAttempts (Session.poll_attempts t + 1))
      as [Hge|Hless].
    + rewrite pollTicks_cleared by done. simpl.
      split; [|done]. symmetry. apply bool_decide_eq_true_2. simpl length. lia.
    + destruct (IH sm (Session.bump t)) as (H1 & H2 & H3 & H4); try done.
      simpl length. cbn [Session.bump Session.poll_attempts] in H1.
      split; [|done]. rewrite H1. apply bool_decide_ext. lia.
Qed.

(** Ticks whose answers arrive in turn: requests and results shown. *)
Lemma poll_trace_bounded
    (answers : list (Http.Fetch Http.Result)) (sm : Session.SessionManager)
    (t : Session.PollTimer) :
  Session.poll_cleared t = false ->
  (Session.poll_attempts t < Session.pollResults_maxAttempts)%N ->
  (N.of_nat (length (filter (fun e => is_fetch_results e = true) (poll_trace answers sm t)))
   + Session.poll_attempts t <= Session.pollResults_maxAttempts)%N
  /\ (length (filter (fun e => is_show e = true) (poll_trace answers sm t)) <= 1)%nat.
Proof.
  revert sm t. induction answers as [|resp answers IH]; intros sm t Hlive Hlt.
  - simpl. split; lia.
  - cbn [poll_trace].
    destruct (decide (Session.sessionId sm = Session.poll_session t)) as [Hsid|Hsid].
    + destruct (is_final resp) eqn:Hf.
      * destruct (pollTick_final resp sm t Hlive Hsid Hf)
          as (sm' & t' & result & tail & -> & Hc & _ & Htail).
        rewrite poll_trace_cleared by done. rewrite app_nil_r.
        assert (filter (fun e => is_fetch_results e = true) tail = []
                /\ filter (fun e => is_show e = true) tail = []) as [Hfetch Hshow].
        { clear -Htail. induction tail as [|e tail IHt]; [done|].
          apply Forall_cons in Htail as [[Hs Hq] Htail].
          destruct (IHt Htail) as [? ?].
          rewrite !filter_cons. repeat case_decide; try congruence. done. }
        rewrite !filter_cons. repeat case_decide; try done.
        rewrite Hfetch, Hshow. simpl. split; lia.
      * rewrite (pollTick_not_final resp sm t Hlive Hsid Hf).
        unfold Session.tick_ceiling. cbn [Session.bump Session.poll_attempts].
        destruct (N.leb_spec Session.pollResults_maxAttempts (Session.poll_attempts t + 1)).
        -- rewrite poll_trace_cleared by done. simpl. split; lia.
        -- destruct (IH sm (Session.bump t)) as [H1 H2]; [done|simpl; lia|].
           cbn [Session.bump Session.poll_attempts] in H1.
           cbn [app]. rewrite !filter_cons. repeat case_decide; try done.
           simpl length. split; lia.
    + unfold Session.pollTick. rewrite Hlive. simpl.
      rewrite bool_decide_eq_false_2 by done. simpl.
      rewrite poll_trace_cleared by done.
      rewrite !filter_cons. repeat case_decide; try done. simpl. split; lia.
Qed.

(** A callback whose answer arrives before the interval fires again is
    one tick. *)
Lemma tick_in_turn (resp : Http.Fetch Http.Result) (sm : SessionManager) (t : PollTimer) :
  SessionSteps.poll_run
    [SessionSteps.IntervalFires; SessionSteps.ResultsAnswer resp]
    (SessionSteps.started sm t)
  = (let '(sm', t', fx) := pollTick resp true sm t in (SessionSteps.started sm' t', fx)).
Proof.
  unfold SessionSteps.poll_run, SessionSteps.poll_step, SessionSteps.interval_fires,
    SessionSteps.results_answer, SessionSteps.started, pollTick. simpl.
  destruct (poll_cleared t); simpl; [done|].
  destruct (bool_decide _); simpl; [|done].
  destruct resp as [|code [result|]]; simpl.
  - destruct (tick_ceiling sm (bump t)) as [[sm' t'] fx]. simpl. by rewrite app_nil_r.
  - destruct (Http.ok code); simpl.
    + destruct (Http.stage result =? 5)%Z; simpl.
      * destruct (tick_ceiling (stop_polling sm) (clear (bump t))) as [[sm' t'] fx].
        simpl. by rewrite app_nil_r.
      * destruct (tick_ceiling sm (bump t)) as [[sm' t'] fx]. simpl. by rewrite app_nil_r.
    + destruct (tick_ceiling sm (bump t)) as [[sm' t'] fx]. simpl. by rewrite app_nil_r.
  - destruct (Http.ok code); simpl;
      destruct (tick_ceiling sm (bump t)) as [[sm' t'] fx]; simpl; by rewrite app_nil_r.
Qed.

Lemma poll_run_app (es1 es2 : list SessionSteps.PollEvent) (p : SessionSteps.Poll) :
  SessionSteps.poll_run (es1 ++ es2) p
  = (let '(p1, fx1) := SessionSteps.poll_run es1 p in
     let '(p2, fx2) := SessionSteps.poll_run es2 p1 in
     (p2, fx1 ++ fx2)).
Proof.
  revert p. induction es1 as [|e es1 IH]; intros p; simpl.
  - by destruct (SessionSteps.poll_run es2 p).
  - destruct (SessionSteps.poll_step p e) as [p1 fx1]. rewrite IH.
    destruct (SessionSteps.poll_run es1 p1) as [p2 fx2].
    destruct (SessionSteps.poll_run es2 p2) as [p3 fx3]. by rewrite app_assoc.
Qed.

(** The schedule in which answers arrive in turn is the sequence of ticks. *)
Lemma poll_run_in_turn (answers : list (Http.Fetch Http.Result))
    (sm : SessionManager) (t : PollTimer) :
  SessionSteps.poll_run (SessionSteps.in_turn answers) (SessionSteps.started sm t)
  = (SessionSteps.started (fst (pollTicks answers sm t)) (snd (pollTicks answers sm t)),
     poll_trace answers sm t).
Proof.
  revert sm t. induction answers as [|resp answers IH]; intros sm t; [done|].
  change (SessionSteps.in_turn (resp :: answers))
    with ([SessionSteps.IntervalFires; SessionSteps.ResultsAnswer resp]
            ++ SessionSteps.in_turn answers).
  rewrite poll_run_app, tick_in_turn. cbn [pollTicks poll_trace].
  destruct (pollTick resp true sm t) as [[sm' t'] fx]. by rewrite IH.
Qed.

(** Callbacks that all wait for their answer: each one has issued its
    request, and nothing has cleared the interval. *)
Lemma poll_run_unanswered (n : nat) (p : SessionSteps.Poll) :
  poll_cleared (SessionSteps.timer p) = false ->
  sessionId (SessionSteps.manager p) = poll_session (SessionSteps.timer p) ->
  let r := SessionSteps.poll_run (repeat SessionSteps.IntervalFires n) p in
  snd r = repeat (FetchResults (poll_session (SessionSteps.timer p))) n
  /\ poll_cleared (SessionSteps.timer (fst r)) = false
  /\ SessionSteps.in_flight (fst r) = (SessionSteps.in_flight p + n)%nat
  /\ poll_attempts (SessionSteps.timer (fst r))
     = (poll_attempts (SessionSteps.timer p) + N.of_nat n)%N.
Proof.
  revert p. induction n as [|n IH]; intros p Hlive Hsid; simpl.
  - repeat split; try done; lia.
  - unfold SessionSteps.interval_fires. rewrite Hlive. simpl.
    rewrite bool_decide_eq_true_2 by done. simpl.
    destruct (IH {| SessionSteps.manager := SessionSteps.manager p;
                    SessionSteps.timer := bump (SessionSteps.timer p);
                    SessionSteps.in_flight := S (SessionSteps.in_flight p) |})
      as (Hfx & Hc & Hn & Ha); [done|done|].
    destruct (SessionSteps.poll_run _ _) as [p' fx]. simpl in *.
    rewrite Hfx, Hc, Hn, Ha. repeat split; try done; lia.
Qed.

(** The answer with the terminal stage, for a callback that waits:
    whatever else is going on, the result is shown. *)
Lemma results_answer_final (code : Z) (result : Http.Result) (p : SessionSteps.Poll)
    (waiting : nat) :
  SessionSteps.in_flight p = S waiting ->
  Http.ok code = true ->
  Http.stage result = 5%Z ->
  exists p' tail,
    SessionSteps.results_answer (Http.Response code (Some result)) true p
    = (p', ClearInterval (poll_session (SessionSteps.timer p))
           :: ShowPipelineResult result :: tail)
    /\ SessionSteps.in_flight p' = waiting
    /\ Forall (fun e => is_show e = false) tail.
Proof.
  intros Hn Hok Hst. unfold SessionSteps.results_answer. rewrite Hn, Hok, Hst. simpl.
  unfold tick_ceiling. destruct (_ <=? _)%N; simpl; repeat eexists; repeat constructor.
Qed.

Lemma filter_no_show (l : list Effect) :
  Forall (fun e => is_show e = false) l -> filter (fun e => is_show e = true) l = [].
Proof.
  induction 1 as [|e l He _ IH]; [done|].
  rewrite filter_cons. case_decide; [congruence|done].
Qed.

End ResultTimer.

(** X3. The interval of [SessionManager.pollResults], when every answer
    arrives before the interval fires again: while the session stays
    current and no answer reports the terminal stage, every callback
    counts, whatever its answer (not ready, error status, unreadable body,
    rejected fetch, earlier stage); the interval is cleared exactly when
    the count reaches 30, [isPolling] is dropped with it, and the session
    is left alone. *)
Theorem X3_pollResults_gives_up_at_thirty_ticks
    (answers : list (Http.Fetch Http.Result)) (sm : Session.SessionManager)
    (t : Session.PollTimer) :
  Session.poll_cleared t = false ->
  Session.sessionId sm = Session.poll_session t ->
  (Session.poll_attempts t < Session.pollResults_maxAttempts)%N ->
  forallb (fun res => negb (is_final res)) answers = true ->
  let r := SessionSteps.poll_run (SessionSteps.in_turn answers)
             (SessionSteps.started sm t) in
  Session.poll_cleared (SessionSteps.timer (fst r))
  = bool_decide (Session.pollResults_maxAttempts
                 <= Session.poll_attempts t + N.of_nat (length answers))%N
  /\ (Session.poll_cleared (SessionSteps.timer (fst r)) = true ->
      Session.isPolling (SessionSteps.manager (fst r)) = false)
  /\ Session.sessionId (SessionSteps.manager (fst r)) = Session.sessionId sm
  /\ Session.entries (SessionSteps.manager (fst r)) = Session.entries sm
  /\ SessionSteps.in_flight (fst r) = 0%nat.
Proof.
  intros Hlive Hsid Hlt Hnf r. subst r. rewrite poll_run_in_turn.
  destruct (pollTicks_ceiling answers sm t Hlive Hsid Hlt Hnf) as (H1 & H2 & H3 & H4).
  cbn [fst SessionSteps.started SessionSteps.timer SessionSteps.manager
         SessionSteps.in_flight].
  split; [exact H1|]. split; [exact H2|]. split; [exact H3|]. split; [exact H4|done].
Qed.

Lemma X3_pollResults_witness :
  Session.poll_cleared
    (SessionSteps.timer
       (fst (SessionSteps.poll_run (SessionSteps.in_turn (repeat Http.Throws 29))
               (SessionSteps.started SampleCalls.fresh
                  (Session.new_timer (Session.sessionId SampleCalls.fresh)))))) = false
  /\ Session.poll_cleared
       (SessionSteps.timer
          (fst (SessionSteps.poll_run
                  (SessionSteps.in_turn (repeat (Http.Response 500 None) 30))
                  (SessionSteps.started SampleCalls.fresh
                     (Session.new_timer (Session.sessionId SampleCalls.fresh))))))
     = true.
Proof.
  split.
  - destruct (X3_pollResults_gives_up_at_thirty_ticks (repeat Http.Throws 29)
                SampleCalls.fresh (Session.new_timer (Session.sessionId SampleCalls.fresh))
                eq_refl eq_refl eq_refl eq_refl) as [H _].
    rewrite H. reflexivity.
  - destruct (X3_pollResults_gives_up_at_thirty_ticks (repeat (Http.Response 500 None) 30)
                SampleCalls.fresh (Session.new_timer (Session.sessionId SampleCalls.fresh))
                eq_refl eq_refl eq_refl eq_refl) as [H _].
    rewrite H. reflexivity.
Defined.

(** X4. One [pollResults] interval, when every answer arrives before the
    interval fires again: over any answers, and whether or not the session
    is still current, it asks the results endpoint at most 30 times in all
    and hands a result to the overlay at most once. *)
Theorem X4_pollResults_bounded_requests_one_result
    (answers : list (Http.Fetch Http.Result)) (sm : Session.SessionManager)
    (t : Session.PollTimer) :
  Session.poll_cleared t = false ->
  (Session.poll_attempts t < Session.pollResults_maxAttempts)%N ->
  let trace := snd (SessionSteps.poll_run (SessionSteps.in_turn answers)
                      (SessionSteps.started sm t)) in
  (N.of_nat (length (filter (fun e => is_fetch_results e = true) trace))
   + Session.poll_attempts t <= Session.pollResults_maxAttempts)%N
  /\ (length (filter (fun e => is_show e = true) trace) <= 1)%nat.
Proof.
  intros Hlive Hlt trace. subst trace. rewrite poll_run_in_turn.
  destruct (poll_trace_bounded answers sm t Hlive Hlt) as [Hrequests Hshown].
  cbn [snd]. split; [exact Hrequests|exact Hshown].
Qed.

Lemma X4_pollResults_witness :
  (length (filter (fun e => is_show e = true)
             (snd (SessionSteps.poll_run
                     (SessionSteps.in_turn
                        (repeat (Http.Response 200
                                   (Some {| Http.stage := 5; Http.claims := [];
                                            Http.total_claims := 0 |})) 3))
                     (SessionSteps.started SampleCalls.fresh
                        (Session.new_timer (Session.sessionId SampleCalls.fresh))))))
   <= 1)%nat.
Proof.
  apply (X4_pollResults_bounded_requests_one_result
           (repeat (Http.Response 200 (Some {| Http.stage := 5; Http.claims := [];
                                               Http.total_claims := 0 |})) 3)
           SampleCalls.fresh (Session.new_timer (Session.sessionId SampleCalls.fresh)));
    reflexivity.
Defined.

(** X24. The callbacks of the [pollResults] interval are not guarded
    against each other.  While answers are late, each firing of the
    interval issues one more request, beyond 30 as well, and nothing
    clears the interval; and when two callbacks wait and both get the
    terminal stage, the result is handed to the overlay twice. *)
Theorem X24_late_answers_overlap
    (n : nat) (sm : Session.SessionManager) (t : Session.PollTimer)
    (code1 code2 : Z) (result1 result2 : Http.Result) :
  Session.poll_cleared t = false ->
  Session.sessionId sm = Session.poll_session t ->
  Http.ok code1 = true -> Http.stage result1 = 5%Z ->
  Http.ok code2 = true -> Http.stage result2 = 5%Z ->
  let late := SessionSteps.poll_run (repeat SessionSteps.IntervalFires n)
                (SessionSteps.started sm t) in
  let twice := SessionSteps.poll_run
                 [SessionSteps.IntervalFires; SessionSteps.IntervalFires;
                  SessionSteps.ResultsAnswer (Http.Response code1 (Some result1));
                  SessionSteps.ResultsAnswer (Http.Response code2 (Some result2))]
                 (SessionSteps.started sm t) in
  snd late = repeat (Session.FetchResults (Session.poll_session t)) n
  /\ Session.poll_cleared (SessionSteps.timer (fst late)) = false
  /\ SessionSteps.in_flight (fst late) = n
  /\ filter (fun e => is_show e = true) (snd twice)
     = [Session.ShowPipelineResult result1; Session.ShowPipelineResult result2].
Proof.
  intros Hlive Hsid Hok1 Hst1 Hok2 Hst2 late twice.
  destruct (poll_run_unanswered n (SessionSteps.started sm t) Hlive Hsid)
    as (Hfx & Hc & Hn & _).
  split; [exact Hfx|]. split; [exact Hc|]. split; [exact Hn|].
  subst twice.
  change [SessionSteps.IntervalFires; SessionSteps.IntervalFires;
          SessionSteps.ResultsAnswer (Http.Response code1 (Some result1));
          SessionSteps.ResultsAnswer (Http.Response code2 (Some result2))]
    with (repeat SessionSteps.IntervalFires 2
          ++ [SessionSteps.ResultsAnswer (Http.Response code1 (Some result1));
              SessionSteps.ResultsAnswer (Http.Response code2 (Some result2))]).
  rewrite poll_run_app.
  destruct (poll_run_unanswered 2 (SessionSteps.started sm t) Hlive Hsid)
    as (Hfx2 & _ & Hn2 & _).
  destruct (SessionSteps.poll_run (repeat SessionSteps.IntervalFires 2) _) as [p2 fx2].
  simpl in Hfx2, Hn2. subst fx2. cbn [SessionSteps.poll_run SessionSteps.poll_step].
  destruct (results_answer_final code1 result1 p2 1 Hn2 Hok1 Hst1)
    as (p3 & tail1 & -> & Hn3 & Htail1).
  destruct (results_answer_final code2 result2 p3 0 Hn3 Hok2 Hst2)
    as (p4 & tail2 & -> & _ & Htail2).
  cbn [snd app]. rewrite app_nil_r.
  rewrite !filter_cons, filter_app, !filter_cons.
  rewrite (filter_no_show tail1 Htail1), (filter_no_show tail2 Htail2).
  repeat case_decide; done.
Qed.

Lemma X24_late_answers_witness :
  length (snd (SessionSteps.poll_run (repeat SessionSteps.IntervalFires 40)
                 (SessionSteps.started SampleCalls.fresh
                    (Session.new_timer (Session.sessionId SampleCalls.fresh))))) = 40%nat.
Proof.
  destruct (X24_late_answers_overlap 40 SampleCalls.fresh
              (Session.new_timer (Session.sessionId SampleCalls.fresh))
              200 200
              {| Http.stage := 5; Http.claims := []; Http.total_claims := 0 |}
              {| Http.stage := 5; Http.claims := []; Http.total_claims := 0 |}
              eq_refl eq_refl eq_refl eq_refl eq_refl eq_refl) as [H _].
  rewrite H. apply repeat_length.
Defined.

(** X5. [resetSession] abandons a running results poll: once the session
    id has changed, the next tick of the timer of the old session clears
    it and drops [isPolling] without asking the backend, and no later tick
    does anything. *)
Theorem X5_reset_supersedes_running_poll
    (now : N) (iso save_iso : string) (resp : Http.Fetch string)
    (answer : Http.Fetch Http.Result) (later : list (Http.Fetch Http.Result))
    (sm : Session.SessionManager) (t : Session.PollTimer) :
  Session.poll_cleared t = false ->
  Session.poll_session t = Session.sessionId sm ->
  "session_" +:+ Js.dec now <> Session.sessionId sm ->
  let sm' := fst (Session.resetSession now iso save_iso resp sm) in
  poll_trace (answer :: later) sm' t = [Session.ClearInterval (Session.poll_session t)]
  /\ Session.isPolling (fst (Session.pollTicks (answer :: later) sm' t)) = false
  /\ Session.entries sm' = [].
Proof.
  intros Hlive Hsid Hnew sm'.
  assert (Session.sessionId sm' = "session_" +:+ Js.dec now /\ Session.entries sm' = [])
    as [Hid Hentries].
  { subst sm'. unfold Session.resetSession, Session.autoSave. simpl.
    destruct (Session.autoSaveEnabled sm); simpl; [|done].
    destruct resp as [|code [body|]]; try done; by destruct (Http.ok code). }
  assert (Session.pollTick answer true sm' t
          = (Session.stop_polling sm', Session.clear (Session.bump t),
             [Session.ClearInterval (Session.poll_session t)])) as Htick.
  { unfold Session.pollTick. rewrite Hlive. simpl.
    rewrite bool_decide_eq_false_2; [done|]. rewrite Hid, Hsid. done. }
  split; [|split; [|done]].
  - cbn [poll_trace]. rewrite Htick. by rewrite poll_trace_cleared.
  - cbn [Session.pollTicks]. rewrite Htick. by rewrite pollTicks_cleared.
Qed.

Lemma X5_reset_witness :
  poll_trace [Http.Response 200 (Some {| Http.stage := 5; Http.claims := [];
                                         Http.total_claims := 0 |})]
    (fst (Session.resetSession 1772359300000 "2026-03-01T10:01:40.000Z"
            "2026-03-01T10:01:40.001Z" Http.Throws SampleCalls.fresh))
    (Session.new_timer (Session.sessionId SampleCalls.fresh))
  = [Session.ClearInterval (Session.sessionId SampleCalls.fresh)].
Proof.
  apply (X5_reset_supersedes_running_poll 1772359300000 "2026-03-01T10:01:40.000Z"
           "2026-03-01T10:01:40.001Z" Http.Throws _ [] SampleCalls.fresh
           (Session.new_timer (Session.sessionId SampleCalls.fresh)));
    [reflexivity|reflexivity|discriminate].
Defined.

(** X6. [finalizeSession] never sets up two result polls: whatever the
    backend answers and whatever poll was running, it issues at most one
    [setInterval] (the second [pollResults] call for the same session is
    debounced), and every interval it sets up is for the current session. *)
Theorem X6_finalize_sets_up_at_most_one_poll
    (save_iso : string) (resp : Http.Fetch string) (sm : Session.SessionManager) :
  let r := Session.finalizeSession save_iso resp sm in
  (length (filter (fun e => is_set_interval e = true) (snd r)) <= 1)%nat
  /\ Forall (fun e => is_set_interval e = true ->
                      e = Session.SetInterval (Session.sessionId sm) 2000) (snd r).
Proof.
  intros r. subst r. unfold Session.finalizeSession, Session.autoSave.
  assert (forall sm0 : Session.SessionManager,
            Session.isPolling sm0 = true ->
            Session.currentPollingSession sm0 = Some (Session.sessionId sm) ->
            Session.pollResults (Session.sessionId sm) sm0 = (sm0, [])) as Hbusy.
  { intros sm0 Hp Hc. by apply pollResults_busy. }
  assert (forall sm0 : Session.SessionManager,
            Session.pollResults (Session.sessionId sm) sm0 = (sm0, [])
            \/ Session.pollResults (Session.sessionId sm) sm0
               = (Session.with_polling true (Some (Session.sessionId sm)) sm0,
                  [Session.SetInterval (Session.sessionId sm) 2000])) as Hpoll.
  { intros sm0. unfold Session.pollResults. destruct (_ && _); auto. }
  destruct (Session.autoSaveEnabled sm); simpl;
    [destruct resp as [|code [body|]]; simpl;
     [|destruct (Http.ok code); simpl|destruct (Http.ok code); simpl]|];
    repeat first
      [ progress simpl
      | match goal with
        | |- context [Session.pollResults _ ?b] =>
            first [rewrite (Hbusy b) by done | destruct (Hpoll b) as [-> | ->]]
        end
      | match goal with
        | |- context [(0 <? length (Session.entries sm))%nat] =>
            destruct (0 <? length (Session.entries sm))%nat
        end ];
    (split; [lia|repeat constructor; done]).
Qed.

(** ** The local snapshot *)

Section Snapshot.
Import Session.

Lemma autoSave_writes (trigger : bool) (save_iso : string) (resp : Http.Fetch string)
    (sm : SessionManager) (st : Storage.t) :
  autoSaveEnabled sm = true ->
  Storage.apply_all (snd (autoSave trigger save_iso resp sm)) st
  = Storage.set ("session_" +:+ sessionId sm) (getSessionData save_iso sm) (sessionId sm) st.
Proof.
  intros Hen. unfold autoSave. rewrite Hen. simpl.
  destruct resp as [|code [body|]]; simpl; try done;
    destruct (Http.ok code); simpl; try done.
  destruct trigger; simpl; [|done].
  unfold pollResults. by destruct (_ && _).
Qed.

End Snapshot.

(** X7. Round trip through the local snapshot: after an autosave (whatever
    the backend answers), [loadSession] with the id of the saved session
    gives any manager that session's id, start time and entries, resolves
    to the saved data, and the results page finds that id as the current
    session. *)
Theorem X7_autosave_then_load_restores_session
    (trigger : bool) (save_iso : string) (resp : Http.Fetch string)
    (sm other : Session.SessionManager) (st : Storage.t) :
  Session.autoSaveEnabled sm = true ->
  let st' := Storage.apply_all (snd (Session.autoSave trigger save_iso resp sm)) st in
  let loaded := Storage.loadSession (Session.sessionId sm) false st' other in
  Session.sessionId (fst loaded) = Session.sessionId sm
  /\ Session.startTime (fst loaded) = Session.startTime sm
  /\ Session.entries (fst loaded) = Session.entries sm
  /\ snd loaded = Some (Session.getSessionData save_iso sm)
  /\ Storage.getSessionId st' = Some (Session.sessionId sm).
Proof.
  intros Hen st' loaded. subst loaded st'.
  rewrite autoSave_writes by done.
  unfold Storage.loadSession, Storage.set. simpl.
  rewrite lookup_insert_eq. done.
Qed.

Lemma X7_autosave_witness :
  Session.entries
    (fst (Storage.loadSession
            (Session.sessionId (Session.addEntries SampleCalls.two_calls SampleCalls.fresh))
            false
            (Storage.apply_all
               (snd (Session.autoSave false "2026-03-01T10:02:00.000Z" Http.Throws
                       (Session.addEntries SampleCalls.two_calls SampleCalls.fresh)))
               Storage.empty)
            SampleCalls.fresh))
  = Session.entries (Session.addEntries SampleCalls.two_calls SampleCalls.fresh).
Proof.
  apply (X7_autosave_then_load_restores_session false "2026-03-01T10:02:00.000Z"
           Http.Throws (Session.addEntries SampleCalls.two_calls SampleCalls.fresh)
           SampleCalls.fresh Storage.empty).
  reflexivity.
Defined.

Section SnapshotInvariant.
Import Session.

Lemma forEach_region_keeps b ts img d k rs (sm : SessionManager) :
  autoSaveEnabled (forEach_region b ts img d k rs sm) = autoSaveEnabled sm
  /\ sessionId (forEach_region b ts img d k rs sm) = sessionId sm.
Proof.
  revert k sm. induction rs as [|r rs IH]; intros k sm; [done|].
  simpl. destruct (IH (k + 1)%N (push (region_entry b ts img d k r) sm)) as [-> ->]. done.
Qed.

Lemma autoSave_keeps (trigger : bool) (iso : string) (resp : Http.Fetch string)
    (sm : SessionManager) :
  autoSaveEnabled (fst (autoSave trigger iso resp sm)) = autoSaveEnabled sm
  /\ sessionId (fst (autoSave trigger iso resp sm)) = sessionId sm.
Proof.
  unfold autoSave. destruct (negb _); [done|].
  destruct resp as [|code [body|]]; try done; destruct (Http.ok code); try done.
  destruct trigger; [|done]. unfold pollResults. by destruct (_ && _).
Qed.

(** The manager that [addEntry] hands to its autosave. *)
Lemma addEntry_saves (type : string) (data : Payload.t) (h : Host) (sm : SessionManager) :
  exists sm1,
    addEntry type data h sm = autoSave false (save_iso h) (save_resp h) sm1
    /\ autoSaveEnabled sm1 = autoSaveEnabled sm
    /\ sessionId sm1 = sessionId sm.
Proof.
  unfold addEntry. destruct (_ && _); eexists; (split; [done|]).
  - apply forEach_region_keeps.
  - done.
Qed.

Lemma addEntry_call_keeps (sm : SessionManager) (c : Call) :
  autoSaveEnabled (addEntry_call sm c) = autoSaveEnabled sm
  /\ sessionId (addEntry_call sm c) = sessionId sm.
Proof.
  unfold addEntry_call.
  destruct (addEntry_saves (call_type c) (call_data c) (call_host c) sm)
    as (sm1 & -> & <- & <-).
  apply autoSave_keeps.
Qed.

Lemma addEntries_keeps (calls : list Call) (sm : SessionManager) :
  autoSaveEnabled (addEntries calls sm) = autoSaveEnabled sm
  /\ sessionId (addEntries calls sm) = sessionId sm.
Proof.
  revert sm. induction calls as [|c calls IH]; intros sm; [done|].
  change (addEntries (c :: calls) sm) with (addEntries calls (addEntry_call sm c)).
  destruct (IH (addEntry_call sm c)) as [-> ->]. apply addEntry_call_keeps.
Qed.

End SnapshotInvariant.

(** X8. Every [addEntry] call leaves in the local snapshot the session as
    it is after the call: after any sequence of calls on a manager with
    autosave enabled, loading the session's own id gives back exactly the
    entries the manager holds, whatever the backend answered. *)
Theorem X8_snapshot_follows_every_entry
    (calls : list Session.Call) (c : Session.Call) (sm other : Session.SessionManager)
    (st : Storage.t) :
  Session.autoSaveEnabled sm = true ->
  let before := Session.addEntries calls sm in
  let r := Session.addEntry (Session.call_type c) (Session.call_data c)
             (Session.call_host c) before in
  let st' := Storage.apply_all (snd r) st in
  Session.entries (fst (Storage.loadSession (Session.sessionId sm) false st' other))
  = Session.entries (Session.addEntries (calls ++ [c]) sm)
  /\ Storage.getSessionId st' = Some (Session.sessionId sm).
Proof.
  intros Hen before r st'.
  destruct (addEntries_keeps calls sm) as [Hen' Hid'].
  destruct (addEntry_saves (Session.call_type c) (Session.call_data c)
              (Session.call_host c) before) as (sm1 & Hr & Hen1 & Hid1).
  assert (Session.entries (Session.addEntries (calls ++ [c]) sm) = Session.entries sm1)
    as ->.
  { unfold Session.addEntries. rewrite fold_left_app. simpl.
    unfold Session.addEntry_call at 1. fold (Session.addEntries calls sm). fold before.
    rewrite Hr. apply autoSave_entries. }
  subst st' r. rewrite Hr.
  rewrite autoSave_writes by (rewrite Hen1; subst before; congruence).
  unfold Storage.loadSession, Storage.set, Storage.getSessionId. simpl.
  fold before in Hid'. rewrite Hid1, Hid', lookup_insert_eq. done.
Qed.

Lemma X8_snapshot_witness :
  Session.entries
    (fst (Storage.loadSession (Session.sessionId SampleCalls.fresh) false
            (Storage.apply_all
               (snd (Session.addEntry "selected_text" Payload.empty
                       (SampleCalls.host_at 1772359200002)
                       (Session.addEntries [SampleCalls.keyframe_call "keyframe_1_0"]
                          SampleCalls.fresh)))
               Storage.empty)
            SampleCalls.fresh))
  = Session.entries
      (Session.addEntries
         ([SampleCalls.keyframe_call "keyframe_1_0"]
          ++ [{| Session.call_type := "selected_text"; Session.call_data := Payload.empty;
                 Session.call_host := SampleCalls.host_at 1772359200002 |}])
         SampleCalls.fresh).
Proof.
  apply (X8_snapshot_follows_every_entry [SampleCalls.keyframe_call "keyframe_1_0"]
           {| Session.call_type := "selected_text"; Session.call_data := Payload.empty;
              Session.call_host := SampleCalls.host_at 1772359200002 |}
           SampleCalls.fresh SampleCalls.fresh Storage.empty).
  reflexivity.
Defined.

(** ** The content script *)

Section ContentScript.
Import Content.

(** The fused [autoSave] is its start followed by its continuation, when
    nothing touches the manager in between. *)
Lemma autoSave_split (trigger : bool) (save_iso : string) (resp : Http.Fetch string)
    (sm : Session.SessionManager) :
  Session.autoSaveEnabled sm = true ->
  Session.autoSave trigger save_iso resp sm
  = (fst (SessionSteps.autoSave_settle trigger resp sm),
     SessionSteps.autoSave_issue trigger save_iso sm
     ++ snd (SessionSteps.autoSave_settle trigger resp sm)).
Proof.
  intros Hen.
  unfold Session.autoSave, SessionSteps.autoSave_issue, SessionSteps.autoSave_settle.
  rewrite Hen. simpl.
  destruct resp as [|code [body|]]; try done; destruct (Http.ok code); try done.
  destruct trigger; [|done]. by destruct (Session.pollResults _ _).
Qed.

Lemma finalizeSession_split (save_iso : string) (resp : Http.Fetch string)
    (sm : Session.SessionManager) :
  Session.finalizeSession save_iso resp sm
  = (fst (SessionSteps.finalizeSession_settle (Session.autoSaveEnabled sm) resp sm),
     SessionSteps.autoSave_issue true save_iso sm
     ++ snd (SessionSteps.finalizeSession_settle (Session.autoSaveEnabled sm) resp sm)).
Proof.
  unfold Session.finalizeSession, SessionSteps.finalizeSession_settle.
  destruct (Session.autoSaveEnabled sm) eqn:Hen.
  - rewrite (autoSave_split true save_iso resp sm Hen).
    destruct (SessionSteps.autoSave_settle true resp sm) as [sm1 started1]. simpl.
    destruct (0 <? length (Session.entries sm1))%nat; [|done].
    destruct (Session.pollResults _ _). simpl. by rewrite app_assoc.
  - unfold Session.autoSave, SessionSteps.autoSave_issue. rewrite Hen. simpl.
    destruct (0 <? length (Session.entries sm))%nat; [|done].
    by destruct (Session.pollResults _ _).
Qed.

(** What [pollResults] issues: nothing, or the one [setInterval]. *)
Lemma pollResults_issues (sid : string) (sm : Session.SessionManager) :
  Forall (fun e => e = Session.SetInterval sid 2000) (snd (Session.pollResults sid sm)).
Proof.
  unfold Session.pollResults. destruct (_ && _); simpl; [done|]. by apply Forall_singleton.
Qed.

Lemma finalizeSession_settle_issues (issued : bool) (resp : Http.Fetch string)
    (sm : Session.SessionManager) :
  Forall (fun e => is_set_interval e = true)
    (snd (SessionSteps.finalizeSession_settle issued resp sm)).
Proof.
  assert (forall sid sm0, Forall (fun e => is_set_interval e = true)
                            (snd (Session.pollResults sid sm0))) as Hpoll.
  { intros sid sm0. eapply Forall_impl; [apply pollResults_issues|]. by intros e ->. }
  unfold SessionSteps.finalizeSession_settle.
  assert (Forall (fun e => is_set_interval e = true)
            (snd (if issued then SessionSteps.autoSave_settle true resp sm else (sm, []))))
    as Hfirst.
  { destruct issued; [|done]. unfold SessionSteps.autoSave_settle.
    destruct resp as [|code [body|]]; try done; destruct (Http.ok code); done. }
  destruct (if issued then _ else _) as [sm1 started1]. simpl in Hfirst.
  destruct (0 <? length (Session.entries sm1))%nat; [|done].
  pose proof (Hpoll (Session.sessionId sm1) sm1) as Hsecond.
  destruct (Session.pollResults _ _) as [sm2 started2]. simpl in *.
  apply Forall_app. done.
Qed.

(** A text and the check on it: blank texts are exactly those whose
    normal form is empty. *)
Lemma blank_normalize (t : string) :
  Js.is_empty t || Js.is_empty (Js.trim t) = Js.is_empty (DedupCache.normalize t).
Proof.
  unfold DedupCache.normalize. rewrite is_empty_toLowerCase.
  destruct t; [done|]. done.
Qed.

(** After a check on a text that is not blank, its normal form is cached. *)
Lemma isNewContent_caches (t : string) (cache : list string) :
  Js.is_empty (DedupCache.normalize t) = false ->
  DedupCache.normalize t ∈ snd (DedupCache.isNewContent (Some t) cache).
Proof.
  intros Hnb. unfold DedupCache.isNewContent. rewrite blank_normalize, Hnb.
  unfold DedupCache.set_add, DedupCache.set_has, DedupCache.set_size,
    DedupCache.set_first, DedupCache.set_delete.
  case_bool_decide as Hin; [done|].
  destruct (_ <? _)%nat eqn:Hfull; simpl;
    [|apply elem_of_app; right; apply list_elem_of_singleton; done].
  destruct cache as [|first rest]; simpl.
  - apply Nat.ltb_lt in Hfull. unfold DedupCache.MAX_CACHE in Hfull. simpl in Hfull. lia.
  - apply list_elem_of_filter. split.
    + intros Heq. apply Hin. rewrite Heq. left.
    + right. apply elem_of_app. right. by apply list_elem_of_singleton.
Qed.

(** A check on a text whose normal form is blank or cached rejects it. *)
Lemma isNewContent_repeat (t : string) (cache : list string) :
  (Js.is_empty (DedupCache.normalize t) = true \/ DedupCache.normalize t ∈ cache) ->
  DedupCache.isNewContent (Some t) cache = (false, cache).
Proof.
  intros H. unfold DedupCache.isNewContent. rewrite blank_normalize.
  destruct (Js.is_empty (DedupCache.normalize t)); [done|].
  destruct H as [?|Hin]; [done|].
  unfold DedupCache.set_has. by rewrite bool_decide_eq_true_2.
Qed.

(** What a tick that reaches the OCR answer does to timer and cache. *)
Lemma ocr_tick_cache (h : TickHost) (t : string) (c : Context) :
  tick_text h = Some (Some t) ->
  ocrTimer (fst (ocr_tick h c)) = ocrTimer c
  /\ (ocrTimer c = true ->
      recentTexts (fst (ocr_tick h c))
      = snd (DedupCache.isNewContent (Some t) (recentTexts c))).
Proof.
  unfold ocr_tick, tick_text. intros H.
  set (chk := DedupCache.isNewContent (Some t) (recentTexts c)).
  destruct (ocrTimer c) eqn:Ht; cbn [negb]; [|split; [exact Ht|done]].
  destruct (tick_video h) as [v|]; [|done].
  destruct (_ || _); [done|]. destruct (negb _); [done|].
  destruct (Api.processOCR (tick_ocr h)) as [result|]; [|done].
  injection H as H. rewrite H. fold chk.
  destruct chk as [fresh cache].
  destruct fresh; [destruct (Session.addEntry _ _ _ _)|]; simpl; auto.
Qed.

(** A tick whose text the dedup check rejects changes nothing. *)
Lemma ocr_tick_rejected (h : TickHost) (t : string) (c : Context) :
  tick_text h = Some (Some t) ->
  DedupCache.isNewContent (Some t) (recentTexts c) = (false, recentTexts c) ->
  sessionManager (fst (ocr_tick h c)) = sessionManager c
  /\ recentTexts (fst (ocr_tick h c)) = recentTexts c
  /\ Forall (fun e => match e with FetchOCR _ _ _ => True | _ => False end)
       (snd (ocr_tick h c)).
Proof.
  unfold ocr_tick, tick_text. intros H Hrej.
  destruct (ocrTimer c) eqn:Ht; cbn [negb]; [|done].
  destruct (tick_video h) as [v|]; [|done].
  destruct (_ || _); [done|]. destruct (negb _); [done|].
  destruct (Api.processOCR (tick_ocr h)) as [result|]; [|done].
  injection H as H. rewrite H, Hrej. cbn [fst snd sessionManager recentTexts].
  repeat split; try done. by apply Forall_singleton.
Qed.

End ContentScript.

(** X9. [PIPELINE_STOPPED] in the content script: the listener turns the
    OCR loop off, leaves the manager as it is and ends with the response
    that carries the session id.  With no entries nothing is saved.  With
    entries, the listener issues the storage write and the save request
    with the trigger flag (autosave enabled) and nothing else of the
    manager; the results poll is set up only later, by the part of
    [finalizeSession] that runs when the save has settled, which issues
    nothing but [setInterval]; taken together, with nothing in between,
    the two parts do what [finalizeSession] does. *)
Theorem X9_content_stop_finalizes_only_sessions_with_entries
    (save_iso : string) (resp : Http.Fetch string) (c : Content.Context) :
  let sm := Content.sessionManager c in
  let r := Content.on_pipeline_stopped save_iso c in
  let later := Content.finalize_settled (Session.autoSaveEnabled sm) resp (fst r) in
  Content.ocrTimer (fst r) = false
  /\ Content.sessionManager (fst r) = sm
  /\ last (snd r) = Some (Content.SendResponse true (Some (Session.sessionId sm)))
  /\ (Session.entries sm = [] ->
      filter (fun e => Content.is_manager e = true) (snd r) = [])
  /\ (Session.entries sm <> [] ->
      filter (fun e => Content.is_manager e = true) (snd r)
      = map Content.Manager
          (if Session.autoSaveEnabled sm
           then [Session.StorageSet ("session_" +:+ Session.sessionId sm)
                   (Session.getSessionData save_iso sm) (Session.sessionId sm);
                 Session.FetchSaveSession (Session.getSessionData save_iso sm)
                   (Session.sessionId sm) true]
           else [])
      /\ (exists started,
             snd later = map Content.Manager started
             /\ Forall (fun e => is_set_interval e = true) started)
      /\ filter (fun e => Content.is_manager e = true) (snd r) ++ snd later
         = map Content.Manager (snd (Session.finalizeSession save_iso resp sm))
      /\ Content.sessionManager (fst later)
         = fst (Session.finalizeSession save_iso resp sm)).
Proof.
  intros sm r later. subst r later. unfold Content.on_pipeline_stopped. fold sm.
  destruct (Session.entries sm) as [|e es] eqn:He; simpl.
  - repeat split; try done.
  - split; [done|]. split; [done|]. split.
    { match goal with
      | |- last (?a :: ?l ++ [?x; ?y]) = _ =>
          replace (a :: l ++ [x; y]) with ((a :: l ++ [x]) ++ [y])
            by (simpl; by rewrite <- app_assoc)
      end.
      by rewrite last_snoc. }
    split; [done|]. intros _.
    assert (filter (fun e0 => Content.is_manager e0 = true)
              (Content.ClearAll
               :: map Content.Manager (SessionSteps.autoSave_issue true save_iso sm)
               ++ [Content.ShowNotification (Content.SessionStopped (Some (S (length es))));
                   Content.SendResponse true (Some (Session.sessionId sm))])
            = map Content.Manager (SessionSteps.autoSave_issue true save_iso sm)) as Hsync.
    { unfold SessionSteps.autoSave_issue. by destruct (Session.autoSaveEnabled sm). }
    rewrite Hsync. clear Hsync.
    unfold Content.finalize_settled. simpl.
    pose proof (finalizeSession_split save_iso resp sm) as Hsplit.
    pose proof (finalizeSession_settle_issues (Session.autoSaveEnabled sm) resp sm) as Hlater.
    destruct (SessionSteps.finalizeSession_settle (Session.autoSaveEnabled sm) resp sm)
      as [sm' started]. simpl in *.
    split; [unfold SessionSteps.autoSave_issue; by destruct (Session.autoSaveEnabled sm)|].
    split; [by exists started|].
    rewrite Hsplit. simpl. by rewrite map_app.
Qed.

(** X10. Dedup across OCR ticks: when two ticks in a row reach the OCR
    answer and their texts have the same normal form (same text up to
    surrounding blanks and case), the second tick adds no entry, shows no
    subtitle and leaves the cache as it was. *)
Theorem X10_repeated_ocr_text_adds_no_entry
    (h1 h2 : Content.TickHost) (t1 t2 : string) (c : Content.Context) :
  Content.tick_text h1 = Some (Some t1) ->
  Content.tick_text h2 = Some (Some t2) ->
  DedupCache.normalize t1 = DedupCache.normalize t2 ->
  let c1 := fst (Content.ocr_tick h1 c) in
  let r2 := Content.ocr_tick h2 c1 in
  Content.sessionManager (fst r2) = Content.sessionManager c1
  /\ Content.recentTexts (fst r2) = Content.recentTexts c1
  /\ Forall (fun e => match e with Content.FetchOCR _ _ _ => True | _ => False end) (snd r2).
Proof.
  intros H1 H2 Hsame c1 r2. subst r2.
  destruct (ocr_tick_cache h1 t1 c H1) as [Htimer Hcache]. fold c1 in Htimer, Hcache.
  destruct (Content.ocrTimer c) eqn:Ht.
  - apply (ocr_tick_rejected h2 t2 c1 H2). apply isNewContent_repeat.
    destruct (Js.is_empty (DedupCache.normalize t2)) eqn:Hb; [by left|right].
    rewrite (Hcache eq_refl), <- Hsame. apply isNewContent_caches. by rewrite Hsame.
  - unfold Content.ocr_tick. rewrite Htimer. simpl. done.
Qed.

Lemma X10_repeated_ocr_witness :
  Content.sessionManager
    (fst (Content.ocr_tick (SampleContent.tick "  BREAKING news " 1772359201000)
            (fst (Content.ocr_tick (SampleContent.tick "Breaking News" 1772359200000)
                    SampleContent.started))))
  = Content.sessionManager
      (fst (Content.ocr_tick (SampleContent.tick "Breaking News" 1772359200000)
              SampleContent.started)).
Proof.
  apply (X10_repeated_ocr_text_adds_no_entry
           (SampleContent.tick "Breaking News" 1772359200000)
           (SampleContent.tick "  BREAKING news " 1772359201000)
           "Breaking News" "  BREAKING news " SampleContent.started);
    reflexivity.
Defined.

(** X11. A screen scan ties its entries to the screenshot it stored: every
    entry that [handleScreenSearch] adds carries the image id
    [img_<clock>] under which the screenshot was sent to [/api/save-image],
    whatever that save answered; entries are added only when the OCR
    answer has text, one per region, or one when it has no regions. *)
Theorem X11_screen_scan_entries_carry_screenshot_id
    (h : Content.ScreenHost) (c : Content.Context) :
  let r := Content.handleScreenSearch h c in
  let imageId := "img_" +:+ Js.dec (Content.screen_now h) in
  exists new,
    Session.entries (Content.sessionManager (fst r))
    = Session.entries (Content.sessionManager c) ++ new
    /\ Forall (fun e => Entry.image_id e = Some imageId) new
    /\ (new <> [] ->
        exists image result,
          Content.screen_capture h = Some image
          /\ In (Content.FetchSaveImage image imageId "screen_capture") (snd r)
          /\ Api.processOCR (Content.screen_ocr h) = Some result
          /\ (Js.truthy_str (Payload.original_text result)
              || Js.truthy_str (Payload.translated_text result)) = true
          /\ length new = Nat.max 1 (length (default [] (Payload.text_regions result)))).
Proof.
  intros r imageId. subst r. unfold Content.handleScreenSearch. fold imageId.
  destruct (Content.screen_capture h) as [[|ch image]|] eqn:Hcap;
    try (exists []; rewrite app_nil_r; by repeat split).
  destruct (Api.processOCR (Content.screen_ocr h)) as [result|] eqn:Hocr;
    [|exists []; rewrite app_nil_r; by repeat split].
  destruct (_ || _) eqn:Htext; [|exists []; rewrite app_nil_r; by repeat split].
  pose proof (addEntry_call_entries (Content.sessionManager c)
                {| Session.call_type := "screen_ocr";
                   Session.call_data := Content.with_image imageId result;
                   Session.call_host := Content.screen_entry h |}) as Happ.
  unfold Session.addEntry_call in Happ. simpl in Happ.
  destruct (Session.addEntry "screen_ocr" (Content.with_image imageId result)
              (Content.screen_entry h) (Content.sessionManager c)) as [sm fx].
  simpl in Happ. simpl.
  eexists. split; [exact Happ|]. subst imageId.
  unfold appended, Session.regions_of, call_now.
  cbn [Session.call_type Session.call_data Session.call_host Content.with_image
       Payload.text_regions Payload.image_id].
  destruct (Payload.text_regions result) as [[|region regions]|] eqn:Hreg.
  - simpl. split; [by apply Forall_singleton|]. intros _.
    exists (String ch image), result.
    rewrite Hreg. repeat split; try done. do 2 right. by left.
  - cbn [default length Nat.ltb Nat.leb andb bool_decide decide_rel].
    rewrite bool_decide_eq_true_2 by done. cbn [andb].
    split; [apply (region_entries_image _ _ ("img_" +:+ Js.dec (Content.screen_now h)))|].
    intros _. exists (String ch image), result.
    rewrite Hreg. repeat split; try done; [simpl; do 2 right; by left|].
    cbn [id length default]. rewrite region_entries_length. simpl. lia.
  - simpl. split; [by apply Forall_singleton|]. intros _.
    exists (String ch image), result.
    rewrite Hreg. repeat split; try done. do 2 right. by left.
Qed.

(** A screen scan whose OCR answer has three regions while the screenshot
    could not be stored: three entries, all under the id of the
    screenshot. *)
Example screen_scan_three_regions :
  map Entry.image_id
    (Session.entries
       (Content.sessionManager
          (fst (Content.handleScreenSearch SampleContent.scan SampleContent.started))))
  = [Some "img_1772359200000"; Some "img_1772359200000"; Some "img_1772359200000"].
Proof. vm_compute. reflexivity. Qed.

(** X12. [handleSaveSelectedText] stores the selection trimmed, for a
    selection of ASCII characters: a selection that is empty or blank adds
    nothing; otherwise exactly one entry is appended, of source
    [user_selection], whose text and original text are the trimmed
    selection and which keeps the page and position of the selection. *)
Theorem X12_selected_text_is_stored_trimmed
    (h : Content.SelectionHost) (c : Content.Context) :
  ascii_only (Content.selection h) = true ->
  let r := Content.handleSaveSelectedText h c in
  let t := Js.trim (Content.selection h) in
  (Js.is_empty t = true ->
   fst r = c /\ snd r = [Content.ShowNotification Content.NoTextSelected])
  /\ (Js.is_empty t = false ->
      forall rect, Content.selection_rect h = Some rect ->
      exists e,
        Session.entries (Content.sessionManager (fst r))
        = Session.entries (Content.sessionManager c) ++ [e]
        /\ Entry.text e = Some t
        /\ Entry.original_text e = Some t
        /\ Entry.source e = "user_selection"
        /\ Entry.selection_metadata e
           = Some {| page_url := Content.selection_url h;
                     page_title := Content.selection_title h;
                     position := rect |}
        /\ Entry.id e = id_of "sel" (Session.now (Content.selection_entry h))
                          (Session.rnd (Content.selection_entry h))).
Proof.
  intros _ r t. subst r. unfold Content.handleSaveSelectedText. fold t. split.
  - by intros ->.
  - intros Hne rect Hrect. rewrite Hne, Hrect.
    match goal with
    | |- context [Session.addEntry "selected_text" ?d ?host ?sm] =>
        pose proof (addEntry_call_entries sm
                      {| Session.call_type := "selected_text"; Session.call_data := d;
                         Session.call_host := host |}) as Happ;
        unfold Session.addEntry_call in Happ; simpl in Happ;
        destruct (Session.addEntry "selected_text" d host sm) as [sm' fx]
    end.
    simpl in Happ. simpl. eexists. split; [exact Happ|].
    destruct t as [|ch t']; [done|]. done.
Qed.

Lemma X12_selected_text_witness :
  exists e,
    Session.entries
      (Content.sessionManager
         (fst (Content.handleSaveSelectedText SampleContent.picked SampleContent.started)))
    = Session.entries (Content.sessionManager SampleContent.started) ++ [e]
    /\ Entry.text e = Some "Vaccines cause X".
Proof.
  destruct (X12_selected_text_is_stored_trimmed SampleContent.picked SampleContent.started
              eq_refl) as [_ H].
  destruct (H eq_refl (10, 20, 300, 18)%Z eq_refl) as (e & He & Ht & _).
  exists e. split; [exact He|exact Ht].
Defined.

(** ** The popup commands *)

Section PopupRetry.
Import Popup.

(** The loop from [attempts] failures on, with fuel for what is left. *)
Lemma retry_spec (m : nat) (tab : N) (type : string) (delivered : nat -> bool)
    (fuel a : nat) :
  (m - a <= fuel)%nat ->
  exists fx,
    retry fuel m a tab type delivered = Some fx
    /\ (length (filter (fun e => is_send e = true) fx) <= m - a)%nat
    /\ Forall (fun e => match e with SendMessage t ty => t = tab /\ ty = type | _ => True end) fx
    /\ (In (SetStatus (Triggered type)) fx
        <-> exists k, (a <= k < m)%nat /\ delivered k = true)
    /\ (In (SetStatus RefreshAndRetry) fx
        <-> (a < m)%nat /\ forall k, (a <= k < m)%nat -> delivered k = false).
Proof.
  revert a. induction fuel as [|fuel IH]; intros a Hfuel.
  - simpl. destruct (Nat.ltb_spec a m); [lia|].
    exists []. simpl. split; [done|]. split; [lia|]. split; [constructor|].
    split; (split; [done|]).
    + intros (k & ? & _). lia.
    + intros [? _]. lia.
  - simpl. destruct (Nat.ltb_spec a m) as [Hlt|Hge].
    2:{ exists []. simpl. split; [done|]. split; [lia|]. split; [constructor|].
        split; (split; [done|]).
        - intros (k & ? & _). lia.
        - intros [? _]. lia. }
    destruct (delivered a) eqn:Hd.
    + eexists. split; [done|]. simpl. split; [lia|]. split; [repeat constructor|].
      split; split.
      * intros _. exists a. split; [lia|done].
      * auto.
      * intros [?|[?|[]]]; done.
      * intros [_ Hall]. specialize (Hall a). rewrite Hd in Hall.
        discriminate Hall. lia.
    + destruct (IH (S a)) as (rest & -> & Hcount & Hall & Htrig & Hfail); [lia|].
      eexists. split; [done|].
      assert (forall e : Effect,
                e = Wait 100 \/ e = SetStatus RefreshAndRetry ->
                filter (fun e => is_send e = true) (SendMessage tab type :: e :: rest)
                = SendMessage tab type :: filter (fun e => is_send e = true) rest) as Hf.
      { intros e [-> | ->]; rewrite !filter_cons; repeat case_decide; done. }
      destruct (Nat.ltb_spec (S a) m) as [Hlt'|Hge'].
      * rewrite Hf by auto. simpl length. split; [lia|]. split.
        { repeat constructor; done. }
        split.
        -- simpl. rewrite Htrig. split.
           ++ intros [?|[?|(k & ? & ?)]]; try done. exists k. split; [lia|done].
           ++ intros (k & Hk & Hdk). right. right. exists k. split; [|done].
              destruct (decide (k = a)) as [->|]; [congruence|lia].
        -- simpl. rewrite Hfail. split.
           ++ intros [?|[?|[? Hall']]]; try done. split; [lia|].
              intros k Hk. destruct (decide (k = a)) as [->|]; [done|]. apply Hall'. lia.
           ++ intros [_ Hall']. right. right. split; [lia|].
              intros k Hk. apply Hall'. lia.
      * rewrite Hf by auto. simpl length. split; [lia|]. split.
        { repeat constructor; done. }
        split.
        -- simpl. rewrite Htrig. split.
           ++ intros [?|[?|(k & ? & ?)]]; try done. lia.
           ++ intros (k & Hk & Hdk). assert (k = a) as -> by lia. congruence.
        -- simpl. split.
           ++ intros _. split; [lia|]. intros k Hk. assert (k = a) as -> by lia. done.
           ++ intros _. right. by left.
Qed.

End PopupRetry.

(** X13. The popup commands ([onSearchScreen], [onSaveSelected],
    [onExtractKeyframes]) always come to an end.  On a restricted page
    ([chrome://], [chrome-extension://]) or without an active tab the
    guarded commands send nothing; otherwise a command sends its message to
    the active tab at most three times, reports success exactly when one of
    these three sends goes through, and reports the refresh-and-retry error
    exactly when all three fail. *)
Theorem X13_popup_commands_retry_at_most_three_times
    (type : string) (tab : option Popup.Tab) (delivered : nat -> bool) :
  exists fx,
    Popup.guarded_command type tab delivered = Some fx
    /\ (length (filter (fun e => Popup.is_send e = true) fx) <= 3)%nat
    /\ ((Popup.tab_number tab = None
         \/ Popup.restricted (default "" (Popup.tab_url <$> tab)) = true) ->
        filter (fun e => Popup.is_send e = true) fx = [])
    /\ (Popup.tab_number tab <> None ->
        Popup.restricted (default "" (Popup.tab_url <$> tab)) = false ->
        (In (Popup.SetStatus (Popup.Triggered type)) fx
         <-> (delivered 0 = true \/ delivered 1 = true \/ delivered 2 = true)%nat)
        /\ (In (Popup.SetStatus Popup.RefreshAndRetry) fx
            <-> (delivered 0 = false /\ delivered 1 = false /\ delivered 2 = false)%nat))
    /\ exists fx',
         Popup.onSearchScreen tab delivered = Some fx'
         /\ (length (filter (fun e => Popup.is_send e = true) fx') <= 3)%nat.
Proof.
  assert (forall ty id,
    exists fx,
      Popup.retry 3 3 0 id ty delivered = Some fx
      /\ (length (filter (fun e => Popup.is_send e = true) fx) <= 3)%nat
      /\ (In (Popup.SetStatus (Popup.Triggered ty)) fx
          <-> (delivered 0 = true \/ delivered 1 = true \/ delivered 2 = true)%nat)
      /\ (In (Popup.SetStatus Popup.RefreshAndRetry) fx
          <-> (delivered 0 = false /\ delivered 1 = false /\ delivered 2 = false)%nat))
    as Hloop.
  { intros ty id.
    destruct (retry_spec 3 id ty delivered 3 0) as (fx & Hfx & Hcount & _ & Htrig & Hfail);
      [lia|].
    exists fx. split; [done|]. split; [simpl in Hcount; lia|]. split.
    - rewrite Htrig. split.
      + intros (k & Hk & Hd).
        assert (k = 0 \/ k = 1 \/ k = 2)%nat as [->|[->| ->]] by lia; auto.
      + intros [?|[?|?]]; [exists 0%nat|exists 1%nat|exists 2%nat]; (split; [lia|done]).
    - rewrite Hfail. split.
      + intros [_ Hall]. repeat split; apply Hall; lia.
      + intros (H0 & H1 & H2). split; [lia|]. intros k Hk.
        assert (k = 0 \/ k = 1 \/ k = 2)%nat as [->|[->| ->]] by lia; done. }
  unfold Popup.guarded_command, Popup.onSearchScreen.
  destruct (Popup.tab_number tab) as [id|] eqn:Htab.
  - destruct (Hloop "TRIGGER_SCREEN_SEARCH" id) as (fx' & Hfx' & Hc' & _).
    rewrite Hfx'.
    destruct (Popup.restricted _) eqn:Hres.
    + eexists. split; [done|]. split; [simpl; lia|]. split; [done|]. split; [done|].
      eexists. split; [done|].
      rewrite filter_cons. case_decide; [done|]. done.
    + destruct (Hloop type id) as (fx & Hfx & Hc & Htrig & Hfail). rewrite Hfx.
      eexists. split; [done|].
      rewrite filter_cons. case_decide; [done|]. split; [done|]. split.
      { intros [?|?]; done. }
      split.
      * intros _ _. simpl. split.
        -- rewrite <- Htrig. split; [intros [?|?]; [done|done]|auto].
        -- rewrite <- Hfail. split; [intros [?|?]; [done|done]|auto].
      * eexists. split; [done|]. rewrite filter_cons. case_decide; [done|]. done.
  - eexists. split; [done|]. simpl. split; [lia|]. split; [done|]. split; [done|].
    eexists. split; [done|]. simpl. lia.
Qed.

(** ** The request queue of the API client *)

Section Queue.
Import RequestQueue.

Lemma processQueue_ok (c : t) (asked : list N) :
  (length (in_flight c) <= 1)%nat ->
  (isProcessing c = true <-> in_flight c <> []) ->
  started c ++ requestQueue c = asked ->
  queue_ok (processQueue c) asked.
Proof.
  intros Hlen Hproc Hasked. unfold processQueue.
  destruct (isProcessing c) eqn:Hp.
  { split; [done|]. split; [by rewrite Hp|]. split; [done|].
    rewrite Hp. done. }
  assert (in_flight c = []) as Hnone.
  { destruct (in_flight c) as [|x l]; [done|]. destruct Hproc as [_ Hproc].
    discriminate Hproc. done. }
  destruct (requestQueue c) as [|r rest] eqn:Hq.
  { split; [done|]. split; [by rewrite Hp|]. split; [by rewrite Hq|].
    rewrite Hq. done. }
  split; [|split; [|split]]; simpl.
  - rewrite Hnone. simpl. lia.
  - rewrite Hnone. done.
  - rewrite <- Hasked. by rewrite <- app_assoc.
  - done.
Qed.

Lemma step_ok (c : t) (asked : list N) (e : Event) :
  queue_ok c asked -> queue_ok (step c e) (asked ++ queued e).
Proof.
  intros (Hlen & Hproc & Hasked & Hwake). destruct e as [r|r|]; simpl.
  - apply processQueue_ok; simpl; try done.
    rewrite <- Hasked. by rewrite app_assoc.
  - rewrite app_nil_r. unfold settled. case_bool_decide as Hin; [|done].
    destruct (in_flight c) as [|x [|y l]] eqn:Hfl; simpl in Hlen; [|clear Hlen|lia].
    { by apply elem_of_nil in Hin. }
    apply list_elem_of_singleton in Hin. subst x.
    split; [|split; [|split]]; simpl.
    + rewrite filter_cons. case_decide; [done|]. simpl. lia.
    + rewrite filter_cons. case_decide; [done|]. done.
    + done.
    + intros _ Hq. destruct (requestQueue c); [done|]. simpl. lia.
  - rewrite app_nil_r. unfold timer_fired.
    destruct (timers c) as [|n] eqn:Ht; [unfold queue_ok; rewrite Ht; done|].
    apply processQueue_ok; simpl; done.
Qed.

Lemma run_ok (evs : list Event) (c : t) (asked : list N) :
  queue_ok c asked -> queue_ok (run evs c) (asked ++ enqueued evs).
Proof.
  revert c asked. induction evs as [|e evs IH]; intros c asked Hok.
  - unfold enqueued. simpl. by rewrite app_nil_r.
  - unfold enqueued. simpl. rewrite app_assoc. apply IH. by apply step_ok.
Qed.

End Queue.

(** X14. The request queue of [APIClient] ([queueRequest],
    [processQueue]): after any sequence of enqueues, settlements and
    timer callbacks at most one request is in flight, [isProcessing] is
    set exactly while one is, requests are started in the order they were
    queued and none is lost, and a request that waits while nothing is in
    flight always has a wake-up timer pending. *)
Theorem X14_request_queue_one_in_flight_fifo (evs : list RequestQueue.Event) :
  let c := RequestQueue.run evs RequestQueue.new in
  (length (RequestQueue.in_flight c) <= 1)%nat
  /\ (RequestQueue.isProcessing c = true <-> RequestQueue.in_flight c <> [])
  /\ RequestQueue.started c ++ RequestQueue.requestQueue c = RequestQueue.enqueued evs
  /\ (RequestQueue.isProcessing c = false ->
      RequestQueue.requestQueue c <> [] -> (0 < RequestQueue.timers c)%nat).
Proof.
  intros c.
  assert (RequestQueue.queue_ok RequestQueue.new []) as H0.
  { repeat split; simpl; try done; lia. }
  apply (run_ok evs) in H0. simpl in H0. exact H0.
Qed.

(** ** The service worker as a whole *)

Section Worker.
Import Background Router.

Ltac bg_open :=
  unfold startPipeline, stopPipeline, sendToBackend, stt_answer,
    announce_started, autoSaveToBackend, result_of, registry_of, effects_of,
    bind, get, set, del, emit, ret; simpl.

Ltac bg_resolve :=
  repeat (first [rewrite lookup_insert_eq | rewrite lookup_delete_eq]; simpl).

Lemma registry_of_bind {A B} (m : Bg A) (k : A -> Bg B) (st : Registry) :
  registry_of (bind m k st) = registry_of (k (result_of (m st)) (registry_of (m st))).
Proof.
  unfold registry_of, result_of, bind.
  destruct (m st) as [[a s] f]. simpl. destruct (k a s) as [[b s'] f']. done.
Qed.

(** The registry after a start: the new state under the target tab. *)
Lemma startPipeline_registry (tab : option N) (opts : option RawOptions)
    (h : StartHost) (st : Registry) :
  registry_of (startPipeline tab opts h st)
  = match (match live_tab tab with
           | Some t => Some t
           | None => live_tab (active_tab h)
           end) with
    | Some t => <[t := new_state t (default no_options opts) h]> st
    | None => st
    end.
Proof.
  assert (forall p : positive,
            registry_of (startPipeline (Some (Npos p)) opts h st)
            = <[Npos p := new_state (Npos p) (default no_options opts) h]> st) as Hlive.
  { intros p. destruct (st !! Npos p) as [first|] eqn:Hst.
    - destruct (startPipeline_running p opts h st first Hst) as (_ & -> & _).
      rewrite startPipeline_fresh by apply lookup_delete_eq.
      apply insert_delete_eq.
    - by apply startPipeline_fresh. }
  destruct tab as [[|p]|]; simpl.
  - destruct (active_tab h) as [[|q]|] eqn:Ha; simpl;
      try (unfold startPipeline; simpl; rewrite Ha; done).
    rewrite <- (Hlive q). unfold startPipeline. simpl. rewrite Ha. done.
  - apply Hlive.
  - destruct (active_tab h) as [[|q]|] eqn:Ha; simpl;
      try (unfold startPipeline; simpl; rewrite Ha; done).
    rewrite <- (Hlive q). unfold startPipeline. simpl. rewrite Ha. done.
Qed.

(** The registry after a stop. *)
Lemma stopPipeline_registry (tab : option N) (iso : string) (st : Registry) :
  registry_of (stopPipeline tab iso st)
  = match tab with
    | Some t => delete t st
    | None => st
    end.
Proof.
  destruct tab as [t|]; bg_open; [|done].
  destruct (st !! t) eqn:Hst; simpl.
  - rewrite Hst. simpl. done.
  - symmetry. by apply delete_id.
Qed.

(** The registry after a chunk for a registered tab. *)
Lemma sendToBackend_registry (audio : string) (p : positive) (h : SttHost)
    (st : Registry) (session : PipelineState) :
  st !! Npos p = Some session ->
  registry_of (sendToBackend audio (Some (Npos p)) h st)
  = <[Npos p := more (heard h) session]> st.
Proof.
  intros Hsome.
  assert (<[Npos p := more [] session]> st = st) as Hsame.
  { apply insert_id. rewrite Hsome. f_equal. destruct session. unfold more. simpl.
    by rewrite app_nil_r. }
  unfold heard. bg_open. repeat (rewrite Hsome; simpl).
  destruct (stt h) as [|code body]; simpl; [done|].
  destruct (Http.ok code); simpl; [|by destruct body].
  destruct body as [data|]; simpl; [|done].
  destruct (has_text data); simpl; [|done].
  repeat (rewrite Hsome; simpl). by bg_resolve.
Qed.

(** A chunk for a tab that is not registered, or without tab. *)
Lemma sendToBackend_ignored (audio : string) (tab : option N) (h : SttHost)
    (st : Registry) :
  match live_tab tab with
  | Some t => st !! t = None
  | None => True
  end ->
  sendToBackend audio tab h st = (tt, st, []).
Proof.
  unfold sendToBackend. destruct (live_tab tab) as [t|]; [|done].
  intros Hnone. unfold bind, get. rewrite Hnone. done.
Qed.

Lemma live_tab_pos (tab : option N) (t : N) :
  live_tab tab = Some t -> tab = Some t /\ exists p, t = Npos p.
Proof.
  destruct tab as [[|p]|]; simpl; try done. intros [= <-]. eauto.
Qed.

Lemma more_ok (t : N) (h : SttHost) (session : PipelineState) :
  state_ok t session -> state_ok t (more (heard h) session).
Proof.
  intros (Ht & Hid & Hsid & Hall). repeat split; try done. simpl.
  apply Forall_app. split; [done|]. unfold heard.
  destruct (stt h) as [|code [data|]]; try done.
  destruct (Http.ok code && has_text data); [|done].
  constructor; [|constructor]. split; [reflexivity|].
  unfold subtitle_entry. cbn [Entry.id].
  generalize (Js.dec (stt_now h) +:+ "_" +:+ Js.dec (stt_rnd h)). intros s.
  simpl. by destruct s.
Qed.

(** The registry after any event, tab by tab. *)
Lemma handle_registry (e : Event) (st : Registry) (t : N) :
  registry_of (handle e st) !! t = st !! t
  \/ (target e = Some t
      /\ (registry_of (handle e st) !! t = None
          \/ (exists msg sender h,
                 e = Message msg sender h /\ t <> 0%N
                 /\ registry_of (handle e st) !! t
                    = Some (new_state t
                              (default no_options
                                 match msg with
                                 | START_PIPELINE _ payload => payload
                                 | _ => None
                                 end) (start_host h)))
          \/ (exists session h, st !! t = Some session /\ t <> 0%N
                 /\ registry_of (handle e st) !! t = Some (more (heard h) session)))).
Proof.
  destruct e as [msg sender h|tab iso]; simpl.
  - rewrite registry_of_bind.
    destruct msg as [tabId payload|tabId|payload tabId| | |]; simpl;
      try (left; unfold registry_of, ret; simpl; done);
      try (left; by destruct (capture h)).
    + rewrite registry_of_bind. unfold ret at 1. unfold registry_of at 1. simpl.
      unfold ret at 1. unfold registry_of at 1. simpl.
      rewrite startPipeline_registry.
      destruct (match live_tab (or_tab tabId sender) with
                | Some t0 => Some t0
                | None => live_tab (active_tab (start_host h))
                end) as [t0|] eqn:Htarget; [|by left].
      destruct (decide (t0 = t)) as [->|Hne].
      * right. split; [done|]. right. left. exists (START_PIPELINE tabId payload), sender, h.
        split; [done|]. split; [|apply lookup_insert_eq].
        destruct (live_tab (or_tab tabId sender)) eqn:Hl.
        -- injection Htarget as ->. apply live_tab_pos in Hl as (_ & p & ->). done.
        -- apply live_tab_pos in Htarget as (_ & p & ->). done.
      * left. by apply lookup_insert_ne.
    + rewrite registry_of_bind. unfold ret at 1. unfold registry_of at 1. simpl.
      unfold ret at 1. unfold registry_of at 1. simpl.
      rewrite stopPipeline_registry.
      destruct (or_tab tabId sender) as [t0|]; [|by left].
      destruct (decide (t0 = t)) as [->|Hne].
      * right. split; [done|]. left. apply lookup_delete_eq.
      * left. by apply lookup_delete_ne.
    + rewrite registry_of_bind. unfold ret at 1. unfold registry_of at 1. simpl.
      unfold ret at 1. unfold registry_of at 1. simpl.
      destruct (live_tab tabId) as [t0|] eqn:Hl.
      2:{ left. rewrite sendToBackend_ignored; [done|]. by rewrite Hl. }
      destruct (st !! t0) as [session|] eqn:Hst.
      2:{ left. rewrite sendToBackend_ignored; [done|]. by rewrite Hl. }
      apply live_tab_pos in Hl as (-> & p & ->).
      rewrite (sendToBackend_registry _ _ _ _ session Hst).
      destruct (decide (Npos p = t)) as [<-|Hne].
      * right. split; [done|]. right. right. exists session, (stt_host h).
        split; [done|]. split; [done|]. apply lookup_insert_eq.
      * left. by apply lookup_insert_ne.
  - assert (registry_of (onRemoved tab iso st) = delete tab st) as ->.
    { unfold onRemoved. rewrite registry_of_bind.
      change (result_of (get tab st)) with (st !! tab).
      change (registry_of (get tab st)) with st.
      destruct (st !! tab) eqn:Hst.
      - rewrite registry_of_bind, stopPipeline_registry. done.
      - symmetry. by apply delete_id. }
    destruct (decide (tab = t)) as [->|Hne].
    + right. split; [done|]. left. apply lookup_delete_eq.
    + left. by apply lookup_delete_ne.
Qed.

Lemma handle_ok (e : Event) (st : Registry) :
  registry_ok st -> registry_ok (registry_of (handle e st)).
Proof.
  intros Hok t ps Hps.
  destruct (handle_registry e st t) as [Hsame|(_ & [Hnone|[Hnew|Hmore]])].
  - apply Hok. by rewrite <- Hsame.
  - by rewrite Hnone in Hps.
  - destruct Hnew as (msg & sender & h & _ & Ht & Hnew). rewrite Hnew in Hps.
    injection Hps as <-. split; [done|]. split; [done|]. split; [|constructor].
    simpl. by destruct (Js.dec _).
  - destruct Hmore as (session & h & Hst & Ht & Hmore). rewrite Hmore in Hps.
    injection Hps as <-. apply more_ok. by apply Hok.
Qed.

(** [stopPipeline] is its start followed by its end, when nothing
    happens in between. *)
Lemma stopPipeline_split (tab : option N) (iso : string) (st : Registry) :
  stopPipeline tab iso st
  = bind (WorkerSteps.stopPipeline_begin tab iso) (WorkerSteps.stopPipeline_end tab) st.
Proof.
  unfold stopPipeline, WorkerSteps.stopPipeline_begin, WorkerSteps.stopPipeline_end,
    autoSaveToBackend, bind, get, del, emit, ret.
  destruct tab as [t|]; simpl; [|done].
  destruct (st !! t) eqn:Hst; simpl; [|done]. by rewrite Hst.
Qed.

(** [sendToBackend] is the request followed by the handling of its
    answer, when nothing happens in between. *)
Lemma sendToBackend_split (audio : string) (tab : option N) (h : SttHost)
    (st : Registry) :
  sendToBackend audio tab h st
  = bind (WorkerSteps.sendToBackend_begin audio tab)
      (fun issued =>
         match issued with
         | Some t => bind (WorkerSteps.stt_answer_begin t h) (WorkerSteps.stt_answer_end t)
         | None => ret tt
         end) st.
Proof.
  unfold sendToBackend, WorkerSteps.sendToBackend_begin.
  destruct (live_tab tab) as [t|]; [|done].
  unfold bind, get, emit, ret. destruct (st !! t) eqn:Hst; [|done]. simpl.
  unfold stt_answer, WorkerSteps.stt_answer_begin, WorkerSteps.stt_answer_end.
  destruct (stt h) as [|code body]; simpl; [done|].
  destruct (Http.ok code); simpl; [|done].
  destruct body as [data|]; simpl; [|done].
  destruct (has_text data); simpl; [|done].
  unfold autoSaveToBackend, bind, get, set, emit, ret. rewrite Hst. simpl.
  by rewrite lookup_insert_eq.
Qed.

(** A chunk for a registered tab is sent for transcription. *)
Lemma sendToBackend_begin_registered (audio : string) (p : positive) (st : Registry)
    (session : PipelineState) :
  st !! Npos p = Some session ->
  WorkerSteps.sendToBackend_begin audio (Some (Npos p)) st
  = (Some (Npos p), st, [FetchSpeechToText audio]).
Proof.
  intros Hsome. unfold WorkerSteps.sendToBackend_begin, bind, get, emit, ret. simpl.
  by rewrite Hsome.
Qed.

(** The registry after the answer to a request of a registered tab. *)
Lemma stt_answer_begin_registry (p : positive) (h : SttHost) (st : Registry)
    (session : PipelineState) :
  st !! Npos p = Some session ->
  registry_of (WorkerSteps.stt_answer_begin (Npos p) h st)
  = <[Npos p := more (heard h) session]> st.
Proof.
  intros Hsome.
  assert (<[Npos p := more [] session]> st = st) as Hsame.
  { apply insert_id. rewrite Hsome. f_equal. destruct session. unfold more. simpl.
    by rewrite app_nil_r. }
  unfold heard, WorkerSteps.stt_answer_begin, registry_of.
  destruct (stt h) as [|code body]; simpl; [done|].
  destruct (Http.ok code); simpl; [|by destruct body].
  destruct body as [data|]; simpl; [|done].
  destruct (has_text data); simpl; [|done].
  unfold autoSaveToBackend, bind, get, set, emit, ret. rewrite Hsome. simpl.
  by rewrite lookup_insert_eq.
Qed.

(** The registry after a schedule of chunks and answers on a registered
    tab: the entries of the answers, in the order of their arrival. *)
Lemma chunk_run_registry (p : positive) (es : list WorkerSteps.ChunkEvent)
    (st : Registry) (session : PipelineState) (waiting : nat) :
  st !! Npos p = Some session ->
  WorkerSteps.answerable waiting es = true ->
  fst (WorkerSteps.chunk_run (Npos p) es (st, waiting))
  = <[Npos p := more (flat_map heard (WorkerSteps.answers es)) session]> st.
Proof.
  revert st session waiting.
  induction es as [|e es IH]; intros st session waiting Hsome Hes.
  - simpl. symmetry. apply insert_id.
    rewrite Hsome. f_equal. destruct session. unfold more. simpl. by rewrite app_nil_r.
  - destruct e as [audio|h]; simpl in Hes.
    + unfold WorkerSteps.chunk_run. simpl.
      rewrite (sendToBackend_begin_registered audio p st session Hsome). simpl.
      by apply IH.
    + destruct waiting as [|waiting]; [done|].
      unfold WorkerSteps.chunk_run. simpl.
      rewrite (stt_answer_begin_registry p h st session Hsome).
      fold (WorkerSteps.chunk_run (Npos p) es
              (<[Npos p := more (heard h) session]> st, waiting)).
      rewrite (IH _ (more (heard h) session)); [|apply lookup_insert_eq|done].
      rewrite insert_insert_eq. f_equal. unfold more. simpl. by rewrite app_assoc.
Qed.

End Worker.

(** X15. A pipeline run on one tab, from start to stop.  Whatever the
    registry held before and however the start ended, and for every
    schedule of chunk messages and speech-to-text answers in which each
    answer belongs to a request in flight: the stop then sends one final
    save with the trigger flag, under the session id of the start, whose
    entries are exactly the entries of the answers that came back with
    text, in the order in which the answers arrived; once that save has
    settled (nothing else happening meanwhile), the stop removes the tab,
    notifies the content script and answers with the session id, and
    every other tab is as it was before the start. *)
Theorem X15_stop_saves_what_the_chunks_added
    (p : positive) (opts : option Background.RawOptions) (h : Background.StartHost)
    (es : list WorkerSteps.ChunkEvent) (last_updated : string)
    (st : gmap N Background.PipelineState) :
  WorkerSteps.answerable 0 es = true ->
  let t := Npos p in
  let st1 := Background.registry_of (Background.startPipeline (Some t) opts h st) in
  let st2 := fst (WorkerSteps.chunk_run t es (st1, 0%nat)) in
  let stop1 := WorkerSteps.stopPipeline_begin (Some t) last_updated st2 in
  let stop2 := WorkerSteps.stopPipeline_end (Some t) (Background.result_of stop1)
                 (Background.registry_of stop1) in
  let sid := "session_" +:+ Js.dec (Background.now h) in
  Background.result_of stop1 = Some sid
  /\ Background.effects_of stop1
     = [Background.RuntimeSend (Background.STOP_AUDIO (Some t));
        Background.FetchSaveSession
          {| SessionData.session_id := sid;
             SessionData.type := "combined_session";
             SessionData.start_time := Background.iso h;
             SessionData.entries := flat_map Router.heard (WorkerSteps.answers es);
             SessionData.last_updated := last_updated |} sid true]
  /\ Background.result_of stop2
     = {| Background.stopped := true; Background.stop_sessionId := Some sid |}
  /\ Background.effects_of stop2
     = [Background.SafeSend (Some t) Background.PIPELINE_STOPPED]
  /\ Background.registry_of stop2 !! t = None
  /\ forall t', t' <> t -> Background.registry_of stop2 !! t' = st !! t'.
Proof.
  intros Hes t st1 st2 stop1 stop2 sid. subst t.
  assert (st1 = <[Npos p := Background.new_state (Npos p)
                              (default Background.no_options opts) h]> st) as Hst1.
  { subst st1. by rewrite startPipeline_registry. }
  assert (st2 = <[Npos p := Router.more (flat_map Router.heard (WorkerSteps.answers es))
                              (Background.new_state (Npos p)
                                 (default Background.no_options opts) h)]> st1) as Hst2.
  { subst st2. apply chunk_run_registry; [|done]. rewrite Hst1. apply lookup_insert_eq. }
  assert (st2 !! Npos p
          = Some (Router.more (flat_map Router.heard (WorkerSteps.answers es))
                    (Background.new_state (Npos p)
                       (default Background.no_options opts) h))) as Hlook.
  { rewrite Hst2. apply lookup_insert_eq. }
  assert (stop1
          = (Some sid, st2,
             [Background.RuntimeSend (Background.STOP_AUDIO (Some (Npos p)));
              Background.FetchSaveSession
                {| SessionData.session_id := sid;
                   SessionData.type := "combined_session";
                   SessionData.start_time := Background.iso h;
                   SessionData.entries := flat_map Router.heard (WorkerSteps.answers es);
                   SessionData.last_updated := last_updated |} sid true])) as Hstop1.
  { subst stop1.
    unfold WorkerSteps.stopPipeline_begin, Background.autoSaveToBackend, Background.bind,
      Background.get, Background.emit, Background.ret. simpl.
    repeat (rewrite Hlook; simpl). done. }
  split; [by rewrite Hstop1|]. split; [by rewrite Hstop1|].
  subst stop2. rewrite Hstop1.
  unfold WorkerSteps.stopPipeline_end, Background.result_of, Background.registry_of,
    Background.effects_of, Background.bind, Background.del, Background.emit,
    Background.ret. simpl.
  split; [done|]. split; [done|]. split; [apply lookup_delete_eq|].
  intros t' Hne. rewrite lookup_delete_ne by done.
  rewrite Hst2, lookup_insert_ne by done. rewrite Hst1. by rewrite lookup_insert_ne.
Qed.

Lemma X15_stop_witness :
  Background.result_of
    (WorkerSteps.stopPipeline_begin (Some 42%N) "2026-03-01T10:00:20.000Z"
       (fst (WorkerSteps.chunk_run 42
               [WorkerSteps.ChunkArrives "UklGRg=="; WorkerSteps.ChunkArrives "UklGRh==";
                WorkerSteps.Transcribed SampleRace.spoken;
                WorkerSteps.Transcribed SampleTabs.silence]
               (Background.registry_of
                  (Background.startPipeline (Some 42%N) (Some SampleTabs.options)
                     (SampleTabs.granted 1772359210000) ∅), 0%nat))))
  = Some "session_1772359210000".
Proof.
  destruct (X15_stop_saves_what_the_chunks_added 42%positive (Some SampleTabs.options)
              (SampleTabs.granted 1772359210000)
              [WorkerSteps.ChunkArrives "UklGRg=="; WorkerSteps.ChunkArrives "UklGRh==";
               WorkerSteps.Transcribed SampleRace.spoken;
               WorkerSteps.Transcribed SampleTabs.silence]
              "2026-03-01T10:00:20.000Z" ∅ eq_refl) as [Hsid _].
  exact Hsid.
Defined.

(** X16. Whatever messages and tab removals reach the service worker,
    starting with an empty registry: every registered pipeline state is
    stored under its own non-zero tab id, has a session id of the form
    [session_...], and holds only audio entries with [sub_] ids. *)
Theorem X16_registry_holds_only_audio_sessions (es : list Router.Event) :
  Router.registry_ok (Background.registry_of (Router.handle_all es ∅)).
Proof.
  assert (forall st, Router.registry_ok st ->
            Router.registry_ok (Background.registry_of (Router.handle_all es st))) as Hall.
  { induction es as [|e es IH]; intros st Hok.
    - done.
    - simpl. rewrite registry_of_bind. apply IH. by apply handle_ok. }
  apply Hall. intros t ps Hps. by rewrite lookup_empty in Hps.
Qed.

(** X17. An event changes the pipeline state of at most one tab, its
    target: the state of every other tab is what it was. *)
Theorem X17_event_touches_only_its_target
    (e : Router.Event) (st : gmap N Background.PipelineState) (t : N) :
  Router.target e <> Some t ->
  Background.registry_of (Router.handle e st) !! t = st !! t.
Proof.
  intros Hother. destruct (handle_registry e st t) as [Hsame|[Htarget _]]; [done|].
  by destruct Hother.
Qed.

Lemma X17_event_witness :
  Background.registry_of
    (Router.handle (Router.TabRemoved 7 "2026-03-01T10:02:00.000Z") SampleTabs.running)
    !! 42%N
  = SampleTabs.running !! 42%N.
Proof.
  apply (X17_event_touches_only_its_target
           (Router.TabRemoved 7 "2026-03-01T10:02:00.000Z") SampleTabs.running 42).
  simpl. discriminate.
Defined.

(** ** What the keyframe sweep keeps *)

Section SweepResult.
Import Keyframes.

Lemma step_keyframes (host : Z -> StepHost) (time : Z) (video : Video)
    (keyframes : list Keyframe) :
  (step time (host time) video keyframes).1.2
  = keyframes ++ (if keyframe_kept (host time) then [keyframe_at host time] else []).
Proof.
  unfold step, keyframe_kept, keyframe_at, saved_path.
  destruct (frame (host time)); simpl; [|by rewrite app_nil_r].
  destruct (saved (host time)) as [|code [path|]]; simpl; try by rewrite app_nil_r.
  destruct (Http.ok code); simpl; [done|by rewrite app_nil_r].
Qed.

Lemma sweep_keyframes (dur : Q) (host : Z -> StepHost) (fuel : nat) :
  forall time video keyframes video' keyframes' requests,
    sweep fuel time dur host video keyframes = Some (video', keyframes', requests) ->
    keyframes'
    = keyframes ++ map (keyframe_at host)
                     (filter (fun t => keyframe_kept (host t) = true)
                        (sweep_times fuel time dur)).
Proof.
  induction fuel as [|fuel IH]; intros time video keyframes video' keyframes' requests; simpl.
  - destruct (Qle_bool dur (inject_Z time)); [|done].
    intros [= <- <- <-]. by rewrite app_nil_r.
  - destruct (Qle_bool dur (inject_Z time)).
    { intros [= <- <- <-]. by rewrite app_nil_r. }
    pose proof (step_keyframes host time video keyframes) as Hstep.
    destruct (step time (host time) video keyframes) as [[video1 keyframes1] fx1].
    simpl in Hstep.
    destruct (sweep fuel (time + interval) dur host video1 keyframes1)
      as [[[video2 keyframes2] fx2]|] eqn:Hsweep; [|done].
    intros [= <- <- <-]. rewrite (IH _ _ _ _ _ _ Hsweep), Hstep, <- app_assoc. f_equal.
    rewrite filter_cons. destruct (keyframe_kept (host time)); case_decide; done.
Qed.

(** The loop visits 0, 3, 6, ... below the duration, in this order. *)
Lemma sweep_times_spec (dur : Q) (fuel : nat) :
  forall time,
    (Qceiling dur - time <= Z.of_nat fuel)%Z ->
    (forall t, In t (sweep_times fuel time dur)
               <-> (exists q, (0 <= q)%Z /\ t = (time + 3 * q)%Z) /\ (inject_Z t < dur)%Q)
    /\ StronglySorted Z.lt (sweep_times fuel time dur).
Proof.
  assert (forall time t, Qle_bool dur (inject_Z time) = true -> (time <= t)%Z ->
                         ~ (inject_Z t < dur)%Q) as Hpast.
  { intros time t Hle Ht Hlt. apply Qle_bool_iff in Hle.
    apply (Qlt_not_le _ _ Hlt). apply Qle_trans with (inject_Z time); [done|].
    by rewrite <- Zle_Qle. }
  induction fuel as [|fuel IH]; intros time Hfuel; simpl.
  - assert (Qle_bool dur (inject_Z time) = true) as Hle.
    { apply Qle_bool_iff. apply Qle_trans with (inject_Z (Qceiling dur)).
      - apply Qle_ceiling.
      - rewrite <- Zle_Qle. lia. }
    rewrite Hle. split; [|constructor].
    intros t. split; [done|]. intros [(q & Hq & ->) Hlt].
    exfalso. apply (Hpast time (time + 3 * q)%Z); [done|lia|done].
  - destruct (Qle_bool dur (inject_Z time)) eqn:Hle.
    { split; [|constructor]. intros t. split; [done|]. intros [(q & Hq & ->) Hlt].
      exfalso. apply (Hpast time (time + 3 * q)%Z); [done|lia|done]. }
    destruct (IH (time + interval)%Z) as [Hin Hsorted]; [unfold interval; lia|].
    assert (inject_Z time < dur)%Q as Hnow.
    { apply Qnot_le_lt. intros H. apply Qle_bool_iff in H. congruence. }
    split.
    + intros t. simpl. rewrite Hin. unfold interval. split.
      * intros [<-|[(q & Hq & ->) Hlt]].
        -- split; [|done]. exists 0%Z. split; lia.
        -- split; [|done]. exists (q + 1)%Z. split; lia.
      * intros [(q & Hq & ->) Hlt].
        destruct (decide (q = 0%Z)) as [->|Hne]; [left; lia|].
        right. split; [|done]. exists (q - 1)%Z. split; lia.
    + constructor; [done|]. apply Forall_forall. intros t Ht.
      apply list_elem_of_In, Hin in Ht as [(q & Hq & ->) _]. unfold interval. lia.
Qed.

Lemma filter_sorted (P : Z -> Prop) `{!forall t, Decision (P t)} (l : list Z) :
  StronglySorted Z.lt l -> StronglySorted Z.lt (filter P l).
Proof.
  induction 1 as [|t l Hsorted IH Hall]; [constructor|].
  rewrite filter_cons. case_decide; [|done].
  constructor; [done|]. apply Forall_forall. intros u Hu.
  apply list_elem_of_filter in Hu as [_ Hu].
  rewrite Forall_forall in Hall. by apply Hall.
Qed.

(** The keyframes with which [handleExtractKeyframes] ends. *)
Lemma extracted_keyframes_spec (video : Video) (host : Z -> StepHost)
    (hosts : nat -> Session.Host) (sm : Session.SessionManager) (dur : Q) :
  duration video = Some dur ->
  exists ts,
    extracted_keyframes (handleExtractKeyframes (Some video) host hosts sm)
    = map (keyframe_at host) ts
    /\ session_after_extract (handleExtractKeyframes (Some video) host hosts sm) sm
       = add_keyframes (map (keyframe_at host) ts) hosts 0 sm
    /\ (forall t, In t ts
                  <-> (0 <= t)%Z /\ (t mod 3 = 0)%Z /\ (inject_Z t < dur)%Q
                      /\ keyframe_kept (host t) = true)
    /\ StronglySorted Z.lt ts.
Proof.
  intros Hdur. unfold handleExtractKeyframes. rewrite Hdur.
  destruct (Qeq_bool dur 0) eqn:Hzero.
  { exists []. split; [done|]. split; [done|]. split; [|constructor].
    intros t. split; [done|]. intros (Ht & _ & Hlt & _).
    apply Qeq_bool_iff in Hzero. rewrite Hzero in Hlt.
    change 0%Q with (inject_Z 0) in Hlt. rewrite <- Zlt_Qlt in Hlt. lia. }
  destruct (sweep_total dur host (enough dur) 0
              (if negb (paused video) then pause video else video) [])
    as (video1 & keyframes & requests & Hsweep & _).
  { unfold enough. lia. }
  rewrite Hsweep. apply sweep_keyframes in Hsweep.
  destruct (sweep_times_spec dur (enough dur) 0) as [Hin Hsorted].
  { unfold enough. lia. }
  eexists. split; [exact Hsweep|]. split; [by rewrite Hsweep|]. split.
  - intros t. rewrite <- list_elem_of_In, list_elem_of_filter, list_elem_of_In, Hin.
    split.
    + intros (Hkept & (q & Hq & ->) & Hlt). repeat split; try done.
      * lia.
      * rewrite Z.add_0_l, Z.mul_comm. apply Z_mod_mult.
    + intros (Ht & Hmod & Hlt & Hkept). split; [done|]. split; [|done].
      exists (t / 3)%Z. split; [apply Z.div_pos; lia|].
      pose proof (Z_div_mod_eq_full t 3). lia.
  - by apply filter_sorted.
Qed.

Lemma add_keyframes_entries (host : Z -> StepHost) (ts : list Z)
    (hosts : nat -> Session.Host) (n : nat) (sm : Session.SessionManager) :
  exists es,
    Session.entries (add_keyframes (map (keyframe_at host) ts) hosts n sm)
    = Session.entries sm ++ es
    /\ Forall2 keyframe_entry_ok (map (keyframe_at host) ts) es.
Proof.
  revert n sm. induction ts as [|t ts IH]; intros n sm; simpl.
  - exists []. split; [by rewrite app_nil_r|constructor].
  - destruct (IH (S n)
                (Session.addEntry "screen_ocr" (keyframe_payload (keyframe_at host t))
                   (hosts n) sm).1) as (es & Hes & Hall).
    rewrite Hes. unfold Session.addEntry. simpl. rewrite autoSave_entries. simpl.
    eexists (_ :: es). split; [by rewrite <- app_assoc|].
    constructor; [|done].
    unfold keyframe_entry_ok, Session.standard_entry. simpl.
    repeat split. by destruct (saved_path (host t)).
Qed.

End SweepResult.

(** X18. The keyframes with which [handleExtractKeyframes] ends, on a
    video with a duration: there is one for a time [t] exactly when [t] is
    one of 0, 3, 6, ... below the duration and the step at [t] captured a
    frame that [/api/save-image] accepted, so a failed step costs only its
    own keyframe; they are in ascending order of time, and each carries
    the id [keyframe_<clock>_<t>], the path the backend returned and the
    formatted time of its step. *)
Theorem X18_sweep_keeps_every_saved_step
    (video : Keyframes.Video) (host : Z -> Keyframes.StepHost)
    (hosts : nat -> Session.Host) (sm : Session.SessionManager) (dur : Q) :
  Keyframes.duration video = Some dur ->
  let keyframes :=
    extracted_keyframes (Keyframes.handleExtractKeyframes (Some video) host hosts sm) in
  (forall t, In t (map Keyframes.timestamp keyframes)
             <-> (0 <= t)%Z /\ (t mod 3 = 0)%Z /\ (inject_Z t < dur)%Q
                 /\ keyframe_kept (host t) = true)
  /\ StronglySorted Z.lt (map Keyframes.timestamp keyframes)
  /\ Forall (fun k => k = keyframe_at host (Keyframes.timestamp k)) keyframes.
Proof.
  intros Hdur keyframes.
  destruct (extracted_keyframes_spec video host hosts sm dur Hdur)
    as (ts & Hks & _ & Hin & Hsorted).
  subst keyframes. rewrite Hks.
  assert (map Keyframes.timestamp (map (keyframe_at host) ts) = ts) as ->.
  { rewrite map_map. simpl. apply map_id. }
  split; [done|]. split; [done|].
  apply Forall_forall. intros k (t & -> & _)%list_elem_of_fmap. done.
Qed.

Lemma X18_sweep_witness :
  let keyframes :=
    extracted_keyframes
      (Keyframes.handleExtractKeyframes (Some SampleVideo.clip) SampleVideo.flaky
         (fun _ => SampleCalls.host) SampleCalls.fresh) in
  (forall t, In t (map Keyframes.timestamp keyframes)
             <-> (0 <= t)%Z /\ (t mod 3 = 0)%Z /\ (inject_Z t < 10 # 1)%Q
                 /\ keyframe_kept (SampleVideo.flaky t) = true)
  /\ StronglySorted Z.lt (map Keyframes.timestamp keyframes)
  /\ Forall (fun k => k = keyframe_at SampleVideo.flaky (Keyframes.timestamp k)) keyframes.
Proof.
  apply (X18_sweep_keeps_every_saved_step SampleVideo.clip SampleVideo.flaky
           (fun _ => SampleCalls.host) SampleCalls.fresh (10 # 1)).
  reflexivity.
Defined.

(** X19. [handleExtractKeyframes] on a page whose video has a finite
    duration comes to an end and appends to the session one entry per
    keyframe it kept, in the order of the keyframes, after the entries
    already there: an [image] entry with the keyframe's image id and image
    path, confidence 1 and an empty text (the caption handed over as
    [text] is not read by [addEntry]). *)
Theorem X19_one_image_entry_per_keyframe
    (video : Keyframes.Video) (host : Z -> Keyframes.StepHost)
    (hosts : nat -> Session.Host) (sm : Session.SessionManager) (dur : Q) :
  Keyframes.duration video = Some dur ->
  let o := Keyframes.handleExtractKeyframes (Some video) host hosts sm in
  is_Some o
  /\ exists es,
       Session.entries (session_after_extract o sm) = Session.entries sm ++ es
       /\ Forall2 keyframe_entry_ok (extracted_keyframes o) es.
Proof.
  intros Hdur o. subst o. split.
  - unfold Keyframes.handleExtractKeyframes. rewrite Hdur.
    destruct (Qeq_bool dur 0); [by eexists|].
    destruct (sweep_total dur host (Keyframes.enough dur) 0
                (if negb (Keyframes.paused video) then Keyframes.pause video else video) [])
      as (video1 & keyframes & requests & -> & _).
    { unfold Keyframes.enough. lia. }
    by eexists.
  - destruct (extracted_keyframes_spec video host hosts sm dur Hdur)
      as (ts & -> & -> & _).
    apply add_keyframes_entries.
Qed.

Lemma X19_keyframe_entries_witness :
  let o := Keyframes.handleExtractKeyframes (Some SampleVideo.clip) SampleVideo.flaky
             (fun _ => SampleCalls.host) SampleCalls.fresh in
  is_Some o
  /\ exists es,
       Session.entries (session_after_extract o SampleCalls.fresh)
       = Session.entries SampleCalls.fresh ++ es
       /\ Forall2 keyframe_entry_ok (extracted_keyframes o) es.
Proof.
  apply (X19_one_image_entry_per_keyframe SampleVideo.clip SampleVideo.flaky
           (fun _ => SampleCalls.host) SampleCalls.fresh (10 # 1)).
  reflexivity.
Defined.

(** ** The recorder while it runs *)

Section Rotation.
Import Offscreen.

Lemma append_nil_r (s : string) : s +:+ "" = s.
Proof.
  induction s as [|a s IH]; [done|].
  change (String a (s +:+ "") = String a s). by rewrite IH.
Qed.

Lemma append_assoc (s1 s2 s3 : string) : (s1 +:+ s2) +:+ s3 = s1 +:+ s2 +:+ s3.
Proof.
  induction s1 as [|a s1 IH]; [done|].
  change (String a ((s1 +:+ s2) +:+ s3) = String a (s1 +:+ s2 +:+ s3)). by rewrite IH.
Qed.

Lemma joined_app (l1 l2 : list string) : joined (l1 ++ l2) = joined l1 +:+ joined l2.
Proof.
  induction l1 as [|s l1 IH]; simpl; [done|]. by rewrite IH, append_assoc.
Qed.

(** Brings both sides to a right-nested chain of appends. *)
Ltac str_norm :=
  rewrite ?joined_app; simpl; rewrite ?joined_app;
  rewrite ?append_nil_r, ?append_assoc; rewrite ?append_nil_r.

(** One event of a running recording: the audio held grows by what the
    event delivers, and a message that is sent goes to the target tab. *)
Lemma handle_rotation (c : Context) (e : Event) :
  isStopping (vars c) = false ->
  chunks (vars c) = [] ->
  is_recording c = true ->
  is_rotation e = true ->
  isStopping (vars (handle c e)) = false
  /\ chunks (vars (handle c e)) = []
  /\ is_recording (handle c e) = true
  /\ targetTabId (vars (handle c e)) = targetTabId (vars c)
  /\ recorded (handle c e) = recorded c +:+ delivered [e]
  /\ exists blobs,
       sent (handle c e) = sent c ++ map (chunk_message (targetTabId (vars c))) blobs.
Proof.
  intros Hstop Hchunks Hrec He. unfold recorded, delivered.
  destruct e; try done; simpl.
  - rewrite Hrec. simpl. repeat split; try done.
    + by str_norm.
    + exists []. by rewrite app_nil_r.
  - rewrite Hrec. destruct (0 <? intervals c)%nat; simpl.
    + repeat split; try done.
      * by str_norm.
      * exists []. by rewrite app_nil_r.
    + repeat split; try done.
      * by str_norm.
      * exists []. by rewrite app_nil_r.
  - destruct (stop_events c) as [|data rest] eqn:Hq.
    + rewrite Hq. repeat split; try done.
      * by str_norm.
      * exists []. by rewrite app_nil_r.
    + unfold onstop. rewrite Hstop, Hchunks. simpl.
      unfold is_recording in *. simpl. repeat split; try done.
      * destruct data; simpl; by str_norm.
      * exists []. by rewrite app_nil_r.
  - destruct (encoding c) as [|blob rest] eqn:Henc.
    + rewrite Henc. repeat split; try done.
      * by str_norm.
      * exists []. by rewrite app_nil_r.
    + simpl. unfold is_recording in *. simpl. repeat split; try done.
      * rewrite map_app. by str_norm.
      * by exists [blob].
Qed.

(** Events that leave the live intervals and the [timer] variable alone. *)
Lemma handle_interval_kept (c : Context) (e : Event) :
  sets_interval e = false ->
  is_stop_audio e = false ->
  intervals (handle c e) = intervals c /\ timer (vars (handle c e)) = timer (vars c).
Proof.
  intros Hset Hstop. destruct e; try done; simpl.
  - unfold on_start_audio. by destruct (Js.truthy_str streamId).
  - unfold on_stream. destruct stream_ok; [|done]. simpl in Hset. by rewrite Hset.
  - by destruct (is_recording c).
  - by destruct (_ && _).
  - destruct (stop_events c); [done|]. unfold onstop. by destruct (isStopping _).
  - by destruct (encoding c).
Qed.

Lemma handle_all_interval_kept (es : list Event) (c : Context) :
  forallb (fun e => negb (sets_interval e) && negb (is_stop_audio e)) es = true ->
  intervals (handle_all c es) = intervals c
  /\ timer (vars (handle_all c es)) = timer (vars c).
Proof.
  revert c. induction es as [|e es IH]; intros c Hes; simpl; [done|].
  simpl in Hes. apply andb_true_iff in Hes as [He Hes].
  apply andb_true_iff in He as [H1%negb_true_iff H2%negb_true_iff].
  destruct (handle_interval_kept c e H1 H2) as [Hi Ht].
  destruct (IH (handle c e) Hes) as [Hi' Ht']. unfold handle_all in *.
  by rewrite Hi', Ht', Hi, Ht.
Qed.

(** With [timer] cleared, only a new start changes the live intervals. *)
Lemma handle_all_unreachable (es : list Event) (c : Context) :
  timer (vars c) = false ->
  forallb (fun e => negb (sets_interval e)) es = true ->
  intervals (handle_all c es) = intervals c.
Proof.
  revert c. induction es as [|e es IH]; intros c Htimer Hes; simpl; [done|].
  simpl in Hes. apply andb_true_iff in Hes as [He%negb_true_iff Hes].
  destruct (is_stop_audio e) eqn:Hstop.
  - destruct e; try done. unfold handle_all in *. rewrite IH; [|simpl|done].
    + simpl. unfold on_stop_audio. simpl. rewrite Htimer.
      by destruct (is_recording _).
    + unfold on_stop_audio. simpl. by destruct (is_recording _).
  - destruct (handle_interval_kept c e He Hstop) as [Hi Ht]. unfold handle_all in *.
    rewrite IH; [done| |done]. by rewrite Ht.
Qed.

Lemma handle_all_app (c : Context) (es1 es2 : list Event) :
  handle_all c (es1 ++ es2) = handle_all (handle_all c es1) es2.
Proof. apply fold_left_app. Qed.

End Rotation.

(** X23. The stopping flag covers what is still in the recorder: once
    [STOP_AUDIO] has been handled, and until a new [START_AUDIO] arrives,
    whatever stop events, timer callbacks and audio follow, the flag stays
    set and the only messages still sent are blobs whose [onstop] handler
    had passed the flag check before the stop (those at the base64 step),
    in their order; the final partial chunk and every queued stop event
    are dropped. *)
Theorem X23_stop_flag_drops_what_the_recorder_holds
    (c : Offscreen.Context) (es : list Offscreen.Event) :
  forallb (fun e => negb (Offscreen.is_start e)) es = true ->
  let stopped := Offscreen.handle c Offscreen.StopAudioMsg in
  Offscreen.isStopping (Offscreen.vars (Offscreen.handle_all stopped es)) = true
  /\ exists k,
       Offscreen.sent (Offscreen.handle_all stopped es)
       = Offscreen.sent c
         ++ map (Offscreen.chunk_message (Offscreen.targetTabId (Offscreen.vars c)))
              (take k (Offscreen.encoding c)).
Proof.
  intros Hes stopped.
  assert (Offscreen.isStopping (Offscreen.vars stopped) = true
          /\ Offscreen.sent stopped = Offscreen.sent c
          /\ Offscreen.encoding stopped = Offscreen.encoding c
          /\ Offscreen.targetTabId (Offscreen.vars stopped)
             = Offscreen.targetTabId (Offscreen.vars c)) as (Hflag & Hs & He & Ht).
  { subst stopped. simpl. unfold Offscreen.on_stop_audio. simpl.
    destruct (Offscreen.is_recording _); simpl; done. }
  destruct (handle_all_stopping es stopped Hflag Hes) as (Hfinal & k & Hk).
  split; [done|]. exists k. by rewrite Hk, Hs, He, Ht.
Qed.

Lemma X23_stop_flag_witness :
  Offscreen.sent
    (Offscreen.handle_all
       (Offscreen.handle SampleAudio.rotating Offscreen.StopAudioMsg)
       SampleAudio.after_stop) = [].
Proof.
  destruct (X23_stop_flag_drops_what_the_recorder_holds SampleAudio.rotating
              SampleAudio.after_stop eq_refl) as [_ [k Hk]].
  rewrite Hk. simpl. by rewrite take_nil.
Defined.

(** X20. While the recorder runs (no stop requested, no new start), no
    audio is lost or reordered by the rotation: after any schedule of
    audio deliveries, rotation timers, stop events and finished encodings,
    the chunks sent so far followed by what is still held (blobs being
    encoded, queued stop events, the running recording) are the audio
    held before followed by the audio delivered, and every message sent
    meanwhile carries the tab of the recording. *)
Theorem X20_rotation_loses_no_audio (c : Offscreen.Context) (es : list Offscreen.Event) :
  Offscreen.isStopping (Offscreen.vars c) = false ->
  Offscreen.chunks (Offscreen.vars c) = [] ->
  Offscreen.is_recording c = true ->
  forallb is_rotation es = true ->
  recorded (Offscreen.handle_all c es) = recorded c +:+ delivered es
  /\ exists blobs,
       Offscreen.sent (Offscreen.handle_all c es)
       = Offscreen.sent c
           ++ map (Offscreen.chunk_message (Offscreen.targetTabId (Offscreen.vars c))) blobs.
Proof.
  revert c. induction es as [|e es IH]; intros c Hstop Hchunks Hrec Hes.
  - simpl. split; [by rewrite append_nil_r|]. exists []. by rewrite app_nil_r.
  - simpl in Hes. apply andb_true_iff in Hes as [He Hes].
    destruct (handle_rotation c e Hstop Hchunks Hrec He)
      as (Hstop' & Hchunks' & Hrec' & Htab & Haudio & blobs & Hsent).
    destruct (IH (Offscreen.handle c e) Hstop' Hchunks' Hrec' Hes)
      as (Haudio' & blobs' & Hsent').
    simpl. unfold Offscreen.handle_all in *. split.
    + rewrite Haudio', Haudio, append_assoc. f_equal.
      unfold delivered. simpl. by rewrite app_nil_r, joined_app.
    + exists (blobs ++ blobs'). by rewrite Hsent', Hsent, Htab, map_app, app_assoc.
Qed.

Lemma X20_rotation_witness :
  recorded
    (Offscreen.handle_all SampleAudio.rotating
       [Offscreen.Audio "-more"; Offscreen.TimerFires; Offscreen.RecorderStopped;
        Offscreen.EncodingDone])
  = recorded SampleAudio.rotating
      +:+ delivered [Offscreen.Audio "-more"; Offscreen.TimerFires;
                     Offscreen.RecorderStopped; Offscreen.EncodingDone]
  /\ exists blobs,
       Offscreen.sent
         (Offscreen.handle_all SampleAudio.rotating
            [Offscreen.Audio "-more"; Offscreen.TimerFires; Offscreen.RecorderStopped;
             Offscreen.EncodingDone])
       = Offscreen.sent SampleAudio.rotating
           ++ map (Offscreen.chunk_message
                     (Offscreen.targetTabId (Offscreen.vars SampleAudio.rotating))) blobs.
Proof.
  apply (X20_rotation_loses_no_audio SampleAudio.rotating
           [Offscreen.Audio "-more"; Offscreen.TimerFires; Offscreen.RecorderStopped;
            Offscreen.EncodingDone]); reflexivity.
Defined.

(** X21. A start that replaces a running recorder leaks its rotation
    interval: [timer] then refers to the new interval only, so after two
    starts that both reached [setInterval] with no stop in between, the
    next STOP_AUDIO clears one interval and the other stays live,
    whatever happens afterwards short of a new start. *)
Theorem X21_second_start_leaks_an_interval
    (c : Offscreen.Context) (mime1 mime2 : option string)
    (between after : list Offscreen.Event) :
  Js.truthy_str mime1 = true ->
  Js.truthy_str mime2 = true ->
  forallb (fun e => negb (sets_interval e) && negb (is_stop_audio e)) between = true ->
  forallb (fun e => negb (sets_interval e)) after = true ->
  let c' :=
    Offscreen.handle_all c
      ([Offscreen.StreamReady true mime1] ++ between
         ++ [Offscreen.StreamReady true mime2; Offscreen.StopAudioMsg] ++ after) in
  Offscreen.intervals c' = S (Offscreen.intervals c).
Proof.
  intros H1 H2 Hbetween Hafter c'. subst c'. rewrite !handle_all_app.
  change (Offscreen.handle_all c [Offscreen.StreamReady true mime1])
    with (Offscreen.on_stream true mime1 c).
  destruct (handle_all_interval_kept between (Offscreen.on_stream true mime1 c) Hbetween)
    as [Hi Ht].
  set (c1 := Offscreen.handle_all (Offscreen.on_stream true mime1 c) between) in *.
  change (Offscreen.handle_all c1 [Offscreen.StreamReady true mime2; Offscreen.StopAudioMsg])
    with (Offscreen.on_stop_audio (Offscreen.on_stream true mime2 c1)).
  unfold Offscreen.on_stream in Hi, Ht. rewrite H1 in Hi, Ht. simpl in Hi, Ht.
  rewrite handle_all_unreachable; [| |done].
  - unfold Offscreen.on_stop_audio, Offscreen.on_stream. rewrite H2. simpl.
    exact Hi.
  - unfold Offscreen.on_stop_audio, Offscreen.on_stream. rewrite H2. done.
Qed.

Lemma X21_second_start_witness :
  Offscreen.intervals
    (Offscreen.handle_all Offscreen.loaded
       ([Offscreen.StreamReady true (Some "audio/webm")]
          ++ [Offscreen.Audio "first"; Offscreen.TimerFires]
          ++ [Offscreen.StreamReady true (Some "audio/webm"); Offscreen.StopAudioMsg]
          ++ [Offscreen.RecorderStopped; Offscreen.StopAudioMsg; Offscreen.TimerFires]))
  = 1%nat.
Proof.
  apply (X21_second_start_leaks_an_interval Offscreen.loaded
           (Some "audio/webm") (Some "audio/webm")
           [Offscreen.Audio "first"; Offscreen.TimerFires]
           [Offscreen.RecorderStopped; Offscreen.StopAudioMsg; Offscreen.TimerFires]);
    reflexivity.
Defined.

(** X22. STOP_AUDIO is idempotent: a second stop request right after the
    first changes nothing; in particular it queues no further stop event
    and clears no further interval. *)
Theorem X22_stop_audio_twice_is_stop_audio (c : Offscreen.Context) :
  Offscreen.on_stop_audio (Offscreen.on_stop_audio c) = Offscreen.on_stop_audio c.
Proof.
  unfold Offscreen.on_stop_audio, Offscreen.is_recording. simpl.
  destruct (Offscreen.recorder (Offscreen.vars c)) as [[|]|]; simpl; done.
Qed.
